(** * Bulk WHOIS / RDAP lookup service: a shallow embedding of
      [backend/whois_rdap_service.py] and the properties of its
      normalisers, its per-domain orchestration and its batch stream.

    Conventions of the embedding.
    - A Python [str] is a [string]; its characters are read as the code
      points U+0000..U+00FF.
    - A parsed JSON document, and every value stored in a result
      dictionary, is a [json] value; a Python [dict] is an association
      list in insertion order.
    - Exceptions are values of [exn]; a computation that may raise
      returns a [res].
    - The outside world (HTTP, the WHOIS client, the [whois] command) is
      an oracle that answers from the history of calls made so far; the
      history is the only state that is threaded.
    - A stream is the list of events of a response that is read to its
      end; the pause between two domains and the disconnection of the
      client are left out.
    - The generator is modelled for any HTTP client; the endpoint runs
      it with the client it has already closed ([closed_client]). *)

From Stdlib Require Import Strings.String Strings.Ascii NArith ZArith QArith.
From Stdlib Require Import Numbers.DecimalString.
From stdpp Require Import gmap strings list.

Set Warnings "-register-all".

Open Scope string_scope.
Open Scope list_scope.

(** ** Python string primitives *)

Module Py.

(** [str.isspace] on one character (code points below 256). *)
Definition is_space (c : ascii) : bool :=
  let n := N_of_ascii c in
  ((9 <=? n) && (n <=? 13) || (28 <=? n) && (n <=? 32)
   || (n =? 133) || (n =? 160))%N.

Definition lower_char (c : ascii) : ascii :=
  let n := N_of_ascii c in
  if ((65 <=? n) && (n <=? 90)
      || (192 <=? n) && (n <=? 222) && negb (n =? 215))%N
  then ascii_of_N (n + 32) else c.

(** [str.lower]. *)
Fixpoint lower (s : string) : string :=
  match s with
  | EmptyString => EmptyString
  | String c t => String (lower_char c) (lower t)
  end.

(** One character of [str.upper]: U+00DF becomes two letters; U+00B5 and
    U+00FF, whose capitals lie beyond U+00FF, are left in place. *)
Definition upper_char (c : ascii) : string :=
  let n := N_of_ascii c in
  if ((97 <=? n) && (n <=? 122)
      || (224 <=? n) && (n <=? 254) && negb (n =? 247))%N
  then String (ascii_of_N (n - 32)) EmptyString
  else if (n =? 223)%N then "SS"
  else String c EmptyString.

(** [str.upper]. *)
Fixpoint upper (s : string) : string :=
  match s with
  | EmptyString => EmptyString
  | String c t => upper_char c +:+ upper t
  end.

Definition is_empty (s : string) : bool :=
  match s with EmptyString => true | _ => false end.

Fixpoint lstrip_by (p : ascii -> bool) (s : string) : string :=
  match s with
  | EmptyString => EmptyString
  | String c t => if p c then lstrip_by p t else s
  end.

Fixpoint rstrip_by (p : ascii -> bool) (s : string) : string :=
  match s with
  | EmptyString => EmptyString
  | String c t =>
      let t' := rstrip_by p t in
      if is_empty t' && p c then EmptyString else String c t'
  end.

(** [s.strip()]. *)
Definition strip (s : string) : string :=
  rstrip_by is_space (lstrip_by is_space s).

Fixpoint mem_char (c : ascii) (chars : string) : bool :=
  match chars with
  | EmptyString => false
  | String d t => Ascii.eqb c d || mem_char c t
  end.

(** [s.rstrip(chars)]. *)
Definition rstrip (chars : string) (s : string) : string :=
  rstrip_by (fun c => mem_char c chars) s.

(** [s.startswith(p)]. *)
Fixpoint startswith (p s : string) : bool :=
  match p with
  | EmptyString => true
  | String a p' =>
      match s with
      | EmptyString => false
      | String b s' => Ascii.eqb a b && startswith p' s'
      end
  end.

(** [needle in s]. *)
Fixpoint contains (needle s : string) : bool :=
  startswith needle s ||
  match s with
  | EmptyString => false
  | String _ t => contains needle t
  end.

Fixpoint drop (n : nat) (s : string) : string :=
  match n with
  | O => s
  | S n' => match s with EmptyString => EmptyString | String _ t => drop n' t end
  end.

(** [s.endswith(p)]. *)
Fixpoint endswith (p s : string) : bool :=
  String.eqb p s ||
  match s with
  | EmptyString => false
  | String _ t => endswith p t
  end.

(** The text before and after the leftmost occurrence of a non-empty
    separator, if there is one. *)
Fixpoint cut (sep s : string) : option (string * string) :=
  if startswith sep s then Some (EmptyString, drop (String.length sep) s)
  else match s with
       | EmptyString => None
       | String c t =>
           match cut sep t with
           | Some (a, b) => Some (String c a, b)
           | None => None
           end
       end.

(** [s.split(sep, 1)]. *)
Definition split1 (sep s : string) : list string :=
  match cut sep s with
  | Some (a, b) => [a; b]
  | None => [s]
  end.

Fixpoint split_fuel (fuel : nat) (sep s : string) : list string :=
  match fuel with
  | O => [s]
  | S fuel' =>
      match cut sep s with
      | Some (a, b) => a :: split_fuel fuel' sep b
      | None => [s]
      end
  end.

(** [s.split(sep)] for a non-empty separator: every cut consumes at least
    one character, so the length of [s] is fuel enough. *)
Definition split (sep s : string) : list string :=
  split_fuel (String.length s) sep s.

(** The text after the rightmost occurrence of a non-empty separator. *)
Fixpoint after_last (sep s : string) : option string :=
  match s with
  | EmptyString => None
  | String _ t =>
      match after_last sep t with
      | Some r => Some r
      | None => if startswith sep s then Some (drop (String.length sep) s) else None
      end
  end.

(** [s.rsplit(sep, 1)[-1]], also [s.split(sep)[-1]]. *)
Definition last_field (sep s : string) : string :=
  match after_last sep s with Some r => r | None => s end.

(** [s.split(sep, 1)[-1]]. *)
Definition split1_last (sep s : string) : string :=
  match cut sep s with Some (_, b) => b | None => s end.

(** [xs[0]] of a split, which is never empty. *)
Definition first_field (sep s : string) : string :=
  match split sep s with a :: _ => a | [] => s end.

(** [re.split(r"[;\n,]+", s)]: the pieces between maximal runs of
    separators; [in_run] records that the previous character was one. *)
Definition is_status_sep (c : ascii) : bool :=
  let n := N_of_ascii c in ((n =? 59) || (n =? 10) || (n =? 44))%N.

Fixpoint re_split_run (in_run : bool) (s : string) : list string :=
  match s with
  | EmptyString => [EmptyString]
  | String c t =>
      if is_status_sep c then
        if in_run then re_split_run true t
        else EmptyString :: re_split_run true t
      else
        match re_split_run false t with
        | p :: ps => String c p :: ps
        | [] => [String c EmptyString]
        end
  end.

Definition re_split_status (s : string) : list string :=
  re_split_run false s.

(** Line boundaries of [str.splitlines] below U+0100. *)
Definition is_linebreak (c : ascii) : bool :=
  let n := N_of_ascii c in
  ((10 <=? n) && (n <=? 13) || (28 <=? n) && (n <=? 30) || (n =? 133))%N.

Fixpoint splitlines_from (after_cr : bool) (s : string) : list string :=
  match s with
  | EmptyString => []
  | String c t =>
      if after_cr && (N_of_ascii c =? 10)%N then splitlines_from false t
      else if is_linebreak c then
        EmptyString :: splitlines_from (N_of_ascii c =? 13)%N t
      else
        match splitlines_from false t with
        | p :: ps => String c p :: ps
        | [] => [String c EmptyString]
        end
  end.

(** [s.splitlines()]. *)
Definition splitlines (s : string) : list string := splitlines_from false s.

(** [sep.join(xs)]. *)
Fixpoint join (sep : string) (xs : list string) : string :=
  match xs with
  | [] => EmptyString
  | [x] => x
  | x :: rest => x +:+ sep +:+ join sep rest
  end.

End Py.

(** ** Values, exceptions and the dynamic operations of Python *)

(** A parsed JSON value. Objects keep their members in insertion order;
    a parsed document has pairwise distinct member names. Integers and
    floats are kept apart because [str] prints them differently. *)
Inductive json : Type :=
| JNull
| JBool (b : bool)
| JInt (z : Z)
| JFloat (q : Q)
| JStr (s : string)
| JList (items : list json)
| JObj (members : list (string * json)).

(** The built-in errors the dynamic operations raise, with the value
    they were applied to. *)
Inductive builtin_error : Type :=
| AttributeError (v : json)
| TypeError (v : json)
| KeyError (index : nat)
| IndexError (v : json).

(** The exceptions the service tells apart by class: the two [httpx]
    classes it catches by name and every other [Exception]; each carries
    its [str()]. *)
Inductive exn : Type :=
| HTTPStatusError (status_code : Z) (text : string)
| RequestError (text : string)
| Exception (text : string).

Definition exn_str (e : exn) : string :=
  match e with
  | HTTPStatusError _ t => t
  | RequestError t => t
  | Exception t => t
  end.

Inductive res (A : Type) : Type :=
| Ok (a : A)
| Raise (e : exn).
Arguments Ok {A} a.
Arguments Raise {A} e.

#[global] Instance res_ret : MRet res := fun A a => Ok a.
#[global] Instance res_bind : MBind res := fun A B f m =>
  match m with
  | Ok a => f a
  | Raise e => Raise e
  end.

(** What the interpreter contributes and the service does not inspect:
    the text [str()] gives a value that is not a string, and the message
    of a built-in error. *)
Class Runtime := {
  repr : json -> string;
  error_text : builtin_error -> string
}.

Definition dict := list (string * json).

Fixpoint dict_get (k : string) (d : dict) : option json :=
  match d with
  | [] => None
  | (k', v) :: rest => if String.eqb k k' then Some v else dict_get k rest
  end.

(** [d[k] = v]: an existing key keeps its place, a new key goes last. *)
Fixpoint dict_set (k : string) (v : json) (d : dict) : dict :=
  match d with
  | [] => [(k, v)]
  | (k', v') :: rest =>
      if String.eqb k k' then (k', v) :: rest else (k', v') :: dict_set k v rest
  end.

Definition dict_has (k : string) (d : dict) : bool :=
  match dict_get k d with Some _ => true | None => false end.

Definition dict_keys (d : dict) : list string := map fst d.

Fixpoint chars (s : string) : list json :=
  match s with
  | EmptyString => []
  | String c t => JStr (String c EmptyString) :: chars t
  end.

Section Dynamic.
Context `{Runtime}.

Definition builtin {A} (e : builtin_error) : res A :=
  Raise (Exception (error_text e)).

(** [bool(v)]. *)
Definition truthy (v : json) : bool :=
  match v with
  | JNull => false
  | JBool b => b
  | JInt z => negb (z =? 0)%Z
  | JFloat q => negb (Qnum q =? 0)%Z
  | JStr s => negb (Py.is_empty s)
  | JList l => match l with [] => false | _ => true end
  | JObj m => match m with [] => false | _ => true end
  end.

(** [str(v)]. *)
Definition py_str (v : json) : string :=
  match v with
  | JStr s => s
  | _ => repr v
  end.

(** [v.get(k, default)]. *)
Definition py_get (v : json) (k : string) (default : json) : res json :=
  match v with
  | JObj m => Ok (match dict_get k m with Some x => x | None => default end)
  | _ => builtin (AttributeError v)
  end.

(** The items a [for] loop or a generator expression draws from [v]. *)
Definition py_iter (v : json) : res (list json) :=
  match v with
  | JList l => Ok l
  | JStr s => Ok (chars s)
  | JObj m => Ok (map JStr (dict_keys m))
  | _ => builtin (TypeError v)
  end.

(** [len(v)]. *)
Definition py_len (v : json) : res nat :=
  match v with
  | JList l => Ok (length l)
  | JStr s => Ok (String.length s)
  | JObj m => Ok (length m)
  | _ => builtin (TypeError v)
  end.

(** [v[i]] for a literal index [i >= 0]; the keys of a parsed object are
    strings, so an integer subscript of an object is a [KeyError]. *)
Definition py_index (v : json) (i : nat) : res json :=
  match v with
  | JList l => match nth_error l i with Some x => Ok x | None => builtin (IndexError v) end
  | JStr s => match nth_error (chars s) i with Some x => Ok x | None => builtin (IndexError v) end
  | JObj _ => builtin (KeyError i)
  | _ => builtin (TypeError v)
  end.

(** [v == s] for a string literal [s]. *)
Definition eq_str (v : json) (s : string) : bool :=
  match v with
  | JStr t => String.eqb t s
  | _ => false
  end.

(** [s in v] for a string literal [s]. *)
Definition py_in (s : string) (v : json) : res bool :=
  match v with
  | JList l => Ok (existsb (fun x => eq_str x s) l)
  | JStr t => Ok (Py.contains s t)
  | JObj m => Ok (dict_has s m)
  | _ => builtin (TypeError v)
  end.

(** [v.lower()]. *)
Definition py_lower (v : json) : res string :=
  match v with
  | JStr s => Ok (Py.lower s)
  | _ => builtin (AttributeError v)
  end.

Definition is_str (v : json) : bool :=
  match v with JStr _ => true | _ => false end.

(** [next((x for x in xs if test(x)), None)]: the first item that passes;
    a test that raises before one is found raises. *)
Fixpoint first_where (test : json -> res bool) (xs : list json) : res json :=
  match xs with
  | [] => Ok JNull
  | x :: rest =>
      b ← test x;
      if b : bool then Ok x else first_where test rest
  end.

(** [[f(x) for x in xs]]. *)
Fixpoint map_res {A B} (f : A -> res B) (xs : list A) : res (list B) :=
  match xs with
  | [] => Ok []
  | x :: rest => y ← f x; ys ← map_res f rest; Ok (y :: ys)
  end.

End Dynamic.

(** ** RDAP: server selection, query URL and normalisation ([query_rdap]) *)

Definition NOT_FOUND : string := "Not found".

(** The record returned for [neustar.biz] without any lookup. *)
Definition neustar_statuses : list string :=
  ["clientDeleteProhibited"; "clientTransferProhibited";
   "clientUpdateProhibited"; "serverDeleteProhibited";
   "serverTransferProhibited"; "serverUpdateProhibited"].

Definition neustar_record : dict :=
  [("domain", JStr "neustar.biz");
   ("registrar", JStr "Registry Services, LLC");
   ("statuses", JList (map JStr neustar_statuses));
   ("creation_date", JStr "2001-11-07T00:00:00Z");
   ("registrant_name", JStr "Not available via RDAP");
   ("nexus_categories", JStr "Not available via RDAP");
   ("nameservers", JList [JStr "ns1.dns.nic.biz"; JStr "ns2.dns.nic.biz"])].

(** The nested [extract_status_code] (lines 181-202). *)
Definition extract_status_code (s : string) : string :=
  let s := Py.strip s in
  if Py.is_empty s then EmptyString
  else
    let s :=
      if Py.contains "http://" s || Py.contains "https://" s then
        let parts := Py.split1 " http" s in
        let pre := Py.strip (List.hd EmptyString parts) in
        if negb (Py.is_empty pre) then pre
        else
          let url := s in
          if Py.contains "#" url then Py.last_field "#" url
          else Py.last_field "/" (Py.rstrip "/" url)
      else s in
    Py.rstrip " ;." s.

(** [code and code != "Not found" and code not in formatted_statuses],
    then [append] (lines 220-221). *)
Definition add_status_code (formatted : list string) (code : string) : list string :=
  if negb (Py.is_empty code) && negb (String.eqb code NOT_FOUND)
     && negb (existsb (String.eqb code) formatted)
  then formatted ++ [code] else formatted.

(** The two URL-building branches of the server-selection [if]: line 97,
    taken when the base does not end in a slash, and line 99. *)
Definition url_base_without_slash (rdap_server_url domain_query : string) : string :=
  rdap_server_url +:+ "domain/" +:+ domain_query.

Definition url_base_with_slash (rdap_server_url domain_query : string) : string :=
  rdap_server_url +:+ "domain/" +:+ domain_query.

Section Rdap.
Context `{Runtime}.

(** [any(tld == s_tld.lower() for s_tld in ...)]. *)
Fixpoint any_tld (tld : string) (tlds : list json) : res bool :=
  match tlds with
  | [] => Ok false
  | s_tld :: rest =>
      l ← py_lower s_tld;
      if String.eqb tld l then Ok true else any_tld tld rest
  end.

(** The loop over the bootstrap services (lines 88-92); [JNull] is the
    initial [None]. *)
Fixpoint find_rdap_server (tld : string) (services : list json) : res json :=
  match services with
  | [] => Ok JNull
  | service_entry :: rest =>
      e0 ← py_index service_entry 0;
      tlds ← py_iter e0;
      hit ← any_tld tld tlds;
      if hit : bool then
        e1 ← py_index service_entry 1;
        n ← py_len e1;
        if (0 <? n)%nat then py_index e1 0 else find_rdap_server tld rest
      else find_rdap_server tld rest
  end.

(** Lines 94-99. *)
Definition rdap_query_url (rdap_server_url : json) (domain_query : string) : res string :=
  if negb (truthy rdap_server_url) then
    Ok ("https://rdap.org/domain/" +:+ domain_query)
  else
    match rdap_server_url with
    | JStr base =>
        if negb (Py.endswith "/" base)
        then Ok (url_base_without_slash base domain_query)
        else Ok (url_base_with_slash base domain_query)
    | _ => builtin (AttributeError rdap_server_url)
    end.

(** Lines 114-124. *)
Definition registrar_of (data : json) : res json :=
  entities ← py_get data "entities" (JList []);
  es ← py_iter entities;
  registrar_entity ←
    first_where (fun e => roles ← py_get e "roles" (JList []);
                          py_in "registrar" roles) es;
  found ←
    (if truthy registrar_entity then
       vcard ← py_get registrar_entity "vcardArray" (JList [JNull; JList []]);
       n ← py_len vcard;
       if (1 <? n)%nat then
         v1 ← py_index vcard 1;
         if truthy v1 then
           items ← py_iter v1;
           fn_entry ←
             first_where (fun item => i0 ← py_index item 0;
                                      Ok (eq_str i0 "fn")) items;
           if truthy fn_entry then
             m ← py_len fn_entry;
             if (3 <? m)%nat then r ← py_index fn_entry 3; Ok (Some r)
             else Ok None
           else Ok None
         else Ok None
       else Ok None
     else Ok None);
  Ok (match found with Some r => r | None => JStr NOT_FOUND end).

(** [[str(s) for s in v]] for a list, [[str(v)]] otherwise. *)
Definition str_items (v : json) : list json :=
  match v with
  | JList l => map (fun s => JStr (py_str s)) l
  | _ => [JStr (py_str v)]
  end.

(** The five places a status is collected from, in source order
    (lines 127-174). *)
Definition collect_statuses (data : dict) : res (list json) :=
  let get k := match dict_get k data with Some v => v | None => JNull end in
  s1 ←
    (if truthy (get "status") then
       match get "status" with
       | JList l =>
           if forallb is_str l then Ok l
           else map_res (fun s => py_get s "type" (JStr (py_str s))) l
       | v => Ok [JStr (py_str v)]
       end
     else Ok []);
  let s2 :=
    if truthy (get "domainStatus") then
      match get "domainStatus" with
      | JList l => l
      | v => [v]
      end
    else [] in
  let s3 :=
    match get "handle" with
    | JObj h =>
        let handle_status := match dict_get "status" h with Some v => v | None => JNull end in
        if truthy (JObj h) && truthy handle_status then
          match handle_status with
          | JList l => l
          | v => [JStr (py_str v)]
          end
        else []
    | _ => []
    end in
  let s4 :=
    flat_map (fun key =>
      if Py.contains "status" (Py.lower key)
         && negb (String.eqb key "status" || String.eqb key "domainStatus")
      then str_items (get key) else []) (dict_keys data) in
  let s5 :=
    flat_map (fun kv =>
      match snd kv with
      | JObj m =>
          match dict_get "status" m with
          | Some nested_status => str_items nested_status
          | None => []
          end
      | _ => []
      end) data in
  Ok (s1 ++ s2 ++ s3 ++ s4 ++ s5).

(** The tokens one collected status contributes (lines 206-216). *)
Definition status_parts (status : json) : list string :=
  match status with
  | JStr s =>
      List.filter (fun piece => negb (Py.is_empty piece))
                  (map Py.strip (Py.re_split_status s))
  | JObj m =>
      match dict_get "type" m with
      | Some t => [py_str t]
      | None => [py_str status]
      end
  | _ => [py_str status]
  end.

(** The formatting loop (lines 204-221). *)
Definition format_statuses (statuses : list json) : list string :=
  fold_left (fun formatted status =>
               fold_left (fun acc p => add_status_code acc (extract_status_code p))
                         (status_parts status) formatted)
            statuses [].

(** [parsed["statuses"]] (lines 127-237). *)
Definition rdap_statuses (domain_query : string) (data : dict) : res (list string) :=
  statuses ← collect_statuses data;
  match statuses with
  | _ :: _ => Ok (format_statuses statuses)
  | [] =>
      if String.eqb (Py.lower domain_query) "neustar.biz"
      then Ok neustar_statuses else Ok [NOT_FOUND]
  end.

(** [parsed["creation_date"]] (lines 241-242). *)
Definition rdap_creation_date (data : json) : res json :=
  events ← py_get data "events" (JList []);
  es ← py_iter events;
  registration_event ←
    first_where (fun e => a ← py_get e "eventAction" JNull;
                          Ok (eq_str a "registration")) es;
  if truthy registration_event
  then py_get registration_event "eventDate" JNull
  else Ok (JStr NOT_FOUND).

Fixpoint ldh_names (nss : list json) : res (list json) :=
  match nss with
  | [] => Ok []
  | ns :: rest =>
      n ← py_get ns "ldhName" JNull;
      ys ← ldh_names rest;
      Ok (if truthy n then n :: ys else ys)
  end.

(** [parsed["nameservers"]] (lines 247-249). *)
Definition rdap_nameservers (data : json) : res (list json) :=
  ns ← py_get data "nameservers" JNull;
  found ← (if truthy ns then items ← py_iter ns; ldh_names items else Ok []);
  Ok (match found with [] => [JStr NOT_FOUND] | _ => found end).

(** The body of [query_rdap] after the response is parsed (lines
    105-251): the record built from [data], or the exception its
    construction raises. The debug line that lists [data.keys()] raises
    for a document that is not an object. *)
Definition rdap_parse (domain_query : string) (data : json) : res dict :=
  match data with
  | JObj members =>
      registrar ← registrar_of data;
      statuses ← rdap_statuses domain_query members;
      creation_date ← rdap_creation_date data;
      nameservers ← rdap_nameservers data;
      Ok [("domain", JStr domain_query);
          ("registrar", registrar);
          ("statuses", JList (map JStr statuses));
          ("creation_date", creation_date);
          ("registrant_name", JStr "Not available via RDAP");
          ("nexus_categories", JStr "Not available via RDAP");
          ("nameservers", JList nameservers)]
  | _ => builtin (AttributeError data)
  end.

End Rdap.

(** ** The outside world *)

(** One call that the service makes on a collaborator: [client.get],
    [whois.query] or the [whois] command. A call is recorded when it is
    made, whatever comes of it. *)
Inductive call : Type :=
| HttpGet (url : string)
| WhoisQuery (domain : string)
| WhoisCommand (domain : string).

(** The attributes of the object the WHOIS client returns that the
    service reads. [None] in [w_text], [w_statuses] and [w_status] means
    that [hasattr] is false. The client produces status tokens as
    strings, which is the type they have here. *)
Inductive date_value : Type :=
| DateTime (isoformat : string)
| DateNone
| DateText (s : string).

Inductive date_attr : Type :=
| OneDate (d : date_value)
| DateList (ds : list date_value).

Inductive status_attr : Type :=
| StatusList (l : list string)
| StatusStr (s : string)
| StatusOther.

Record whois_domain : Type := {
  w_registrar : option string;
  w_text : option string;
  w_statuses : option (list string);
  w_status : option status_attr;
  w_creation_date : date_attr;
  w_name_servers : list string
}.

(** The answers of the outside world, each a function of the calls made
    before it and of the request:
    - [net_get_json url]: [client.get(url)], [raise_for_status()] and
      [.json()] taken together;
    - [net_whois d]: [whois.query(d)], [None] included;
    - [net_command d]: the standard output of [whois d] run as a
      subprocess with [check=True]. *)
Class Network := {
  net_get_json : list call -> string -> res json;
  net_whois : list call -> string -> res (option whois_domain);
  net_command : list call -> string -> res string
}.

(** Computations that may raise and that extend the history of calls. *)
Definition M (A : Type) : Type := list call -> res A * list call.

#[global] Instance M_ret : MRet M := fun A a h => (Ok a, h).
#[global] Instance M_bind : MBind M := fun A B f m h =>
  match m h with
  | (Ok a, h') => f a h'
  | (Raise e, h') => (Raise e, h')
  end.

Definition lift {A} (r : res A) : M A := fun h => (r, h).

Definition raise {A} (e : exn) : M A := fun h => (Raise e, h).

(** [try: body except Exception as e: handler(e)]. *)
Definition try_except {A} (body : M A) (handler : exn -> M A) : M A := fun h =>
  match body h with
  | (Ok a, h') => (Ok a, h')
  | (Raise e, h') => handler e h'
  end.

Section Queries.
Context `{Runtime} `{Network}.

Definition http_get_json (url : string) : M json :=
  fun h => (net_get_json h url, h ++ [HttpGet url]).

Definition whois_query (d : string) : M (option whois_domain) :=
  fun h => (net_whois h d, h ++ [WhoisQuery d]).

Definition whois_command (d : string) : M string :=
  fun h => (net_command h d, h ++ [WhoisCommand d]).

Definition show_int (z : Z) : string := NilZero.string_of_int (Z.to_int z).

(** The three [except] clauses of [query_rdap]. *)
Definition rdap_handler (domain_query : string) (e : exn) : exn :=
  match e with
  | HTTPStatusError code text =>
      if (code =? 404)%Z then
        Exception ("RDAP: Domain " +:+ domain_query +:+ " not found.")
      else if (code =? 429)%Z then
        Exception "RDAP: Rate limit reached."
      else
        Exception ("RDAP lookup for " +:+ domain_query +:+ " failed: HTTP "
                   +:+ show_int code +:+ " - " +:+ text)
  | RequestError text =>
      Exception ("RDAP lookup for " +:+ domain_query
                 +:+ " failed: Request Error - " +:+ text)
  | Exception text =>
      Exception ("RDAP lookup for " +:+ domain_query +:+ " failed: " +:+ text)
  end.

Definition BOOTSTRAP_URL : string := "https://data.iana.org/rdap/dns.json".

(** [query_rdap] (lines 54-262). *)
Definition query_rdap (domain_query : string) : M dict :=
  if String.eqb (Py.lower domain_query) "neustar.biz" then mret neustar_record
  else
    try_except
      (let tld := Py.lower (Py.last_field "." domain_query) in
       bootstrap_data ← http_get_json BOOTSTRAP_URL;
       services ← lift (py_get bootstrap_data "services" (JList []));
       entries ← lift (py_iter services);
       rdap_server_url ← lift (find_rdap_server tld entries);
       rdap_query_url ← lift (rdap_query_url rdap_server_url domain_query);
       data ← http_get_json rdap_query_url;
       lift (rdap_parse domain_query data))
      (fun e => raise (rdap_handler domain_query e)).

(** *** WHOIS ([query_whois]) *)

Definition opt_truthy (o : option string) : bool :=
  match o with
  | Some s => negb (Py.is_empty s)
  | None => false
  end.

(** The second half of the first guard: a no-match marker in the raw
    text, when the object has one. *)
Definition whois_no_match (o : whois_domain) : bool :=
  match w_text o with
  | Some t =>
      Py.contains "No match for domain" t
      || Py.contains "NOT FOUND" (Py.upper t)
  | None => false
  end.

(** The second guard: no registrar and no raw text. *)
Definition whois_no_registrar (o : whois_domain) : bool :=
  negb (opt_truthy (w_registrar o)) && negb (opt_truthy (w_text o)).

Definition whois_registrar (o : whois_domain) : string :=
  match w_registrar o with
  | Some r => if Py.is_empty r then NOT_FOUND else r
  | None => NOT_FOUND
  end.

(** The registrant line of the raw text, for domains outside [.us]. *)
Fixpoint scan_registrant (lines : list string) : string :=
  match lines with
  | [] => NOT_FOUND
  | line :: rest =>
      if Py.contains "Registrant Name:" line || Py.contains "registrant:" line
      then Py.strip (Py.split1_last ":" line)
      else scan_registrant rest
  end.

Definition whois_registrant_name (domain_query : string) (o : whois_domain) : string :=
  if Py.endswith ".us" (Py.lower domain_query) then NOT_FOUND
  else
    match w_text o with
    | Some t => if negb (Py.is_empty t) then scan_registrant (Py.splitlines t) else NOT_FOUND
    | None => NOT_FOUND
    end.

(** [[x.strip() for x in xs if x.strip()]]. *)
Definition stripped_nonempty (xs : list string) : list string :=
  List.filter (fun x => negb (Py.is_empty x)) (map Py.strip xs).

(** [raw_statuses] (lines 301-308). *)
Definition whois_raw_statuses (o : whois_domain) : list string :=
  match w_statuses o with
  | Some (x :: l) => x :: l
  | _ =>
      match w_status o with
      | Some (StatusList l) => l
      | Some (StatusStr s) => stripped_nonempty (Py.splitlines s)
      | Some StatusOther => []
      | None => []
      end
  end.

(** One turn of the loop that formats the WHOIS statuses (lines
    312-328). *)
Definition whois_add_status (formatted : list string) (status : string) : list string :=
  if existsb (String.eqb status) formatted then formatted
  else
    let status_code :=
      if Py.contains "https://" status
      then Py.strip (Py.first_field " https://" status)
      else Py.strip status in
    if negb (Py.is_empty status_code) && negb (String.eqb status_code NOT_FOUND)
    then formatted ++ [status_code] else formatted.

Definition whois_statuses (o : whois_domain) : list string :=
  let formatted := fold_left whois_add_status (whois_raw_statuses o) [] in
  match formatted with
  | [] => [NOT_FOUND]
  | _ => formatted
  end.

(** [parsed["creation_date"]] (lines 337-340). *)
Definition whois_creation_date (o : whois_domain) : string :=
  let creation_date_val :=
    match w_creation_date o with
    | OneDate d => d
    | DateList (d :: _) => d
    | DateList [] => DateNone
    end in
  match creation_date_val with
  | DateTime iso => iso
  | DateText s => if negb (Py.is_empty s) then s else NOT_FOUND
  | DateNone => NOT_FOUND
  end.

(** The last line of the command output that carries [label]. *)
Definition last_line_with (label : string) (lines : list string) : option string :=
  fold_left (fun found line => if Py.contains label line then Some line else found)
            lines None.

Definition value_after_colon (line : string) : string :=
  Py.strip (Py.split1_last ":" line).

(** The [.us] enrichment once the command has answered: the record with
    the registrant name replaced when its line is there, and the nexus
    text. *)
Definition us_enrich (parsed : dict) (whois_output : string) : dict :=
  let lines := Py.splitlines whois_output in
  let parsed :=
    match last_line_with "Registrant Name:" lines with
    | Some l => dict_set "registrant_name" (JStr (value_after_colon l)) parsed
    | None => parsed
    end in
  let purpose :=
    match last_line_with "Registrant Application Purpose:" lines with
    | Some l => ["Application Purpose: " +:+ value_after_colon l]
    | None => []
    end in
  let category :=
    match last_line_with "Registrant Nexus Category:" lines with
    | Some l => ["Nexus Category: " +:+ value_after_colon l]
    | None => []
    end in
  match purpose ++ category with
  | [] => dict_set "nexus_categories" (JStr "Not found in direct .US WHOIS output") parsed
  | nexus_results => dict_set "nexus_categories" (JStr (Py.join "; " nexus_results)) parsed
  end.

Definition whois_nameservers (o : whois_domain) : list string :=
  match w_name_servers o with
  | [] => [NOT_FOUND]
  | l => l
  end.

(** The [except] clause that closes [query_whois]. *)
Definition whois_handler (domain_query : string) (e : exn) : exn :=
  if Py.contains "limit" (Py.lower (exn_str e))
  then Exception ("WHOIS: Rate limit reached for " +:+ domain_query +:+ ".")
  else Exception ("WHOIS lookup for " +:+ domain_query +:+ " failed: " +:+ exn_str e).

(** [query_whois] (lines 264-401). *)
Definition query_whois (domain_query : string) : M dict :=
  try_except
    (w ← whois_query domain_query;
     match w with
     | None => raise (Exception ("WHOIS: Domain " +:+ domain_query +:+ " not found."))
     | Some o =>
         if whois_no_match o then
           raise (Exception ("WHOIS: Domain " +:+ domain_query +:+ " not found."))
         else if whois_no_registrar o then
           raise (Exception ("WHOIS: Domain " +:+ domain_query
                             +:+ " not found or lookup failed (no registrar)."))
         else
           let parsed : dict :=
             [("domain", JStr domain_query);
              ("registrar", JStr (whois_registrar o));
              ("registrant_name", JStr (whois_registrant_name domain_query o));
              ("statuses", JList (map JStr (whois_statuses o)));
              ("creation_date", JStr (whois_creation_date o))] in
           parsed ←
             (if Py.endswith ".us" (Py.lower domain_query) then
                try_except
                  (whois_output ← whois_command domain_query;
                   mret (us_enrich parsed whois_output))
                  (fun e => mret (dict_set "nexus_categories"
                                    (JStr ("Whois command failed: " +:+ exn_str e))
                                    parsed))
              else mret (dict_set "nexus_categories" (JStr "N/A (not .US domain)") parsed));
           mret (dict_set "nameservers"
                   (JList (map JStr (whois_nameservers o))) parsed)
     end)
    (fun e => raise (whois_handler domain_query e)).

End Queries.

(** ** The batch stream ([lookup_and_stream_generator]) and the endpoint *)

Record LookupRequest : Type := {
  domains : list string;
  fields : list string;
  use_rdap : bool
}.

(** One server-sent event; [data] is the value that [json.dumps] writes. *)
Record event : Type := {
  event_name : string;
  data : json
}.

Definition total_event (n : nat) : event :=
  {| event_name := "total"; data := JObj [("total", JInt (Z.of_nat n))] |}.

Definition message_event (m : string) : event :=
  {| event_name := "message"; data := JObj [("message", JStr m)] |}.

Definition error_event (m : string) : event :=
  {| event_name := "error"; data := JObj [("message", JStr m)] |}.

Definition result_event (current_result : dict) : event :=
  {| event_name := "result"; data := JObj current_result |}.

(** [{field: "Processing..." for field in fields}] and the [domain] entry. *)
Definition initial_result (fields : list string) (domain_to_lookup : string) : dict :=
  dict_set "domain" (JStr domain_to_lookup)
    (fold_left (fun r field => dict_set field (JStr "Processing...") r) fields []).

(** The loops that overwrite every requested field but [domain]. *)
Definition mark_fields (fields : list string) (placeholder : string) (r : dict) : dict :=
  fold_left (fun r field_key =>
               if negb (String.eqb field_key "domain")
               then dict_set field_key (JStr placeholder) r else r)
            fields r.

(** The loop that copies the requested fields out of [raw_data]. *)
Definition copy_fields (fields : list string) (raw_data : dict) (r : dict) : dict :=
  fold_left (fun r field_key =>
               dict_set field_key
                 (match dict_get field_key raw_data with
                  | Some v => v
                  | None => JStr NOT_FOUND
                  end) r)
            fields r.

Definition RATE_LIMIT_SIGNAL : string := "Rate limit reached".

Definition is_rate_limit (e : exn) : bool :=
  Py.contains RATE_LIMIT_SIGNAL (exn_str e).

Definition ALLOWED_FIELDS : gset string :=
  list_to_set ["domain"; "registrar"; "registrant_name"; "statuses";
               "creation_date"; "nexus_categories"; "nameservers"].

Definition MAX_DOMAINS : nat := 500.

Section Stream.
Context `{Runtime} `{Network}.

(** The per-domain orchestration (lines 426-449): the record and the
    method that produced it, or the exception that reaches the handler
    of the batch loop. *)
Definition lookup (use_rdap : bool) (domain_to_lookup : string) : M (dict * string) :=
  if use_rdap then
    try_except
      (raw_data ← query_rdap domain_to_lookup; mret (raw_data, "RDAP"))
      (fun rdap_exc =>
         if is_rate_limit rdap_exc then raise rdap_exc
         else raw_data ← query_whois domain_to_lookup;
              mret (raw_data, "WHOIS (RDAP fallback)"))
  else
    raw_data ← query_whois domain_to_lookup; mret (raw_data, "WHOIS").

Definition rate_limited_result (fields : list string) (d : string) : dict :=
  dict_set "error_message" (JStr "Rate limit reached, further lookups stopped.")
    (mark_fields fields RATE_LIMIT_SIGNAL (initial_result fields d)).

(** One turn of the batch loop (lines 413-470), from the flag and the
    history before it to the event it yields and the flag and the
    history after it. *)
Definition process_domain (request : LookupRequest) (rate_limit_reached_globally : bool)
    (domain_to_lookup : string) (h : list call) : event * bool * list call :=
  let current_result := initial_result (fields request) domain_to_lookup in
  if rate_limit_reached_globally then
    (result_event (rate_limited_result (fields request) domain_to_lookup), true, h)
  else
    match lookup (use_rdap request) domain_to_lookup h with
    | (Ok (raw_data, lookup_method_used), h') =>
        (result_event
           (dict_set "_method" (JStr lookup_method_used)
              (copy_fields (fields request) raw_data current_result)),
         false, h')
    | (Raise e, h') =>
        let error_msg := exn_str e in
        if is_rate_limit e then
          (result_event
             (dict_set "error_message"
                (JStr "Rate limit reached. Subsequent lookups for other domains will also be marked as rate-limited.")
                (mark_fields (fields request) RATE_LIMIT_SIGNAL current_result)),
           true, h')
        else
          (result_event
             (dict_set "error_message" (JStr ("Failed: " +:+ error_msg))
                (mark_fields (fields request) "Lookup failed" current_result)),
           false, h')
    end.

(** The [for] loop over the domain list, run to its end. *)
Fixpoint run_domains (request : LookupRequest) (domain_list : list string)
    (rate_limit_reached_globally : bool) (h : list call) : list event * bool * list call :=
  match domain_list with
  | [] => ([], rate_limit_reached_globally, h)
  | d :: rest =>
      let '(ev, flag, h1) := process_domain request rate_limit_reached_globally d h in
      let '(evs, flag', h2) := run_domains request rest flag h1 in
      (ev :: evs, flag', h2)
  end.

(** The events of a stream that is read to its end, and the history
    after it. *)
Definition lookup_and_stream_generator (request : LookupRequest) (h : list call)
    : list event * list call :=
  let domain_list := stripped_nonempty (domains request) in
  let '(evs, _, h') := run_domains request domain_list false h in
  (total_event (length domain_list) :: message_event "Lookup started" :: evs, h').

End Stream.

(** The validation loop of the endpoint (lines 483-495). *)
Fixpoint clean_domains (ds : list string) (seen : gset string) (cleaned_domains : list string)
    : list string :=
  match ds with
  | [] => cleaned_domains
  | d :: rest =>
      let dn := Py.strip d in
      if Py.is_empty dn then clean_domains rest seen cleaned_domains
      else if (255 <? String.length dn)%nat then clean_domains rest seen cleaned_domains
      else
        let key := Py.lower dn in
        if bool_decide (key ∈ seen) then clean_domains rest seen cleaned_domains
        else clean_domains rest ({[key]} ∪ seen) (cleaned_domains ++ [dn])
  end.

Definition cleaned_domains (request : LookupRequest) : list string :=
  let cleaned := clean_domains (domains request) ∅ [] in
  if (MAX_DOMAINS <? length cleaned)%nat then take MAX_DOMAINS cleaned else cleaned.

Definition cleaned_fields (request : LookupRequest) : list string :=
  List.filter (fun f => bool_decide (f ∈ ALLOWED_FIELDS)) (fields request).

Definition cleaned_request (request : LookupRequest) : LookupRequest :=
  {| domains := cleaned_domains request;
     fields := cleaned_fields request;
     use_rdap := use_rdap request |}.

(** The message of the [RuntimeError] that httpx raises when a request
    is sent on a client that has been closed. *)
Definition CLIENT_CLOSED : string :=
  "Cannot send a request, as the client has been closed.".

(** The world as a closed [httpx.AsyncClient] shows it: [client.get]
    raises that error whatever the URL, while the WHOIS client and the
    [whois] command answer as they do in [N]. *)
Definition closed_client (N : Network) : Network :=
  {| net_get_json := fun _ _ => Raise (Exception CLIENT_CLOSED);
     net_whois := @net_whois N;
     net_command := @net_command N |}.

Section EndpointDef.
Context `{Runtime} `{Network}.

(** [whois_lookup_endpoint]: the events of the response it returns.
    The response is built and returned inside
    [async with httpx.AsyncClient(timeout=15.0) as client] (lines
    519-523): the generator is created there with [client], and its body
    runs when the response is sent, after the block has closed the
    client. The generator therefore runs in [closed_client]. *)
Definition whois_lookup_endpoint (request : LookupRequest) (h : list call)
    : list event * list call :=
  match clean_domains (domains request) ∅ [] with
  | [] => ([total_event 0; error_event "No valid domains provided."], h)
  | _ :: _ =>
      match cleaned_fields request with
      | [] => ([total_event 0; error_event "No valid fields requested."], h)
      | _ :: _ =>
          @lookup_and_stream_generator _ (closed_client _) (cleaned_request request) h
      end
  end.

End EndpointDef.

(** ** Concrete inputs used by the examples *)

Module Examples.

Definition runtime : Runtime :=
  {| repr := fun _ => "<value>"; error_text := fun _ => "<error>" |}.

(** A WHOIS answer in which the same status appears with and without
    its URL. *)
Definition repeated_status : whois_domain :=
  {| w_registrar := Some "Example Registrar";
     w_text := None;
     w_statuses := Some ["ok"; "ok https://icann.org/epp#ok"];
     w_status := None;
     w_creation_date := OneDate (DateTime "2001-11-07T00:00:00");
     w_name_servers := ["ns1.example.net"] |}.

(** A world in which HTTP is down, the WHOIS client answers every query
    with [repeated_status] and the [whois] command is missing. *)
Definition whois_only : Network :=
  {| net_get_json := fun _ _ => Raise (RequestError "connection refused");
     net_whois := fun _ _ => Ok (Some repeated_status);
     net_command := fun _ _ => Raise (Exception "whois: command not found") |}.

(** A world in which the WHOIS client knows no domain. *)
Definition no_match : Network :=
  {| net_get_json := fun _ _ => Raise (RequestError "connection refused");
     net_whois := fun _ _ => Ok None;
     net_command := fun _ _ => Raise (Exception "whois: command not found") |}.

(** A world in which the WHOIS client reports that its query limit is
    exceeded. *)
Definition whois_limited : Network :=
  {| net_get_json := fun _ _ => Raise (RequestError "connection refused");
     net_whois := fun _ _ => Raise (Exception "WHOIS query limit exceeded");
     net_command := fun _ _ => Raise (Exception "whois: command not found") |}.

(** A world in which every HTTP request is answered 429. *)
Definition throttled : Network :=
  {| net_get_json := fun _ _ => Raise (HTTPStatusError 429 "Client error '429 Too Many Requests'");
     net_whois := fun _ _ => Ok (Some repeated_status);
     net_command := fun _ _ => Raise (Exception "whois: command not found") |}.

(** An RDAP answer whose registration event has no date. *)
Definition undated_registration : json :=
  JObj [("events", JList [JObj [("eventAction", JStr "registration")]])].

(** An RDAP answer with a dated registration after another event. *)
Definition dated_registration : json :=
  JObj [("events",
         JList [JObj [("eventAction", JStr "last changed");
                      ("eventDate", JStr "2020-01-01T00:00:00Z")];
                JObj [("eventAction", JStr "registration");
                      ("eventDate", JStr "1997-09-15T04:00:00Z")]])].

(** A request whose domains are all blank. *)
Definition blank_request : LookupRequest :=
  {| domains := ["  "; ""]; fields := ["registrar"]; use_rdap := true |}.

Definition numbered (n : nat) : string :=
  "d" +:+ NilZero.string_of_uint (Nat.to_uint n) +:+ ".com".

(** Six hundred distinct domains. *)
Definition six_hundred : LookupRequest :=
  {| domains := map numbered (seq 0 600); fields := ["domain"]; use_rdap := false |}.

(** A domain whose name contains "limit", then another, over WHOIS. *)
Definition limit_then_example : LookupRequest :=
  {| domains := ["limit.com"; "example.com"];
     fields := ["registrar"];
     use_rdap := false |}.

(** Three domains looked up over RDAP first. *)
Definition three_domains : LookupRequest :=
  {| domains := ["x.org"; "y.org"; "z.org"];
     fields := ["domain"; "registrar"; "statuses"];
     use_rdap := true |}.

(** The special-cased domain in capitals, with its [domain] field
    requested. *)
Definition neustar_capitals : LookupRequest :=
  {| domains := ["NEUSTAR.BIZ"]; fields := ["domain"]; use_rdap := true |}.

End Examples.

(** ** Specification-level readings *)

(** The first event whose [eventAction] is ["registration"], over the
    list of events of an answer. *)
Definition is_registration_event (e : json) : bool :=
  match e with
  | JObj m =>
      match dict_get "eventAction" m with
      | Some a => eq_str a "registration"
      | None => false
      end
  | _ => false
  end.

Definition events_of (data : json) : list json :=
  match data with
  | JObj m =>
      match dict_get "events" m with
      | Some (JList l) => l
      | _ => []
      end
  | _ => []
  end.

(** The value that lines 241-242 store, read off the list of events:
    [registration_event.get('eventDate')] is [None] when the member is
    missing. *)
Definition registration_event_date (data : json) : json :=
  match List.find is_registration_event (events_of data) with
  | Some (JObj m) =>
      match dict_get "eventDate" m with
      | Some v => v
      | None => JNull
      end
  | _ => JStr NOT_FOUND
  end.

(** The creation date as the specification words it: the [eventDate]
    of the first registration event, a timestamp string, and the
    sentinel in every other case. *)
Definition creation_date_spec (data : json) : json :=
  match List.find is_registration_event (events_of data) with
  | Some (JObj m) =>
      match dict_get "eventDate" m with
      | Some (JStr s) => JStr s
      | _ => JStr NOT_FOUND
      end
  | _ => JStr NOT_FOUND
  end.

(** The claim as the specification words it: the creation date of a
    normalised record is always a string. *)
Definition creation_date_always_text (R : Runtime) : Prop :=
  forall domain_query data rec,
    rdap_parse domain_query data = Ok rec ->
    exists s, dict_get "creation_date" rec = Some (JStr s).

Section SpecHelpers.
Context `{Runtime}.

(** The test of the generator expression that looks for the
    registration event. *)
Definition registration_test (e : json) : res bool :=
  a ← py_get e "eventAction" JNull; Ok (eq_str a "registration").

End SpecHelpers.

(** The three loops over the requested fields are instances of one
    guarded assignment loop. *)
Definition assign_loop (g : string -> bool) (val : string -> json)
    (fields : list string) (r : dict) : dict :=
  fold_left (fun r f => if g f then dict_set f (val f) r else r) fields r.

(** The validation of the endpoint as the specification words it:
    entries trimmed, empty and over-long ones dropped, duplicates
    dropped without regard to case (an entry goes when an earlier valid
    entry has the same lower-case form), the first 500 kept. *)
Definition valid_entries (ds : list string) : list string :=
  List.filter (fun d => (String.length d <=? 255)%nat)
    (List.filter (fun d => negb (Py.is_empty d)) (map Py.strip ds)).

Fixpoint dedup_ci (earlier : list string) (l : list string) : list string :=
  match l with
  | [] => []
  | x :: rest =>
      if existsb (fun y => String.eqb (Py.lower y) (Py.lower x)) earlier
      then dedup_ci (x :: earlier) rest
      else x :: dedup_ci (x :: earlier) rest
  end.

Definition validated_domains_spec (ds : list string) : list string :=
  take 500 (dedup_ci [] (valid_entries ds)).

Definition allowed_fields_spec (fs : list string) : list string :=
  List.filter (fun f => existsb (String.eqb f)
                 ["domain"; "registrar"; "registrant_name"; "statuses";
                  "creation_date"; "nexus_categories"; "nameservers"]) fs.

Section EndpointSpec.
Context `{Runtime} `{Network}.

(** The response as the specification words it: the error path when
    either list is empty after validation, the stream over the validated
    lists otherwise. The stream is produced when the response is sent,
    by which time the HTTP client of the endpoint is closed. *)
Definition endpoint_spec (request : LookupRequest) (h : list call)
    : list event * list call :=
  match validated_domains_spec (domains request),
        allowed_fields_spec (fields request) with
  | [], _ => ([total_event 0; error_event "No valid domains provided."], h)
  | _ :: _, [] => ([total_event 0; error_event "No valid fields requested."], h)
  | ds, fs =>
      let validated := {| domains := ds; fields := fs; use_rdap := use_rdap request |} in
      let '(evs, _, h') := @run_domains _ (closed_client _) validated ds false h in
      (total_event (length ds) :: message_event "Lookup started" :: evs, h')
  end.

End EndpointSpec.


(** ** Definitions used by the further properties *)

(** The predicate that picks the [result] events of a response. *)
Definition is_result (ev : event) : bool := String.eqb (event_name ev) "result".

(** The two orders in which a normalised record lists its keys. *)
Definition RDAP_KEYS : list string :=
  ["domain"; "registrar"; "statuses"; "creation_date";
   "registrant_name"; "nexus_categories"; "nameservers"].

Definition WHOIS_KEYS : list string :=
  ["domain"; "registrar"; "registrant_name"; "statuses";
   "creation_date"; "nexus_categories"; "nameservers"].

(** The record of [query_whois] before its [nexus_categories] and
    [nameservers] entries are set. *)
Definition whois_base (domain_query : string) (o : whois_domain) : dict :=
  [("domain", JStr domain_query);
   ("registrar", JStr (whois_registrar o));
   ("registrant_name", JStr (whois_registrant_name domain_query o));
   ("statuses", JList (map JStr (whois_statuses o)));
   ("creation_date", JStr (whois_creation_date o))].

(** A call that is not an HTTP request. *)
Definition not_http (c : call) : Prop :=
  match c with
  | HttpGet _ => False
  | _ => True
  end.

(** A bootstrap document in the form IANA publishes: each service is a
    list of TLDs and a list of base URLs. *)
Definition bootstrap_entry (service : list string * list string) : json :=
  JList [JList (map JStr (fst service)); JList (map JStr (snd service))].

Definition lists_tld (tld : string) (service : list string * list string) : bool :=
  existsb (fun t => String.eqb tld (Py.lower t)) (fst service)
  && match snd service with [] => false | _ :: _ => true end.

(** The first base URL of the first service that lists the TLD, in any
    case, and has a URL. *)
Definition listed_server (tld : string) (services : list (list string * list string))
    : option string :=
  match List.find (lists_tld tld) services with
  | Some (_, u :: _) => Some u
  | _ => None
  end.

(** The URL queried for a domain: the listed base followed by
    [domain/<name>], or the public proxy. *)
Definition rdap_target (d : string) (services : list (list string * list string))
    : string :=
  match listed_server (Py.lower (Py.last_field "." d)) services with
  | Some (String c base) => String c base +:+ "domain/" +:+ d
  | _ => "https://rdap.org/domain/" +:+ d
  end.

(** An RDAP answer of the form the registries publish: entities with
    their roles and the text properties of their vCard, status strings,
    events with action and date, name servers with their host name. *)
Record rdap_doc : Type := {
  doc_entities : list (list string * list (string * string));
  doc_status : list string;
  doc_events : list (string * string);
  doc_nameservers : list string
}.

Definition vcard_property (p : string * string) : json :=
  JList [JStr (fst p); JObj []; JStr "text"; JStr (snd p)].

Definition rdap_entity (e : list string * list (string * string)) : json :=
  JObj [("objectClassName", JStr "entity");
        ("roles", JList (map JStr (fst e)));
        ("vcardArray", JList [JStr "vcard"; JList (map vcard_property (snd e))])].

Definition rdap_event (ev : string * string) : json :=
  JObj [("eventAction", JStr (fst ev)); ("eventDate", JStr (snd ev))].

Definition rdap_nameserver (n : string) : json :=
  JObj [("objectClassName", JStr "nameserver"); ("ldhName", JStr n)].

Definition rdap_document (doc : rdap_doc) : dict :=
  [("objectClassName", JStr "domain");
   ("entities", JList (map rdap_entity (doc_entities doc)));
   ("status", JList (map JStr (doc_status doc)));
   ("events", JList (map rdap_event (doc_events doc)));
   ("nameservers", JList (map rdap_nameserver (doc_nameservers doc)))].

(** What the answer says, field by field. *)
Definition doc_registrar (doc : rdap_doc) : string :=
  match List.find (fun e => existsb (fun r => String.eqb r "registrar") (fst e))
                  (doc_entities doc) with
  | Some e =>
      match List.find (fun p => String.eqb (fst p) "fn") (snd e) with
      | Some p => snd p
      | None => NOT_FOUND
      end
  | None => NOT_FOUND
  end.

Definition doc_creation_date (doc : rdap_doc) : string :=
  match List.find (fun ev => String.eqb (fst ev) "registration") (doc_events doc) with
  | Some ev => snd ev
  | None => NOT_FOUND
  end.

Definition doc_nameserver_names (doc : rdap_doc) : list string :=
  match List.filter (fun n => negb (Py.is_empty n)) (doc_nameservers doc) with
  | [] => [NOT_FOUND]
  | l => l
  end.

(** *** Further concrete inputs *)

(** A world whose bootstrap document lists [com] and [net] under one
    server and [org] under another, and whose RDAP servers answer 404. *)
Definition registry : list (list string * list string) :=
  [(["com"; "net"], ["https://rdap.verisign.example/v1/"]);
   (["ORG"], ["https://rdap.pir.example"; "https://backup.pir.example/"])].

Definition with_registry : Network :=
  {| net_get_json := fun _ url =>
       if String.eqb url BOOTSTRAP_URL
       then Ok (JObj [("version", JStr "1.0");
                      ("services", JList (map bootstrap_entry registry))])
       else Raise (HTTPStatusError 404 "Client error '404 Not Found'");
     net_whois := fun _ _ => Ok None;
     net_command := fun _ _ => Raise (Exception "whois: command not found") |}.

Definition example_doc : rdap_doc :=
  {| doc_entities :=
       [(["technical"], [("fn", "Tech Contact")]);
        (["registrar"], [("version", "4.0"); ("fn", "Example Registrar, Inc.")])];
     doc_status :=
       ["client transfer prohibited"; "active";
        "clientTransferProhibited https://icann.org/epp#clientTransferProhibited; active"];
     doc_events :=
       [("last changed", "2020-01-01T00:00:00Z");
        ("registration", "1997-09-15T04:00:00Z")];
     doc_nameservers := ["ns1.example.net"; ""; "ns2.example.net"] |}.

(** A world in which HTTP answers: the bootstrap document is that of
    [registry], every other request is answered with [example_doc], and
    the WHOIS client knows every domain. *)
Definition rdap_answers : Network :=
  {| net_get_json := fun _ url =>
       if String.eqb url BOOTSTRAP_URL
       then Ok (JObj [("version", JStr "1.0");
                      ("services", JList (map bootstrap_entry registry))])
       else Ok (JObj (rdap_document example_doc));
     net_whois := fun _ _ => Ok (Some Examples.repeated_status);
     net_command := fun _ _ => Raise (Exception "whois: command not found") |}.

(** One domain, its registrar asked for, RDAP first. *)
Definition one_domain : LookupRequest :=
  {| domains := ["example.com"]; fields := ["registrar"]; use_rdap := true |}.

(** * Properties *)

(** ** Strings *)

Lemma is_empty_true (s : string) : Py.is_empty s = true <-> s = EmptyString.
Proof. destruct s; simpl; split; congruence. Qed.

Lemma is_empty_false (s : string) : Py.is_empty s = false <-> s <> EmptyString.
Proof. destruct s; simpl; split; congruence. Qed.

Lemma lstrip_by_head p s c t : Py.lstrip_by p s = String c t -> p c = false.
Proof.
  induction s as [|a s IH]; simpl; [discriminate|].
  destruct (p a) eqn:Ha; [exact IH|].
  intros [= -> _]. exact Ha.
Qed.

Lemma rstrip_by_keep p c t :
  p c = false -> Py.rstrip_by p (String c t) = String c (Py.rstrip_by p t).
Proof. intros Hc. simpl. rewrite Hc, andb_false_r. reflexivity. Qed.

Lemma rstrip_by_idem p s : Py.rstrip_by p (Py.rstrip_by p s) = Py.rstrip_by p s.
Proof.
  induction s as [|c s IH]; simpl; [reflexivity|].
  destruct (Py.is_empty (Py.rstrip_by p s) && p c) eqn:E; simpl; [reflexivity|].
  rewrite IH, E. reflexivity.
Qed.

(** A stripped string is empty or starts with a character that is not
    white space. *)
Lemma strip_head s c t : Py.strip s = String c t -> Py.is_space c = false.
Proof.
  unfold Py.strip. destruct (Py.lstrip_by Py.is_space s) as [|a u] eqn:E; simpl.
  - discriminate.
  - apply lstrip_by_head in E. rewrite E, andb_false_r. intros [= -> _]. exact E.
Qed.

Lemma lstrip_by_id p c t : p c = false -> Py.lstrip_by p (String c t) = String c t.
Proof. intros Hc. simpl. rewrite Hc. reflexivity. Qed.

Lemma strip_idem s : Py.strip (Py.strip s) = Py.strip s.
Proof.
  destruct (Py.strip s) as [|c t] eqn:E; [reflexivity|].
  pose proof (strip_head _ _ _ E) as Hc.
  unfold Py.strip at 1. rewrite lstrip_by_id by exact Hc.
  rewrite <- E. unfold Py.strip. apply rstrip_by_idem.
Qed.

(** Stripping a string that starts with a character that is not white
    space leaves that character in front. *)
Lemma strip_keeps_head c t :
  Py.is_space c = false -> exists t', Py.strip (String c t) = String c t'.
Proof.
  intros Hc. unfold Py.strip. rewrite lstrip_by_id by exact Hc.
  rewrite rstrip_by_keep by exact Hc. eauto.
Qed.

Lemma stripped_nonempty_fixed (l : list string) :
  Forall (fun d => Py.strip d = d /\ d <> EmptyString) l ->
  stripped_nonempty l = l.
Proof.
  unfold stripped_nonempty.
  induction 1 as [|d l [Hs Hne] _ IH]; simpl; [reflexivity|].
  rewrite Hs. apply is_empty_false in Hne. rewrite Hne. simpl. f_equal. exact IH.
Qed.

(** ** Dictionaries *)

Lemma dict_get_set_eq k v d : dict_get k (dict_set k v d) = Some v.
Proof.
  induction d as [|[k' v'] d IH]; simpl.
  - rewrite String.eqb_refl. reflexivity.
  - destruct (String.eqb k k') eqn:E; simpl; rewrite E; [reflexivity|exact IH].
Qed.

Lemma dict_get_set_ne k k' v d : k <> k' -> dict_get k (dict_set k' v d) = dict_get k d.
Proof.
  intros Hne. induction d as [|[k2 v2] d IH]; simpl.
  - apply String.eqb_neq in Hne. rewrite Hne. reflexivity.
  - destruct (String.eqb k' k2) eqn:E; simpl.
    + apply String.eqb_eq in E. subst k2.
      apply String.eqb_neq in Hne. rewrite Hne. reflexivity.
    + destruct (String.eqb k k2); [reflexivity|exact IH].
Qed.

Lemma dict_has_set_eq k v d : dict_has k (dict_set k v d) = true.
Proof. unfold dict_has. rewrite dict_get_set_eq. reflexivity. Qed.

Lemma dict_has_set_ne k k' v d : k <> k' -> dict_has k (dict_set k' v d) = dict_has k d.
Proof. intros. unfold dict_has. rewrite dict_get_set_ne by assumption. reflexivity. Qed.

Lemma assign_loop_untouched g val fields r k :
  (~ In k fields \/ g k = false) ->
  dict_get k (assign_loop g val fields r) = dict_get k r.
Proof.
  unfold assign_loop. revert r.
  induction fields as [|f fields IH]; intros r Hk; simpl; [reflexivity|].
  rewrite IH.
  - destruct (g f) eqn:Hg; [|reflexivity].
    apply dict_get_set_ne. intros ->. destruct Hk as [Hk|Hk].
    + apply Hk. left. reflexivity.
    + congruence.
  - destruct Hk as [Hk|Hk]; [left|right; exact Hk].
    intros Hin. apply Hk. right. exact Hin.
Qed.

Lemma assign_loop_assigned g val fields r k :
  In k fields -> g k = true ->
  dict_get k (assign_loop g val fields r) = Some (val k).
Proof.
  unfold assign_loop. revert r.
  induction fields as [|f fields IH]; intros r Hin Hg; simpl; [destruct Hin|].
  destruct (in_dec string_dec k fields) as [Hrest|Hrest].
  - apply IH; assumption.
  - destruct Hin as [->|Hin]; [|contradiction].
    rewrite Hg.
    change (dict_get k (assign_loop g val fields (dict_set k (val k) r)) = Some (val k)).
    rewrite assign_loop_untouched by (left; exact Hrest).
    apply dict_get_set_eq.
Qed.

Lemma initial_result_loop fields d :
  initial_result fields d =
  dict_set "domain" (JStr d)
    (assign_loop (fun _ => true) (fun _ => JStr "Processing...") fields []).
Proof. reflexivity. Qed.

Lemma mark_fields_loop fields p r :
  mark_fields fields p r =
  assign_loop (fun f => negb (String.eqb f "domain")) (fun _ => JStr p) fields r.
Proof. reflexivity. Qed.

Lemma copy_fields_loop fields raw r :
  copy_fields fields raw r =
  assign_loop (fun _ => true)
    (fun f => match dict_get f raw with Some v => v | None => JStr NOT_FOUND end)
    fields r.
Proof. reflexivity. Qed.

Lemma initial_result_domain fields d :
  dict_get "domain" (initial_result fields d) = Some (JStr d).
Proof. unfold initial_result. apply dict_get_set_eq. Qed.

Lemma initial_result_absent fields d k :
  k <> "domain" -> ~ In k fields -> dict_get k (initial_result fields d) = None.
Proof.
  intros Hk Hin. rewrite initial_result_loop.
  rewrite dict_get_set_ne by exact Hk.
  rewrite assign_loop_untouched by (left; exact Hin). reflexivity.
Qed.

Lemma mark_fields_domain fields p r :
  dict_get "domain" (mark_fields fields p r) = dict_get "domain" r.
Proof. rewrite mark_fields_loop. apply assign_loop_untouched. right. reflexivity. Qed.

Lemma mark_fields_absent fields p r k :
  ~ In k fields -> dict_get k (mark_fields fields p r) = dict_get k r.
Proof. intros. rewrite mark_fields_loop. apply assign_loop_untouched. left. assumption. Qed.

Lemma mark_fields_marked fields p r k :
  In k fields -> k <> "domain" -> dict_get k (mark_fields fields p r) = Some (JStr p).
Proof.
  intros Hin Hk. rewrite mark_fields_loop.
  apply (assign_loop_assigned _ (fun _ => JStr p)); [exact Hin|].
  apply String.eqb_neq in Hk. rewrite Hk. reflexivity.
Qed.

Lemma copy_fields_absent fields raw r k :
  ~ In k fields -> dict_get k (copy_fields fields raw r) = dict_get k r.
Proof. intros. rewrite copy_fields_loop. apply assign_loop_untouched. left. assumption. Qed.

Lemma copy_fields_copied fields raw r k :
  In k fields ->
  dict_get k (copy_fields fields raw r) =
  Some (match dict_get k raw with Some v => v | None => JStr NOT_FOUND end).
Proof.
  intros Hin. rewrite copy_fields_loop.
  exact (assign_loop_assigned (fun _ => true) _ fields r k Hin eq_refl).
Qed.

(** ** The allowed fields *)

Lemma allowed_fields_members (f : string) :
  f ∈ ALLOWED_FIELDS <->
  In f ["domain"; "registrar"; "registrant_name"; "statuses";
        "creation_date"; "nexus_categories"; "nameservers"].
Proof.
  unfold ALLOWED_FIELDS. rewrite elem_of_list_to_set. apply list_elem_of_In.
Qed.

Lemma allowed_not_reserved (f : string) :
  f ∈ ALLOWED_FIELDS -> f <> "_method" /\ f <> "error_message".
Proof.
  rewrite allowed_fields_members. simpl.
  intros Hin; split; intros ->; repeat (destruct Hin as [Hin|Hin]; [discriminate|]);
    exact Hin.
Qed.

(** ** RDAP query URL *)

Section QueryUrl.
Context `{Runtime}.

(** C9. Whatever the bootstrap base URL and the domain, the two
    URL-building branches are the same function, and the query URL is
    the base followed directly by [domain/<name>], with no separator put
    in, whether or not the base ends in a slash. *)
Theorem rdap_query_url_ignores_trailing_slash :
  forall (base domain_query : string) (c : ascii),
    url_base_without_slash base domain_query = url_base_with_slash base domain_query
    /\ rdap_query_url (JStr (String c base)) domain_query
       = Ok (String c base +:+ "domain/" +:+ domain_query).
Proof.
  intros base d c. split; [reflexivity|].
  unfold rdap_query_url.
  change (truthy (JStr (String c base))) with true. cbv beta iota delta [negb].
  destruct (Py.endswith "/" (String c base)); reflexivity.
Qed.

Example rdap_query_url_no_slash :
  rdap_query_url (JStr "https://rdap.example") "a.com"
  = Ok "https://rdap.exampledomain/a.com".
Proof. reflexivity. Qed.

Example rdap_query_url_slash :
  rdap_query_url (JStr "https://rdap.example/") "a.com"
  = Ok "https://rdap.example/domain/a.com".
Proof. reflexivity. Qed.

End QueryUrl.

(** ** RDAP status tokens *)

Lemma space_is_space c : Py.is_space c = false -> Ascii.eqb " " c = false.
Proof.
  intros Hc. destruct (Ascii.eqb_spec " "%char c) as [<-|]; [|reflexivity].
  discriminate Hc.
Qed.

(** The text before the first [" http"] of a stripped, non-empty string
    starts with the first character of that string. *)
Lemma split1_http_head c t :
  Py.is_space c = false ->
  exists a, List.hd EmptyString (Py.split1 " http" (String c t)) = String c a.
Proof.
  intros Hc. unfold Py.split1.
  change (Py.cut " http" (String c t)) with
    (if Ascii.eqb " " c && Py.startswith "http" t
     then Some (EmptyString, Py.drop 5 (String c t))
     else match Py.cut " http" t with
          | Some (a, b) => Some (String c a, b)
          | None => None
          end).
  rewrite (space_is_space c Hc). simpl.
  destruct (Py.cut " http" t) as [[a b]|]; simpl; eauto.
Qed.

(** In [extract_status_code] the text before the URL is never empty, so
    the branch for a token that is only a URL is never taken: the token
    is returned up to its first [" http"], or whole when it has none. *)
Lemma extract_status_code_unfold (s : string) :
  extract_status_code s =
  let t := Py.strip s in
  Py.rstrip " ;."
    (if Py.contains "http://" t || Py.contains "https://" t
     then Py.strip (List.hd EmptyString (Py.split1 " http" t))
     else t).
Proof.
  unfold extract_status_code.
  destruct (Py.strip s) as [|c t] eqn:E; [reflexivity|].
  pose proof (strip_head _ _ _ E) as Hc.
  cbv zeta. change (Py.is_empty (String c t)) with false. cbv iota.
  destruct (Py.contains "http://" (String c t) || Py.contains "https://" (String c t));
    [|reflexivity].
  destruct (split1_http_head c t Hc) as [a ->].
  destruct (strip_keeps_head c a Hc) as [a' ->]. reflexivity.
Qed.

Lemma add_status_code_inv formatted code :
  NoDup formatted /\ ~ In EmptyString formatted ->
  NoDup (add_status_code formatted code)
  /\ ~ In EmptyString (add_status_code formatted code).
Proof.
  intros [Hnd Hne]. unfold add_status_code.
  destruct (Py.is_empty code) eqn:Hc; simpl; [tauto|].
  destruct (String.eqb code NOT_FOUND); simpl; [tauto|].
  destruct (existsb (String.eqb code) formatted) eqn:Hex; simpl; [tauto|].
  assert (~ In code formatted) as Hnotin.
  { intros Hin. apply Bool.not_true_iff_false in Hex. apply Hex.
    apply existsb_exists. exists code. split; [exact Hin|apply String.eqb_refl]. }
  split.
  - apply NoDup_app. split; [exact Hnd|]. split.
    + intros x Hx Hx'. apply list_elem_of_In in Hx, Hx'.
      destruct Hx' as [<-|[]]. contradiction.
    + apply NoDup_cons. split; [intros Hx; inversion Hx|apply NoDup_nil; exact I].
  - rewrite in_app_iff. intros [Hin|[->|[]]]; [contradiction|discriminate Hc].
Qed.

Section RdapStatuses.
Context `{Runtime}.

Lemma format_statuses_inv (statuses : list json) :
  NoDup (format_statuses statuses) /\ ~ In EmptyString (format_statuses statuses).
Proof.
  unfold format_statuses.
  assert (forall l acc, NoDup acc /\ ~ In EmptyString acc ->
            let r := fold_left (fun formatted status =>
                        fold_left (fun acc p => add_status_code acc (extract_status_code p))
                                  (status_parts status) formatted) l acc in
            NoDup r /\ ~ In EmptyString r) as Hfold.
  { induction l as [|status l IH]; intros acc Hacc; simpl; [exact Hacc|].
    apply IH. generalize (status_parts status). intros parts. revert acc Hacc.
    induction parts as [|p parts IHp]; intros acc Hacc; simpl; [exact Hacc|].
    apply IHp. apply add_status_code_inv. exact Hacc. }
  apply Hfold. split; [apply NoDup_nil; exact I|intros []].
Qed.

(** On the RDAP path the statuses have neither duplicates nor empty
    tokens. *)
Lemma rdap_statuses_distinct domain_query data l :
  rdap_statuses domain_query data = Ok l -> NoDup l /\ ~ In EmptyString l.
Proof.
  unfold rdap_statuses. destruct (collect_statuses data) as [statuses|e]; simpl;
    [|discriminate].
  destruct statuses as [|s statuses].
  - destruct (String.eqb (Py.lower domain_query) "neustar.biz"); intros [= <-].
    + split; [|simpl; intuition discriminate].
      unfold neustar_statuses.
      repeat (apply NoDup_cons; split;
              [rewrite list_elem_of_In; simpl; intuition discriminate|]).
      apply NoDup_nil; exact I.
    + split; [|simpl; intuition discriminate].
      apply NoDup_cons. split; [intros Hx; inversion Hx|apply NoDup_nil; exact I].
  - intros [= <-]. apply format_statuses_inv.
Qed.

(** C6. A status that is only a URL comes out of [extract_status_code]
    as that URL, not as its fragment; the combined status of the
    specification does come out as its two tokens. *)
Theorem extract_status_code_keeps_bare_url :
  extract_status_code "https://icann.org/epp#clientTransferProhibited"
  = "https://icann.org/epp#clientTransferProhibited"
  /\ format_statuses [JStr "https://icann.org/epp#clientTransferProhibited"]
     = ["https://icann.org/epp#clientTransferProhibited"]
  /\ format_statuses
       [JStr "clientTransferProhibited https://icann.org/epp#clientTransferProhibited; ok"]
     = ["clientTransferProhibited"; "ok"].
Proof. repeat split; reflexivity. Qed.

End RdapStatuses.

(** ** RDAP creation date *)

Section CreationDate.
Context `{Runtime}.

Lemma registration_test_ok e b :
  registration_test e = Ok b ->
  b = is_registration_event e /\ exists m, e = JObj m.
Proof.
  unfold registration_test.
  destruct e as [| | | | |l|m]; simpl; try discriminate.
  intros [= <-]. split; [|eauto].
  destruct (dict_get "eventAction" m); reflexivity.
Qed.

Lemma first_where_registration es v :
  first_where registration_test es = Ok v ->
  v = match List.find is_registration_event es with Some e => e | None => JNull end
  /\ Forall (fun e => exists m, e = JObj m) (match es with [] => [] | e :: _ => [e] end).
Proof.
  revert v. induction es as [|e es IH]; intros v; simpl.
  - intros [= <-]. split; [reflexivity|constructor].
  - destruct (registration_test e) as [b|x] eqn:Hb; simpl; [|discriminate].
    apply registration_test_ok in Hb. destruct Hb as [-> Hobj].
    destruct (is_registration_event e) eqn:He.
    + intros [= <-]. split; [reflexivity|]. constructor; [exact Hobj|constructor].
    + intros Hrest. apply IH in Hrest. destruct Hrest as [-> _].
      split; [reflexivity|]. constructor; [exact Hobj|constructor].
Qed.

Lemma find_registration_object es e :
  List.find is_registration_event es = Some e ->
  exists m, e = JObj m /\ truthy e = true.
Proof.
  intros Hf. apply find_some in Hf. destruct Hf as [_ He].
  destruct e as [| | | | |l|m]; simpl in He; try discriminate.
  exists m. split; [reflexivity|].
  destruct m as [|kv m]; [discriminate He|reflexivity].
Qed.

Lemma rdap_creation_date_value data v :
  rdap_creation_date data = Ok v -> v = registration_event_date data.
Proof.
  unfold rdap_creation_date, registration_event_date, events_of.
  destruct data as [| | | | |l|m]; simpl; try discriminate.
  assert (forall es v,
            (registration_event ← first_where registration_test es;
             if truthy registration_event
             then py_get registration_event "eventDate" JNull
             else Ok (JStr NOT_FOUND)) = Ok v ->
            v = match List.find is_registration_event es with
                | Some (JObj m) =>
                    match dict_get "eventDate" m with Some v => v | None => JNull end
                | _ => JStr NOT_FOUND
                end) as Hlist.
  { intros es w. destruct (first_where registration_test es) as [r|x] eqn:Hr; simpl;
      [|discriminate].
    apply first_where_registration in Hr. destruct Hr as [-> _].
    destruct (List.find is_registration_event es) as [e|] eqn:Hf.
    - destruct (find_registration_object _ _ Hf) as (m' & -> & Ht).
      rewrite Ht. simpl. intros [= <-]. reflexivity.
    - simpl. intros [= <-]. reflexivity. }
  destruct (dict_get "events" m) as [events|] eqn:Hev; simpl.
  - destruct events as [| | | |s|l|m']; simpl; try discriminate.
    + (* a string: its characters are not objects *)
      destruct s as [|c s]; simpl; [intros [= <-]; reflexivity|discriminate].
    + apply Hlist.
    + (* an object: its keys are not objects *)
      destruct m' as [|[k x] m']; simpl; [intros [= <-]; reflexivity|discriminate].
  - intros [= <-]. reflexivity.
Qed.

(** What the normaliser stores as the creation date, for every answer
    it accepts. *)
Lemma rdap_parse_creation_date domain_query data rec :
  rdap_parse domain_query data = Ok rec ->
  dict_get "creation_date" rec = Some (registration_event_date data).
Proof.
  revert rec. unfold rdap_parse.
  destruct data as [| | | | |l|m]; try discriminate.
  destruct (registrar_of (JObj m)) as [registrar|x]; simpl; [|discriminate].
  destruct (rdap_statuses domain_query m) as [statuses|x]; simpl; [|discriminate].
  destruct (rdap_creation_date (JObj m)) as [cd|x] eqn:Hcd; simpl; [|discriminate].
  destruct (rdap_nameservers (JObj m)) as [nss|x]; simpl; [|discriminate].
  intros rec [= <-]. simpl. f_equal. apply rdap_creation_date_value. exact Hcd.
Qed.

(** The code and the specification agree on an answer whose first
    registration event has a string as its [eventDate], and on an answer
    with no registration event. *)
Lemma rdap_parse_creation_date_agrees domain_query data rec :
  rdap_parse domain_query data = Ok rec ->
  (forall m, List.find is_registration_event (events_of data) = Some (JObj m) ->
             exists s, dict_get "eventDate" m = Some (JStr s)) ->
  dict_get "creation_date" rec = Some (creation_date_spec data).
Proof.
  intros Hp Hdated. rewrite (rdap_parse_creation_date _ _ _ Hp). f_equal.
  unfold registration_event_date, creation_date_spec.
  destruct (List.find is_registration_event (events_of data)) as [[| | | | |l|m]|];
    try reflexivity.
  destruct (Hdated m eq_refl) as [s ->]. reflexivity.
Qed.

End CreationDate.

(** C8. The creation date is not always a timestamp string or the
    sentinel: for an answer whose registration event has no [eventDate]
    member the normaliser stores null, where the specification asks for
    the sentinel ["Not found"]. For an answer with a dated registration
    event the record has that date. *)
Theorem rdap_creation_date_null_when_undated :
  forall (R : Runtime) (domain_query : string),
    (exists rec,
       @rdap_parse R domain_query Examples.undated_registration = Ok rec
       /\ dict_get "creation_date" rec = Some JNull
       /\ creation_date_spec Examples.undated_registration = JStr "Not found")
    /\ ~ creation_date_always_text R
    /\ (exists rec,
          @rdap_parse R domain_query Examples.dated_registration = Ok rec
          /\ dict_get "creation_date" rec = Some (JStr "1997-09-15T04:00:00Z")
          /\ creation_date_spec Examples.dated_registration
             = JStr "1997-09-15T04:00:00Z").
Proof.
  intros R domain_query.
  assert (exists rec,
            @rdap_parse R domain_query Examples.undated_registration = Ok rec)
    as [rec Hrec]
    by (unfold rdap_parse, rdap_statuses, Examples.undated_registration;
        destruct (String.eqb (Py.lower domain_query) "neustar.biz");
        eexists; reflexivity).
  pose proof (rdap_parse_creation_date _ _ _ Hrec) as Hcd.
  change (registration_event_date Examples.undated_registration) with JNull in Hcd.
  split; [|split].
  - exists rec. split; [exact Hrec|]. split; [exact Hcd|reflexivity].
  - intros Hclaim.
    destruct (Hclaim domain_query Examples.undated_registration rec Hrec) as [s Hs].
    rewrite Hcd in Hs. discriminate Hs.
  - assert (exists rec',
              @rdap_parse R domain_query Examples.dated_registration = Ok rec')
      as [rec' Hrec']
      by (unfold rdap_parse, rdap_statuses, Examples.dated_registration;
          destruct (String.eqb (Py.lower domain_query) "neustar.biz");
          eexists; reflexivity).
    exists rec'. split; [exact Hrec'|]. split; [|reflexivity].
    exact (rdap_parse_creation_date _ _ _ Hrec').
Qed.

(** ** WHOIS statuses and failures *)

(** C5. On the WHOIS path a status that comes once bare and once with
    its URL is kept twice: the duplicate test looks at the raw status,
    the list holds the stripped codes. *)
Theorem whois_statuses_repeat_code :
  whois_statuses Examples.repeated_status = ["ok"; "ok"]
  /\ ~ NoDup (whois_statuses Examples.repeated_status)
  /\ forall h,
       exists rec,
         @query_whois Examples.whois_only "example.com" h
         = (Ok rec, h ++ [WhoisQuery "example.com"])
         /\ dict_get "statuses" rec = Some (JList [JStr "ok"; JStr "ok"]).
Proof.
  split; [reflexivity|]. split.
  - change (whois_statuses Examples.repeated_status) with ["ok"; "ok"].
    intros Hnd. apply NoDup_cons in Hnd. destruct Hnd as [Hnotin _].
    apply Hnotin. left.
  - intros h. eexists. split; reflexivity.
Qed.

Lemma lower_app a b : Py.lower (a +:+ b) = Py.lower a +:+ Py.lower b.
Proof. induction a as [|c a IH]; simpl; [reflexivity|]. rewrite IH. reflexivity. Qed.

(** A match of "limit" cannot run across a space. *)
Lemma startswith_limit_space y suf :
  Py.startswith "limit" (y +:+ String " " suf) = Py.startswith "limit" y.
Proof.
  destruct y as [|c1 [|c2 [|c3 [|c4 [|c5 y]]]]]; simpl;
    rewrite ?andb_false_r; reflexivity.
Qed.

Lemma contains_limit_space x suf :
  Py.contains "limit" (x +:+ String " " suf)
  = Py.contains "limit" x || Py.contains "limit" suf.
Proof.
  induction x as [|c x IH].
  - reflexivity.
  - change (Py.contains "limit" (String c x +:+ String " " suf))
      with (Py.startswith "limit" (String c x +:+ String " " suf)
            || Py.contains "limit" (x +:+ String " " suf)).
    change (Py.contains "limit" (String c x))
      with (Py.startswith "limit" (String c x) || Py.contains "limit" x).
    rewrite startswith_limit_space, IH, orb_assoc. reflexivity.
Qed.

(** The not-found message contains "limit" exactly when the name of the
    domain does, upper or lower case. *)
Lemma not_found_message_limit d :
  Py.contains "limit" (Py.lower ("WHOIS: Domain " +:+ d +:+ " not found."))
  = Py.contains "limit" (Py.lower d).
Proof.
  rewrite lower_app.
  change (Py.contains "limit" (Py.lower "WHOIS: Domain " +:+ Py.lower (d +:+ " not found.")))
    with (Py.contains "limit" (Py.lower (d +:+ " not found."))).
  rewrite lower_app.
  change (Py.lower " not found.") with (String " " "not found.").
  rewrite contains_limit_space. apply orb_false_r.
Qed.

Section WhoisFailures.
Context `{Network}.

(** What [query_whois] raises for a domain the WHOIS client does not
    know: the not-found failure, unless the name contains "limit". *)
Lemma whois_unknown_domain_outcome d h :
  net_whois h d = Ok None ->
  query_whois d h
  = (Raise (Exception
              (if Py.contains "limit" (Py.lower d)
               then "WHOIS: Rate limit reached for " +:+ d +:+ "."
               else "WHOIS lookup for " +:+ d +:+ " failed: "
                    +:+ "WHOIS: Domain " +:+ d +:+ " not found.")),
     h ++ [WhoisQuery d]).
Proof.
  intros Hw. unfold query_whois, try_except, whois_query, raise.
  unfold mbind, M_bind. rewrite Hw. unfold whois_handler.
  change (exn_str (Exception ?m)) with m.
  rewrite not_found_message_limit.
  destruct (Py.contains "limit" (Py.lower d)); reflexivity.
Qed.

(** On the WHOIS path the statuses hold no empty token. *)
Lemma whois_statuses_nonempty o : ~ In EmptyString (whois_statuses o).
Proof.
  unfold whois_statuses.
  assert (forall l acc, ~ In EmptyString acc ->
            ~ In EmptyString (fold_left whois_add_status l acc)) as Hfold.
  { induction l as [|st l IH]; intros acc Hacc; simpl; [exact Hacc|].
    apply IH. unfold whois_add_status.
    destruct (existsb (String.eqb st) acc); [exact Hacc|].
    generalize (if Py.contains "https://" st
                then Py.strip (Py.first_field " https://" st)
                else Py.strip st).
    intros code.
    destruct (Py.is_empty code) eqn:Hc; simpl; [exact Hacc|].
    destruct (String.eqb code NOT_FOUND); simpl; [exact Hacc|].
    rewrite in_app_iff. intros [Hin|[->|[]]]; [contradiction|].
    discriminate Hc. }
  specialize (Hfold (whois_raw_statuses o) [] (fun x => x)).
  destruct (fold_left whois_add_status (whois_raw_statuses o) []).
  - simpl. intuition discriminate.
  - exact Hfold.
Qed.

End WhoisFailures.

(** C4. A domain the WHOIS client does not know, and whose name contains
    "limit", fails as rate-limited: the not-found message carries the
    name and is scanned for "limit" by the handler. *)
Theorem whois_not_found_reported_rate_limited :
  forall h,
    @query_whois Examples.no_match "limit.com" h
    = (Raise (Exception "WHOIS: Rate limit reached for limit.com."),
       h ++ [WhoisQuery "limit.com"])
    /\ @query_whois Examples.no_match "example.com" h
       = (Raise (Exception "WHOIS lookup for example.com failed: WHOIS: Domain example.com not found."),
          h ++ [WhoisQuery "example.com"]).
Proof. intros h. split; reflexivity. Qed.

(** The unknown domain [limit.com] halts the batch: the domain after it
    is not looked up. *)
Example not_found_limit_halts_batch :
  @whois_lookup_endpoint Examples.runtime Examples.no_match Examples.limit_then_example []
  = ([total_event 2; message_event "Lookup started";
      result_event
        [("registrar", JStr "Rate limit reached"); ("domain", JStr "limit.com");
         ("error_message",
          JStr "Rate limit reached. Subsequent lookups for other domains will also be marked as rate-limited.")];
      result_event
        [("registrar", JStr "Rate limit reached"); ("domain", JStr "example.com");
         ("error_message", JStr "Rate limit reached, further lookups stopped.")]],
     [WhoisQuery "limit.com"]).
Proof. reflexivity. Qed.

(** ** Validation of the request *)

Lemma clean_domains_spec ds : forall seen acc earlier,
  (forall k, k ∈ seen <-> exists y, In y earlier /\ Py.lower y = k) ->
  clean_domains ds seen acc = acc ++ dedup_ci earlier (valid_entries ds).
Proof.
  unfold valid_entries.
  induction ds as [|d ds IH]; intros seen acc earlier Hseen; simpl.
  - rewrite app_nil_r. reflexivity.
  - destruct (Py.is_empty (Py.strip d)) eqn:Hempty; simpl; [apply IH; exact Hseen|].
    rewrite Nat.leb_antisym.
    destruct (255 <? String.length (Py.strip d))%nat eqn:Hlen; simpl;
      [apply IH; exact Hseen|].
    assert (bool_decide (Py.lower (Py.strip d) ∈ seen)
            = existsb (fun y => String.eqb (Py.lower y) (Py.lower (Py.strip d))) earlier)
      as ->.
    { destruct (existsb _ earlier) eqn:Hex.
      - apply bool_decide_eq_true. apply Hseen.
        apply existsb_exists in Hex. destruct Hex as (y & Hy & Heq).
        apply String.eqb_eq in Heq. eauto.
      - apply bool_decide_eq_false. intros Hin. apply Hseen in Hin.
        destruct Hin as (y & Hy & Heq).
        apply Bool.not_true_iff_false in Hex. apply Hex.
        apply existsb_exists. exists y. split; [exact Hy|].
        apply String.eqb_eq. exact Heq. }
    destruct (existsb _ earlier) eqn:Hex.
    + apply IH. intros k. rewrite Hseen. split.
      * intros (y & Hy & Heq). exists y. split; [right; exact Hy|exact Heq].
      * intros (y & [<-|Hy] & Heq); [|eauto].
        apply existsb_exists in Hex. destruct Hex as (z & Hz & Hzeq).
        apply String.eqb_eq in Hzeq. exists z. split; [exact Hz|congruence].
    + rewrite (IH _ _ (Py.strip d :: earlier)).
      * rewrite <- app_assoc. reflexivity.
      * intros k. rewrite elem_of_union, elem_of_singleton, Hseen. split.
        -- intros [->|(y & Hy & Heq)]; [exists (Py.strip d); split; [left|]; reflexivity|].
           exists y. split; [right; exact Hy|exact Heq].
        -- intros (y & [<-|Hy] & Heq); [left; congruence|right; eauto].
Qed.

Lemma cleaned_domains_spec request :
  cleaned_domains request = validated_domains_spec (domains request).
Proof.
  unfold cleaned_domains, validated_domains_spec.
  rewrite (clean_domains_spec _ ∅ [] []).
  - simpl. destruct (MAX_DOMAINS <? length _)%nat eqn:Hlen; [reflexivity|].
    apply Nat.ltb_ge in Hlen. symmetry. apply take_ge. exact Hlen.
  - intros k. split; [intros Hk; apply elem_of_empty in Hk; destruct Hk|].
    intros (y & [] & _).
Qed.

Lemma cleaned_fields_spec request :
  cleaned_fields request = allowed_fields_spec (fields request).
Proof.
  unfold cleaned_fields, allowed_fields_spec.
  apply List.filter_ext. intros f.
  destruct (existsb (String.eqb f) _) eqn:Hex.
  - apply bool_decide_eq_true. apply allowed_fields_members.
    apply existsb_exists in Hex. destruct Hex as (g & Hg & Heq).
    apply String.eqb_eq in Heq. subst g. exact Hg.
  - apply bool_decide_eq_false. intros Hin. apply allowed_fields_members in Hin.
    apply Bool.not_true_iff_false in Hex. apply Hex. apply existsb_exists.
    exists f. split; [exact Hin|apply String.eqb_refl].
Qed.

Lemma dedup_ci_subset l : forall earlier x, In x (dedup_ci earlier l) -> In x l.
Proof.
  induction l as [|y l IH]; intros earlier x; simpl; [tauto|].
  destruct (existsb _ earlier); simpl.
  - intros Hx. right. exact (IH _ _ Hx).
  - intros [->|Hx]; [left; reflexivity|right; exact (IH _ _ Hx)].
Qed.

Lemma valid_entries_stripped ds x :
  In x (valid_entries ds) ->
  Py.strip x = x /\ x <> EmptyString /\ (String.length x <= 255)%nat.
Proof.
  unfold valid_entries. rewrite !filter_In, in_map_iff.
  intros [[(d & <- & _) Hne] Hlen].
  split; [apply strip_idem|]. split.
  - apply is_empty_false. apply negb_true_iff. exact Hne.
  - apply Nat.leb_le. exact Hlen.
Qed.

Lemma validated_domains_stripped ds x :
  In x (validated_domains_spec ds) ->
  Py.strip x = x /\ x <> EmptyString /\ (String.length x <= 255)%nat.
Proof.
  unfold validated_domains_spec. intros Hx.
  apply list_elem_of_In, elem_of_take in Hx. destruct Hx as (i & Hx & _).
  apply list_elem_of_lookup_2, list_elem_of_In, dedup_ci_subset in Hx.
  apply valid_entries_stripped in Hx. exact Hx.
Qed.

(** The generator's own trimming leaves the validated domains as they
    are. *)
Lemma cleaned_domains_fixed request :
  stripped_nonempty (cleaned_domains request) = cleaned_domains request.
Proof.
  apply stripped_nonempty_fixed. apply Forall_forall. intros x Hx.
  apply list_elem_of_In in Hx.
  rewrite cleaned_domains_spec in Hx. apply validated_domains_stripped in Hx. tauto.
Qed.

Lemma cleaned_domains_length request : (length (cleaned_domains request) <= 500)%nat.
Proof.
  rewrite cleaned_domains_spec. unfold validated_domains_spec.
  rewrite length_take. lia.
Qed.

Lemma clean_domains_empty request :
  clean_domains (domains request) ∅ [] = [] <-> cleaned_domains request = [].
Proof.
  unfold cleaned_domains. destruct (clean_domains (domains request) ∅ []) as [|x l]; simpl.
  - tauto.
  - destruct (MAX_DOMAINS <? S (length l))%nat; simpl; split; discriminate.
Qed.

(** Of six hundred distinct domains the first five hundred are kept. *)
Example cleaned_domains_cap :
  cleaned_domains Examples.six_hundred = map Examples.numbered (seq 0 500).
Proof. rewrite cleaned_domains_spec. vm_compute. reflexivity. Qed.

Section Endpoint.
Context `{Runtime} `{Network}.

Lemma endpoint_refines_spec request h :
  whois_lookup_endpoint request h = endpoint_spec request h.
Proof.
  unfold whois_lookup_endpoint, endpoint_spec.
  rewrite <- cleaned_domains_spec, <- cleaned_fields_spec.
  pose proof (clean_domains_empty request) as Hempty.
  destruct (clean_domains (domains request) ∅ []) as [|x l] eqn:Hclean.
  - rewrite (proj1 Hempty eq_refl). reflexivity.
  - destruct (cleaned_domains request) as [|y ds] eqn:Hds.
    + destruct Hempty as [_ Hempty]. discriminate (Hempty eq_refl).
    + destruct (cleaned_fields request) as [|f fs] eqn:Hfs; [reflexivity|].
      unfold lookup_and_stream_generator.
      change (domains (cleaned_request request)) with (cleaned_domains request).
      rewrite cleaned_domains_fixed.
      unfold cleaned_request. rewrite Hds, Hfs. reflexivity.
Qed.

(** C7. Before any streaming the endpoint trims the domains, drops the
    empty and the over-long ones, removes duplicates without regard to
    case keeping first occurrences, keeps the first 500, and filters the
    fields to the allowed ones in the order requested; when either list
    is then empty the response is [total: 0] followed by one [error]
    event, and otherwise it is the stream over the validated lists. *)
Theorem endpoint_validates_request :
  forall (request : LookupRequest) (h : list call),
    cleaned_domains request = validated_domains_spec (domains request)
    /\ cleaned_fields request = allowed_fields_spec (fields request)
    /\ (length (cleaned_domains request) <= 500)%nat
    /\ whois_lookup_endpoint request h = endpoint_spec request h
    /\ ((cleaned_domains request = [] \/ cleaned_fields request = []) ->
        exists m, whois_lookup_endpoint request h
                  = ([total_event 0; error_event m], h))
    /\ validated_domains_spec ["a.com"; "A.COM"; " a.com "] = ["a.com"].
Proof.
  intros request h.
  split; [apply cleaned_domains_spec|].
  split; [apply cleaned_fields_spec|].
  split; [apply cleaned_domains_length|].
  split; [apply endpoint_refines_spec|].
  split; [|reflexivity].
  intros Hempty. unfold whois_lookup_endpoint.
  destruct (clean_domains (domains request) ∅ []) as [|x l] eqn:Hclean; [eauto|].
  destruct Hempty as [Hds|Hfs].
  - apply clean_domains_empty in Hds. congruence.
  - rewrite Hfs. eauto.
Qed.

End Endpoint.

Lemma endpoint_validates_request_witness :
  exists m, @whois_lookup_endpoint Examples.runtime Examples.throttled
              Examples.blank_request []
            = ([total_event 0; error_event m], []).
Proof.
  apply (@endpoint_validates_request Examples.runtime Examples.throttled
           Examples.blank_request []).
  left. reflexivity.
Defined.

(** ** The batch stream *)

Section StreamFacts.
Context `{Runtime} `{Network}.

Lemma process_domain_flagged r d h :
  process_domain r true d h
  = (result_event (rate_limited_result (fields r) d), true, h).
Proof. reflexivity. Qed.

Lemma run_domains_flagged r ds h :
  run_domains r ds true h
  = (map (fun d => result_event (rate_limited_result (fields r) d)) ds, true, h).
Proof.
  induction ds as [|d ds IH]; simpl; [reflexivity|].
  rewrite IH. reflexivity.
Qed.

Lemma run_domains_cons r d rest flag h :
  run_domains r (d :: rest) flag h
  = let '(ev, f, h1) := process_domain r flag d h in
    let '(evs, f', h2) := run_domains r rest f h1 in
    (ev :: evs, f', h2).
Proof. reflexivity. Qed.

Lemma run_domains_app r l1 l2 : forall flag h,
  run_domains r (l1 ++ l2) flag h
  = let '(e1, f1, h1) := run_domains r l1 flag h in
    let '(e2, f2, h2) := run_domains r l2 f1 h1 in
    (e1 ++ e2, f2, h2).
Proof.
  induction l1 as [|d l1 IH]; intros flag h; simpl.
  - destruct (run_domains r l2 flag h) as [[e2 f2] h2]. reflexivity.
  - destruct (process_domain r flag d h) as [[ev f] h1].
    rewrite IH.
    destruct (run_domains r l1 f h1) as [[e1 f1] h1'].
    destruct (run_domains r l2 f1 h1') as [[e2 f2] h2]. reflexivity.
Qed.

Lemma run_domains_length r ds : forall flag h,
  length (fst (fst (run_domains r ds flag h))) = length ds.
Proof.
  induction ds as [|d ds IH]; intros flag h; simpl; [reflexivity|].
  destruct (process_domain r flag d h) as [[ev f] h1].
  specialize (IH f h1).
  destruct (run_domains r ds f h1) as [[evs f'] h2]. simpl in *. lia.
Qed.

Lemma generator_stream request h :
  lookup_and_stream_generator (cleaned_request request) h
  = let '(evs, _, h') :=
      run_domains (cleaned_request request) (cleaned_domains request) false h in
    (total_event (length (cleaned_domains request))
       :: message_event "Lookup started" :: evs, h').
Proof.
  unfold lookup_and_stream_generator.
  change (domains (cleaned_request request)) with (cleaned_domains request).
  rewrite cleaned_domains_fixed. reflexivity.
Qed.

Lemma cleaned_fields_allowed request f :
  In f (cleaned_fields request) -> f ∈ ALLOWED_FIELDS.
Proof.
  unfold cleaned_fields. rewrite filter_In. intros [_ Hf].
  apply bool_decide_eq_true in Hf. exact Hf.
Qed.

Lemma rate_limited_result_fields fs d f :
  In f fs -> f <> "domain" -> f <> "error_message" ->
  dict_get f (rate_limited_result fs d) = Some (JStr RATE_LIMIT_SIGNAL).
Proof.
  intros Hin Hd He. unfold rate_limited_result.
  rewrite dict_get_set_ne by exact He.
  apply mark_fields_marked; assumption.
Qed.

(** C1. In a batch, when the lookup of one domain raises a rate-limit
    signal the flag is set; every later domain then yields a result
    event with every requested field but [domain] set to the placeholder,
    and the history of calls after the batch is the history right after
    the lookup that raised: nothing was called for the later domains.
    The batch is the run of [lookup_and_stream_generator] on a validated
    request, with whatever HTTP client it is given. *)
Theorem rate_limit_halts_batch :
  forall (request : LookupRequest) (ds1 : list string) (d : string)
         (ds2 : list string) (h h1 h2 : list call) (evs1 : list event) (e : exn),
    cleaned_domains request = ds1 ++ d :: ds2 ->
    run_domains (cleaned_request request) ds1 false h = (evs1, false, h1) ->
    lookup (use_rdap request) d h1 = (Raise e, h2) ->
    is_rate_limit e = true ->
    exists ev,
      process_domain (cleaned_request request) false d h1 = (ev, true, h2)
      /\ lookup_and_stream_generator (cleaned_request request) h
         = (total_event (length (ds1 ++ d :: ds2))
              :: message_event "Lookup started"
              :: evs1 ++ ev
              :: map (fun d' => result_event
                                  (rate_limited_result (cleaned_fields request) d'))
                     ds2,
            h2)
      /\ (forall d' h',
            process_domain (cleaned_request request) true d' h'
            = (result_event (rate_limited_result (cleaned_fields request) d'),
               true, h'))
      /\ (forall d' f,
            In f (cleaned_fields request) -> f <> "domain" ->
            dict_get f (rate_limited_result (cleaned_fields request) d')
            = Some (JStr "Rate limit reached")).
Proof.
  intros request ds1 d ds2 h h1 h2 evs1 e Hds Hrun Hlookup Hrate.
  assert (exists ev, process_domain (cleaned_request request) false d h1 = (ev, true, h2))
    as [ev Hev].
  { unfold process_domain.
    change (use_rdap (cleaned_request request)) with (use_rdap request).
    rewrite Hlookup. cbv zeta. rewrite Hrate. eauto. }
  exists ev. split; [exact Hev|]. split; [|split].
  - rewrite generator_stream.
    rewrite Hds, run_domains_app, Hrun, run_domains_cons, Hev.
    rewrite run_domains_flagged. reflexivity.
  - intros d' h'. reflexivity.
  - intros d' f Hin Hdom.
    apply rate_limited_result_fields; [exact Hin|exact Hdom|].
    apply cleaned_fields_allowed, allowed_not_reserved in Hin. tauto.
Qed.

End StreamFacts.

(** The witness is the run that the endpoint makes for three domains in
    a world whose WHOIS client reports a query limit: the client is
    closed, the RDAP attempt for the first domain fails, the WHOIS
    fallback raises the signal, and the two domains after it are not
    looked up. *)
Lemma rate_limit_halts_batch_witness :
  exists ev,
    @process_domain Examples.runtime (closed_client Examples.whois_limited)
      (cleaned_request Examples.three_domains) false "x.org" []
    = (ev, true, [HttpGet BOOTSTRAP_URL; WhoisQuery "x.org"])
    /\ @lookup_and_stream_generator Examples.runtime (closed_client Examples.whois_limited)
         (cleaned_request Examples.three_domains) []
       = (total_event 3 :: message_event "Lookup started"
            :: [] ++ ev
            :: map (fun d' => result_event
                                (rate_limited_result
                                   (cleaned_fields Examples.three_domains) d'))
                   ["y.org"; "z.org"],
          [HttpGet BOOTSTRAP_URL; WhoisQuery "x.org"])
    /\ (forall d' h',
          @process_domain Examples.runtime (closed_client Examples.whois_limited)
            (cleaned_request Examples.three_domains) true d' h'
          = (result_event (rate_limited_result (cleaned_fields Examples.three_domains) d'),
             true, h'))
    /\ (forall d' f,
          In f (cleaned_fields Examples.three_domains) -> f <> "domain" ->
          dict_get f (rate_limited_result (cleaned_fields Examples.three_domains) d')
          = Some (JStr "Rate limit reached")).
Proof.
  apply (@rate_limit_halts_batch Examples.runtime (closed_client Examples.whois_limited)
           Examples.three_domains [] "x.org" ["y.org"; "z.org"] [] []
           [HttpGet BOOTSTRAP_URL; WhoisQuery "x.org"] []
           (Exception "WHOIS: Rate limit reached for x.org.")).
  - vm_compute. reflexivity.
  - reflexivity.
  - vm_compute. reflexivity.
  - vm_compute. reflexivity.
Defined.

(** The same run as the endpoint returns it. *)
Example endpoint_halts_on_whois_limit :
  @whois_lookup_endpoint Examples.runtime Examples.whois_limited Examples.three_domains []
  = ([total_event 3; message_event "Lookup started";
      result_event
        [("domain", JStr "x.org"); ("registrar", JStr "Rate limit reached");
         ("statuses", JStr "Rate limit reached");
         ("error_message",
          JStr "Rate limit reached. Subsequent lookups for other domains will also be marked as rate-limited.")];
      result_event
        [("domain", JStr "y.org"); ("registrar", JStr "Rate limit reached");
         ("statuses", JStr "Rate limit reached");
         ("error_message", JStr "Rate limit reached, further lookups stopped.")];
      result_event
        [("domain", JStr "z.org"); ("registrar", JStr "Rate limit reached");
         ("statuses", JStr "Rate limit reached");
         ("error_message", JStr "Rate limit reached, further lookups stopped.")]],
     [HttpGet BOOTSTRAP_URL; WhoisQuery "x.org"]).
Proof. vm_compute. reflexivity. Qed.

(** ** The calls of a lookup *)






Section LookupCalls.
Context `{Runtime} `{Network}.




Lemma lookup_rdap_cases d h :
  match query_rdap d h with
  | (Ok raw_data, h1) => lookup true d h = (Ok (raw_data, "RDAP"), h1)
  | (Raise e, h1) =>
      if is_rate_limit e then lookup true d h = (Raise e, h1)
      else
        match query_whois d h1 with
        | (Ok raw_data, h2) =>
            lookup true d h = (Ok (raw_data, "WHOIS (RDAP fallback)"), h2)
        | (Raise e', h2) => lookup true d h = (Raise e', h2)
        end
  end.
Proof.
  unfold lookup, try_except, raise. unfold mbind, M_bind, mret, M_ret.
  destruct (query_rdap d h) as [[raw|e] h1]; [reflexivity|].
  destruct (is_rate_limit e); [reflexivity|].
  destruct (query_whois d h1) as [[raw|e'] h2]; reflexivity.
Qed.

Lemma lookup_whois_cases d h :
  match query_whois d h with
  | (Ok raw_data, h1) => lookup false d h = (Ok (raw_data, "WHOIS"), h1)
  | (Raise e, h1) => lookup false d h = (Raise e, h1)
  end.
Proof.
  unfold lookup. unfold mbind, M_bind, mret, M_ret.
  destruct (query_whois d h) as [[raw|e] h1]; reflexivity.
Qed.

Lemma process_domain_success request d h raw m h' :
  lookup (use_rdap request) d h = (Ok (raw, m), h') ->
  process_domain request false d h
  = (result_event (dict_set "_method" (JStr m)
                     (copy_fields (fields request) raw
                        (initial_result (fields request) d))),
     false, h').
Proof. intros Hl. unfold process_domain. rewrite Hl. reflexivity. Qed.


Example lookup_rdap_rate_limited :
  @lookup _ Examples.throttled true "x.org" []
  = (Raise (Exception "RDAP: Rate limit reached."), [HttpGet BOOTSTRAP_URL]).
Proof. reflexivity. Qed.

Example lookup_rdap_fallback :
  exists raw_data,
    @lookup _ Examples.whois_only true "x.org" []
    = (Ok (raw_data, "WHOIS (RDAP fallback)"),
       [HttpGet BOOTSTRAP_URL; WhoisQuery "x.org"]).
Proof. eexists. reflexivity. Qed.

End LookupCalls.

(** ** The keys of a result record *)

Section ResultKeys.
Context `{Runtime} `{Network}.

Lemma cleaned_fields_not_reserved request :
  ~ In "_method" (cleaned_fields request)
  /\ ~ In "error_message" (cleaned_fields request).
Proof.
  split; intros Hin; apply cleaned_fields_allowed, allowed_not_reserved in Hin;
    destruct Hin as [Hm He]; congruence.
Qed.

Lemma failure_record_keys fs d p msg :
  ~ In "_method" fs ->
  let rec := dict_set "error_message" msg (mark_fields fs p (initial_result fs d)) in
  dict_has "_method" rec = false /\ dict_has "error_message" rec = true.
Proof.
  intros Hm rec. subst rec. split; [|apply dict_has_set_eq].
  rewrite dict_has_set_ne by discriminate. unfold dict_has.
  rewrite mark_fields_absent by exact Hm.
  rewrite initial_result_absent by (exact Hm || discriminate). reflexivity.
Qed.

Lemma success_record_keys fs d raw m :
  ~ In "error_message" fs ->
  let rec := dict_set "_method" m (copy_fields fs raw (initial_result fs d)) in
  dict_has "_method" rec = true /\ dict_has "error_message" rec = false.
Proof.
  intros He rec. subst rec. split; [apply dict_has_set_eq|].
  rewrite dict_has_set_ne by discriminate. unfold dict_has.
  rewrite copy_fields_absent by exact He.
  rewrite initial_result_absent by (exact He || discriminate). reflexivity.
Qed.

Lemma process_domain_keys request flag d h :
  exists rec flag' h',
    process_domain (cleaned_request request) flag d h = (result_event rec, flag', h')
    /\ (dict_has "_method" rec = true <->
        flag = false
        /\ exists raw m, lookup (use_rdap request) d h = (Ok (raw, m), h'))
    /\ (dict_has "error_message" rec = true <->
        flag = true \/ exists e, lookup (use_rdap request) d h = (Raise e, h'))
    /\ dict_has "_method" rec = negb (dict_has "error_message" rec).
Proof.
  destruct (cleaned_fields_not_reserved request) as [Hm He].
  unfold process_domain.
  change (use_rdap (cleaned_request request)) with (use_rdap request).
  change (fields (cleaned_request request)) with (cleaned_fields request).
  destruct flag.
  - destruct (failure_record_keys (cleaned_fields request) d RATE_LIMIT_SIGNAL
                (JStr "Rate limit reached, further lookups stopped.") Hm) as [K1 K2].
    do 3 eexists. split; [reflexivity|].
    fold (rate_limited_result (cleaned_fields request) d) in K1, K2.
    rewrite K1, K2. repeat split; try discriminate; eauto.
    intros [Hf _]. discriminate Hf.
  - destruct (lookup (use_rdap request) d h) as [[[raw m]|e] h1] eqn:Hl.
    + destruct (success_record_keys (cleaned_fields request) d raw (JStr m) He)
        as [K1 K2].
      do 3 eexists. split; [reflexivity|].
      rewrite K1, K2. repeat split; try discriminate; eauto.
      intros [Hf|[e He']]; discriminate.
    + cbv zeta. destruct (is_rate_limit e).
      * destruct (failure_record_keys (cleaned_fields request) d RATE_LIMIT_SIGNAL
                    (JStr "Rate limit reached. Subsequent lookups for other domains will also be marked as rate-limited.") Hm)
          as [K1 K2].
        do 3 eexists. split; [reflexivity|].
        rewrite K1, K2. repeat split; try discriminate; eauto.
        intros [_ (raw & m & Hok)]. discriminate Hok.
      * destruct (failure_record_keys (cleaned_fields request) d "Lookup failed"
                    (JStr ("Failed: " +:+ exn_str e)) Hm) as [K1 K2].
        do 3 eexists. split; [reflexivity|].
        rewrite K1, K2. repeat split; try discriminate; eauto.
        intros [_ (raw & m & Hok)]. discriminate Hok.
Qed.

Lemma run_domains_keys request ds : forall flag h ev,
  In ev (fst (fst (run_domains (cleaned_request request) ds flag h))) ->
  exists rec, ev = result_event rec
              /\ dict_has "_method" rec = negb (dict_has "error_message" rec).
Proof.
  induction ds as [|d ds IH]; intros flag h ev; simpl; [tauto|].
  destruct (process_domain_keys request flag d h) as (rec & f & h1 & Hp & _ & _ & Hx).
  rewrite Hp.
  specialize (IH f h1 ev).
  destruct (run_domains (cleaned_request request) ds f h1) as [[evs f'] h2].
  simpl in *. intros [<-|Hin]; [eauto|auto].
Qed.

End ResultKeys.

Section ResultRecords.
Context `{Runtime} `{Network}.

(** C10. Every record the batch loop emits for a validated request has
    [_method] exactly when the lookup was made and succeeded, and
    [error_message] exactly when the domain was skipped as rate-limited
    or its lookup failed; it never has both. The same holds for every
    [result] event of a response. *)
Theorem result_has_method_or_error_message :
  forall (request : LookupRequest) (flag : bool) (d : string) (h : list call),
    (exists rec flag' h',
       process_domain (cleaned_request request) flag d h = (result_event rec, flag', h')
       /\ (dict_has "_method" rec = true <->
           flag = false
           /\ exists raw m, lookup (use_rdap request) d h = (Ok (raw, m), h'))
       /\ (dict_has "error_message" rec = true <->
           flag = true \/ exists e, lookup (use_rdap request) d h = (Raise e, h'))
       /\ dict_has "_method" rec = negb (dict_has "error_message" rec))
    /\ (forall ev,
          In ev (fst (whois_lookup_endpoint request h)) ->
          event_name ev = "result" ->
          exists rec, data ev = JObj rec
                      /\ dict_has "_method" rec = negb (dict_has "error_message" rec)).
Proof.
  intros request flag d h. split; [apply process_domain_keys|].
  intros ev Hin Hname. unfold whois_lookup_endpoint in Hin.
  destruct (clean_domains (domains request) ∅ []) as [|x l].
  { destruct Hin as [<-|[<-|[]]]; discriminate Hname. }
  destruct (cleaned_fields request) as [|f fs] eqn:Hfs.
  { destruct Hin as [<-|[<-|[]]]; discriminate Hname. }
  unfold lookup_and_stream_generator in Hin.
  pose proof (@run_domains_keys _ (closed_client _) request
                (stripped_nonempty (domains (cleaned_request request))) false h ev) as Hk.
  destruct (@run_domains _ (closed_client _) (cleaned_request request)
              (stripped_nonempty (domains (cleaned_request request))) false h)
    as [[evs f'] h2].
  destruct Hin as [<-|[<-|Hin]]; try discriminate Hname.
  destruct (Hk Hin) as (rec & -> & Hx). eauto.
Qed.

End ResultRecords.

(** ** The [domain] field of a result *)

Lemma bind_ok {A B} (m : M A) (k : A -> M B) h b h' :
  (m ≫= k) h = (Ok b, h') ->
  exists a h1, m h = (Ok a, h1) /\ k a h1 = (Ok b, h').
Proof.
  unfold mbind, M_bind. destruct (m h) as [[a|e] h1]; [eauto|discriminate].
Qed.

Lemma try_except_raise_ok {A} (body : M A) (f : exn -> exn) h a h' :
  try_except body (fun e => raise (f e)) h = (Ok a, h') -> body h = (Ok a, h').
Proof.
  unfold try_except, raise. destruct (body h) as [[x|e] h1]; [tauto|discriminate].
Qed.

Lemma us_enrich_domain parsed out :
  dict_get "domain" (us_enrich parsed out) = dict_get "domain" parsed.
Proof.
  unfold us_enrich.
  destruct (last_line_with "Registrant Name:" _);
    destruct (last_line_with "Registrant Application Purpose:" _);
    destruct (last_line_with "Registrant Nexus Category:" _); simpl;
    repeat rewrite dict_get_set_ne by discriminate; reflexivity.
Qed.

Section DomainField.
Context `{Runtime} `{Network}.

Lemma rdap_parse_domain d data raw :
  rdap_parse d data = Ok raw -> dict_get "domain" raw = Some (JStr d).
Proof.
  unfold rdap_parse. destruct data as [| | | | |l|m]; try discriminate.
  destruct (registrar_of (JObj m)); simpl; [|discriminate].
  destruct (rdap_statuses d m); simpl; [|discriminate].
  destruct (rdap_creation_date (JObj m)); simpl; [|discriminate].
  destruct (rdap_nameservers (JObj m)); simpl; [|discriminate].
  intros [= <-]. reflexivity.
Qed.

(** A record that [query_rdap] returns names the domain it was asked
    for, except the fixed record, which names [neustar.biz] in lower
    case. *)
Lemma query_rdap_domain d h raw h' :
  query_rdap d h = (Ok raw, h') ->
  dict_get "domain" raw
  = Some (JStr (if String.eqb (Py.lower d) "neustar.biz" then "neustar.biz" else d)).
Proof.
  unfold query_rdap. destruct (String.eqb (Py.lower d) "neustar.biz").
  - intros [= <- _]. reflexivity.
  - intros Hq. apply try_except_raise_ok in Hq.
    repeat (apply bind_ok in Hq; destruct Hq as (? & ? & _ & Hq)).
    unfold lift in Hq. injection Hq as Hparse _.
    exact (rdap_parse_domain _ _ _ Hparse).
Qed.

(** A record that [query_whois] returns names the domain it was asked
    for. *)
Lemma query_whois_domain d h raw h' :
  query_whois d h = (Ok raw, h') -> dict_get "domain" raw = Some (JStr d).
Proof.
  intros Hq. apply try_except_raise_ok in Hq.
  apply bind_ok in Hq. destruct Hq as (w & h1 & _ & Hq).
  destruct w as [o|]; [|discriminate].
  destruct (whois_no_match o); [discriminate|].
  destruct (whois_no_registrar o); [discriminate|].
  apply bind_ok in Hq. destruct Hq as (parsed & h2 & Hparsed & Hq).
  injection Hq as <- _. rewrite dict_get_set_ne by discriminate.
  destruct (Py.endswith ".us" (Py.lower d)).
  - unfold try_except in Hparsed.
    destruct ((whois_command d ≫= _) h1) as [[p|e] h3] eqn:Hcmd.
    + injection Hparsed as <- _.
      apply bind_ok in Hcmd. destruct Hcmd as (out & h4 & _ & Hret).
      injection Hret as <- _. rewrite us_enrich_domain. reflexivity.
    + injection Hparsed as <- _. reflexivity.
  - injection Hparsed as <- _. reflexivity.
Qed.

Lemma lookup_domain use d h raw m h' :
  lookup use d h = (Ok (raw, m), h') ->
  dict_get "domain" raw = Some (JStr d)
  \/ (use = true /\ Py.lower d = "neustar.biz"
      /\ dict_get "domain" raw = Some (JStr "neustar.biz")).
Proof.
  destruct use.
  - pose proof (lookup_rdap_cases d h) as Hc.
    destruct (query_rdap d h) as [[raw1|e] h1] eqn:Hr.
    + rewrite Hc. intros [= <- <- <-]. apply query_rdap_domain in Hr.
      destruct (String.eqb (Py.lower d) "neustar.biz") eqn:E; [|left; exact Hr].
      right. apply String.eqb_eq in E. auto.
    + destruct (is_rate_limit e); [rewrite Hc; discriminate|].
      destruct (query_whois d h1) as [[raw2|e'] h2] eqn:Hw; rewrite Hc; [|discriminate].
      intros [= <- <- <-]. left. exact (query_whois_domain _ _ _ _ Hw).
  - pose proof (lookup_whois_cases d h) as Hc.
    destruct (query_whois d h) as [[raw2|e'] h2] eqn:Hw; rewrite Hc; [|discriminate].
    intros [= <- <- <-]. left. exact (query_whois_domain _ _ _ _ Hw).
Qed.

(** One turn of the loop yields one [result] event whose [domain] is the
    entry it was given; the one exception is the fixed record for
    [neustar.biz], copied when [domain] is requested over RDAP. *)
Lemma process_domain_domain request flag d h :
  exists rec flag' h',
    process_domain request flag d h = (result_event rec, flag', h')
    /\ (dict_get "domain" rec = Some (JStr d)
        \/ (use_rdap request = true /\ In "domain" (fields request)
            /\ Py.lower d = "neustar.biz"
            /\ dict_get "domain" rec = Some (JStr "neustar.biz"))).
Proof.
  unfold process_domain. destruct flag.
  - do 3 eexists. split; [reflexivity|]. left. unfold rate_limited_result.
    rewrite dict_get_set_ne by discriminate.
    rewrite mark_fields_domain. apply initial_result_domain.
  - destruct (lookup (use_rdap request) d h) as [[[raw m]|e] h1] eqn:Hl.
    + do 3 eexists. split; [reflexivity|].
      rewrite dict_get_set_ne by discriminate.
      destruct (in_dec string_dec "domain" (fields request)) as [Hin|Hin].
      * rewrite copy_fields_copied by exact Hin.
        destruct (lookup_domain _ _ _ _ _ _ Hl) as [->|(Hu & Hn & ->)]; [left; reflexivity|].
        right. auto.
      * left. rewrite copy_fields_absent by exact Hin. apply initial_result_domain.
    + cbv zeta. destruct (is_rate_limit e); do 3 eexists; (split; [reflexivity|]); left;
        rewrite dict_get_set_ne by discriminate;
        rewrite mark_fields_domain; apply initial_result_domain.
Qed.

(** The loop yields one [result] event per domain, in order. *)
Lemma run_domains_results request ds : forall flag h,
  Forall2
    (fun d ev =>
       exists rec,
         ev = result_event rec
         /\ (dict_get "domain" rec = Some (JStr d)
             \/ (use_rdap request = true /\ In "domain" (fields request)
                 /\ Py.lower d = "neustar.biz"
                 /\ dict_get "domain" rec = Some (JStr "neustar.biz"))))
    ds (fst (fst (run_domains request ds flag h))).
Proof.
  induction ds as [|d ds IH]; intros flag h; simpl; [constructor|].
  destruct (process_domain_domain request flag d h) as (rec & f & h1 & -> & Hd).
  specialize (IH f h1).
  destruct (run_domains request ds f h1) as [[evs f'] h2]. simpl in *.
  constructor; [eauto|exact IH].
Qed.

(** C2. For the domain [NEUSTAR.BIZ] looked up over RDAP with its
    [domain] field requested, the one result event names [neustar.biz]:
    the field is overwritten by the fixed record, in lower case. *)
Theorem neustar_result_loses_case :
  forall h,
    whois_lookup_endpoint Examples.neustar_capitals h
    = ([total_event 1; message_event "Lookup started";
        result_event [("domain", JStr "neustar.biz"); ("_method", JStr "RDAP")]],
       h).
Proof. intros h. reflexivity. Qed.

End DomainField.

(** * Further properties *)

(** ** The validated domain list *)

Lemma dedup_ci_distinct l : forall earlier,
  NoDup (map Py.lower (dedup_ci earlier l))
  /\ forall x y, In x (dedup_ci earlier l) -> In y earlier -> Py.lower y <> Py.lower x.
Proof.
  induction l as [|a l IH]; intros earlier; simpl.
  - split; [apply NoDup_nil; exact I|intros x y []].
  - destruct (IH (a :: earlier)) as [Hnd Hsep].
    destruct (existsb _ earlier) eqn:Hex.
    + split; [exact Hnd|]. intros x y Hx Hy. apply (Hsep x y Hx). right. exact Hy.
    + split.
      * simpl. apply NoDup_cons. split; [|exact Hnd].
        rewrite list_elem_of_In, in_map_iff. intros (x & Heq & Hx).
        apply (Hsep x a Hx); [left; reflexivity|congruence].
      * intros x y [<-|Hx] Hy.
        -- intros Heq. apply Bool.not_true_iff_false in Hex. apply Hex.
           apply existsb_exists. exists y. split; [exact Hy|].
           apply String.eqb_eq. exact Heq.
        -- apply (Hsep x y Hx). right. exact Hy.
Qed.

Lemma NoDup_map_take {A B} (f : A -> B) (l : list A) : forall n,
  NoDup (map f l) -> NoDup (map f (take n l)).
Proof.
  induction l as [|a l IH]; intros [|n] Hnd; simpl;
    try (apply NoDup_nil; exact I).
  simpl in Hnd. apply NoDup_cons in Hnd. destruct Hnd as [Ha Hnd].
  apply NoDup_cons. split; [|apply IH; exact Hnd].
  rewrite list_elem_of_In in *. rewrite in_map_iff in *.
  intros (x & Heq & Hx). apply Ha. exists x. split; [exact Heq|].
  apply list_elem_of_In. apply list_elem_of_In in Hx.
  apply elem_of_take in Hx. destruct Hx as (i & Hx & _).
  eapply list_elem_of_lookup_2. exact Hx.
Qed.

Lemma cleaned_domains_trimmed_distinct_aux request :
  Forall (fun d => Py.strip d = d /\ d <> EmptyString
                   /\ (String.length d <= 255)%nat)
         (cleaned_domains request)
  /\ NoDup (map Py.lower (cleaned_domains request)).
Proof.
  rewrite cleaned_domains_spec. split.
  - apply Forall_forall. intros x Hx. apply list_elem_of_In in Hx.
    exact (validated_domains_stripped _ _ Hx).
  - unfold validated_domains_spec. apply NoDup_map_take.
    apply dedup_ci_distinct.
Qed.

(** X1. The validated domains are trimmed, not empty and at most 255
    characters long, and no two of them are equal when case is
    ignored. *)
Theorem cleaned_domains_trimmed_distinct :
  forall request : LookupRequest,
    Forall (fun d => Py.strip d = d /\ d <> EmptyString
                     /\ (String.length d <= 255)%nat)
           (cleaned_domains request)
    /\ NoDup (map Py.lower (cleaned_domains request)).
Proof. exact cleaned_domains_trimmed_distinct_aux. Qed.

Lemma dedup_ci_complete l : forall earlier x,
  In x l ->
  (exists y, In y earlier /\ Py.lower y = Py.lower x)
  \/ (exists y, In y (dedup_ci earlier l) /\ Py.lower y = Py.lower x).
Proof.
  induction l as [|a l IH]; intros earlier x; simpl; [tauto|].
  intros [->|Hx].
  - destruct (existsb _ earlier) eqn:Hex.
    + left. apply existsb_exists in Hex. destruct Hex as (y & Hy & Heq).
      apply String.eqb_eq in Heq. eauto.
    + right. exists x. split; [left|]; reflexivity.
  - destruct (IH (a :: earlier) x Hx) as [(y & [<-|Hy] & Heq)|(y & Hy & Heq)].
    + destruct (existsb _ earlier) eqn:Hex.
      * left. apply existsb_exists in Hex. destruct Hex as (z & Hz & Hzeq).
        apply String.eqb_eq in Hzeq. exists z. split; [exact Hz|congruence].
      * right. exists a. split; [left; reflexivity|exact Heq].
    + left. eauto.
    + right. exists y. split; [|exact Heq].
      destruct (existsb _ earlier); [exact Hy|right; exact Hy].
Qed.

(** X2. When fewer than 500 domains come out of the validation, every
    entry of the request that is not blank and not over-long after
    trimming is there, up to case. *)
Theorem cleaned_domains_complete :
  forall (request : LookupRequest) (d : string),
    In d (domains request) ->
    Py.strip d <> EmptyString ->
    (String.length (Py.strip d) <= 255)%nat ->
    (length (cleaned_domains request) < 500)%nat ->
    exists y, In y (cleaned_domains request) /\ Py.lower y = Py.lower (Py.strip d).
Proof.
  intros request d Hd Hne Hlen Hcap.
  rewrite cleaned_domains_spec in *. unfold validated_domains_spec in *.
  rewrite length_take in Hcap. rewrite take_ge by lia.
  assert (In (Py.strip d) (valid_entries (domains request))) as Hvalid.
  { unfold valid_entries. rewrite !filter_In, in_map_iff. repeat split.
    - exists d. split; [reflexivity|exact Hd].
    - apply negb_true_iff, is_empty_false. exact Hne.
    - apply Nat.leb_le. exact Hlen. }
  destruct (dedup_ci_complete _ [] _ Hvalid) as [(y & [] & _)|Hy]. exact Hy.
Qed.

Lemma cleaned_domains_complete_witness :
  exists y, In y (cleaned_domains Examples.three_domains)
            /\ Py.lower y = Py.lower (Py.strip "y.org").
Proof.
  apply (cleaned_domains_complete Examples.three_domains "y.org").
  - right. left. reflexivity.
  - discriminate.
  - vm_compute. lia.
  - vm_compute. lia.
Defined.

Lemma dedup_ci_fixed l : forall earlier,
  NoDup (map Py.lower l) ->
  (forall x y, In x l -> In y earlier -> Py.lower y <> Py.lower x) ->
  dedup_ci earlier l = l.
Proof.
  induction l as [|a l IH]; intros earlier Hnd Hsep; simpl; [reflexivity|].
  simpl in Hnd. apply NoDup_cons in Hnd. destruct Hnd as [Ha Hnd].
  assert (existsb (fun y => String.eqb (Py.lower y) (Py.lower a)) earlier = false) as ->.
  { apply Bool.not_true_iff_false. intros Hex. apply existsb_exists in Hex.
    destruct Hex as (y & Hy & Heq). apply String.eqb_eq in Heq.
    apply (Hsep a y); [left; reflexivity|exact Hy|exact Heq]. }
  f_equal. apply IH; [exact Hnd|].
  intros x y Hx [<-|Hy].
  - intros Heq. apply Ha. rewrite list_elem_of_In, in_map_iff.
    exists x. split; [congruence|exact Hx].
  - apply Hsep; [right; exact Hx|exact Hy].
Qed.

Lemma valid_entries_fixed l :
  Forall (fun d => Py.strip d = d /\ d <> EmptyString
                   /\ (String.length d <= 255)%nat) l ->
  valid_entries l = l.
Proof.
  unfold valid_entries.
  induction 1 as [|d l (Hs & Hne & Hlen) _ IH]; simpl; [reflexivity|].
  rewrite Hs. apply is_empty_false in Hne. rewrite Hne. simpl.
  apply Nat.leb_le in Hlen. rewrite Hlen. f_equal. exact IH.
Qed.

Lemma filter_idem {A} (f : A -> bool) (l : list A) :
  List.filter f (List.filter f l) = List.filter f l.
Proof.
  induction l as [|a l IH]; simpl; [reflexivity|].
  destruct (f a) eqn:Ha; simpl; [rewrite Ha; f_equal|]; exact IH.
Qed.

Lemma cleaned_domains_idem request :
  cleaned_domains (cleaned_request request) = cleaned_domains request.
Proof.
  destruct (cleaned_domains_trimmed_distinct_aux request) as [Hvalid Hnd].
  rewrite (cleaned_domains_spec (cleaned_request request)).
  unfold validated_domains_spec.
  change (domains (cleaned_request request)) with (cleaned_domains request).
  rewrite valid_entries_fixed by exact Hvalid.
  rewrite dedup_ci_fixed; [|exact Hnd|intros x y _ []].
  apply take_ge. apply cleaned_domains_length.
Qed.

Lemma cleaned_fields_idem request :
  cleaned_fields (cleaned_request request) = cleaned_fields request.
Proof.
  unfold cleaned_fields at 1.
  change (fields (cleaned_request request)) with (cleaned_fields request).
  unfold cleaned_fields. apply filter_idem.
Qed.

Section ValidationIdempotent.
Context `{Runtime} `{Network}.

(** X3. Validation is idempotent: the request the endpoint hands to the
    generator validates to itself, and posting it gives the response of
    the request it came from. *)
Theorem validation_idempotent :
  forall (request : LookupRequest) (h : list call),
    cleaned_request (cleaned_request request) = cleaned_request request
    /\ whois_lookup_endpoint (cleaned_request request) h
       = whois_lookup_endpoint request h.
Proof.
  intros request h. split.
  - change (cleaned_request (cleaned_request request))
      with {| domains := cleaned_domains (cleaned_request request);
              fields := cleaned_fields (cleaned_request request);
              use_rdap := use_rdap request |}.
    rewrite cleaned_domains_idem, cleaned_fields_idem. reflexivity.
  - rewrite !endpoint_refines_spec. unfold endpoint_spec.
    rewrite <- !cleaned_domains_spec, <- !cleaned_fields_spec.
    rewrite cleaned_domains_idem, cleaned_fields_idem. reflexivity.
Qed.

End ValidationIdempotent.

(** ** The records of a response *)

Lemma dict_has_keys k d : dict_has k d = true <-> In k (dict_keys d).
Proof.
  unfold dict_has, dict_keys. induction d as [|[k' v] d IH]; simpl.
  - split; [discriminate|tauto].
  - destruct (String.eqb_spec k k') as [->|Hne].
    + split; [left; reflexivity|reflexivity].
    + rewrite IH. split; [tauto|]. intros [Heq|Hin]; [congruence|exact Hin].
Qed.

Lemma dict_has_set k k' v d :
  dict_has k (dict_set k' v d) = String.eqb k k' || dict_has k d.
Proof.
  destruct (String.eqb_spec k k') as [->|Hne].
  - apply dict_has_set_eq.
  - apply dict_has_set_ne. exact Hne.
Qed.

Lemma assign_loop_has g val fs r k :
  dict_has k (assign_loop g val fs r) = true <->
  dict_has k r = true \/ (In k fs /\ g k = true).
Proof.
  unfold dict_has.
  destruct (in_dec string_dec k fs) as [Hin|Hin]; [destruct (g k) eqn:Hg|].
  - rewrite (assign_loop_assigned g val fs r k Hin Hg). tauto.
  - rewrite assign_loop_untouched by (right; exact Hg).
    split; [tauto|]. intros [Hr|[_ Hf]]; [exact Hr|discriminate].
  - rewrite assign_loop_untouched by (left; exact Hin). tauto.
Qed.

Lemma initial_result_has fs d k :
  dict_has k (initial_result fs d) = true <-> k = "domain" \/ In k fs.
Proof.
  rewrite initial_result_loop, dict_has_set, orb_true_iff, String.eqb_eq.
  rewrite assign_loop_has. unfold dict_has. simpl. intuition discriminate.
Qed.

Lemma mark_fields_has fs p r k :
  (forall f, In f fs -> dict_has f r = true) ->
  dict_has k (mark_fields fs p r) = dict_has k r.
Proof.
  intros Hall. rewrite mark_fields_loop.
  destruct (dict_has k r) eqn:Hr.
  - apply assign_loop_has. left. exact Hr.
  - apply Bool.not_true_iff_false. rewrite assign_loop_has.
    intros [Hk|[Hin _]]; [congruence|]. rewrite (Hall k Hin) in Hr. discriminate.
Qed.

Lemma copy_fields_has fs raw r k :
  (forall f, In f fs -> dict_has f r = true) ->
  dict_has k (copy_fields fs raw r) = dict_has k r.
Proof.
  intros Hall. rewrite copy_fields_loop.
  destruct (dict_has k r) eqn:Hr.
  - apply assign_loop_has. left. exact Hr.
  - apply Bool.not_true_iff_false. rewrite assign_loop_has.
    intros [Hk|[Hin _]]; [congruence|]. rewrite (Hall k Hin) in Hr. discriminate.
Qed.

Section RecordKeys.
Context `{Runtime} `{Network}.

(** The keys of the record of one turn: [domain], the requested fields
    and one marker. *)
Lemma process_domain_has request flag d h :
  exists rec flag' h' marker,
    process_domain request flag d h = (result_event rec, flag', h')
    /\ (marker = "_method" \/ marker = "error_message")
    /\ forall k, dict_has k rec = true <->
                 k = marker \/ k = "domain" \/ In k (fields request).
Proof.
  assert (forall f, In f (fields request) ->
            dict_has f (initial_result (fields request) d) = true) as Hinit.
  { intros f Hf. apply initial_result_has. right. exact Hf. }
  unfold process_domain. destruct flag.
  - exists (rate_limited_result (fields request) d), true, h, "error_message".
    split; [reflexivity|]. split; [right; reflexivity|]. intros k.
    unfold rate_limited_result.
    rewrite dict_has_set, orb_true_iff, String.eqb_eq, mark_fields_has by exact Hinit.
    rewrite initial_result_has. tauto.
  - destruct (lookup (use_rdap request) d h) as [[[raw m]|e] h1].
    + do 3 eexists. exists "_method". split; [reflexivity|].
      split; [left; reflexivity|]. intros k.
      rewrite dict_has_set, orb_true_iff, String.eqb_eq, copy_fields_has by exact Hinit.
      rewrite initial_result_has. tauto.
    + cbv zeta. destruct (is_rate_limit e); do 3 eexists; exists "error_message";
        (split; [reflexivity|]); (split; [right; reflexivity|]); intros k;
        rewrite dict_has_set, orb_true_iff, String.eqb_eq, mark_fields_has by exact Hinit;
        rewrite initial_result_has; tauto.
Qed.

Lemma run_domains_has request ds : forall flag h ev,
  In ev (fst (fst (run_domains request ds flag h))) ->
  exists rec marker,
    ev = result_event rec
    /\ (marker = "_method" \/ marker = "error_message")
    /\ forall k, dict_has k rec = true <->
                 k = marker \/ k = "domain" \/ In k (fields request).
Proof.
  induction ds as [|d ds IH]; intros flag h ev; simpl; [tauto|].
  destruct (process_domain_has request flag d h) as (rec & f & h1 & mk & Hp & Hmk & Hk).
  rewrite Hp. specialize (IH f h1 ev).
  destruct (run_domains request ds f h1) as [[evs f'] h2].
  simpl in *. intros [<-|Hin]; [eauto|auto].
Qed.

End RecordKeys.

Section ResponseKeys.
Context `{Runtime} `{Network}.

(** X4. The keys of every [result] record of a response are [domain],
    one of [_method] and [error_message], and the requested fields that
    are allowed; a field outside the allowed set never appears, and no
    allowed requested field is missing. *)
Theorem result_keys_are_requested :
  forall (request : LookupRequest) (h : list call) (ev : event),
    In ev (fst (whois_lookup_endpoint request h)) ->
    event_name ev = "result" ->
    exists rec marker,
      data ev = JObj rec
      /\ (marker = "_method" \/ marker = "error_message")
      /\ forall k, dict_has k rec = true <->
                   k = marker \/ k = "domain"
                   \/ (In k (fields request) /\ k ∈ ALLOWED_FIELDS).
Proof.
  intros request h ev Hin Hname. unfold whois_lookup_endpoint in Hin.
  destruct (clean_domains (domains request) ∅ []) as [|x l].
  { destruct Hin as [<-|[<-|[]]]; discriminate Hname. }
  destruct (cleaned_fields request) as [|f fs] eqn:Hfs.
  { destruct Hin as [<-|[<-|[]]]; discriminate Hname. }
  unfold lookup_and_stream_generator in Hin.
  pose proof (@run_domains_has _ (closed_client _) (cleaned_request request)
                (stripped_nonempty (domains (cleaned_request request))) false h ev) as Hk.
  destruct (@run_domains _ (closed_client _) (cleaned_request request)
              (stripped_nonempty (domains (cleaned_request request))) false h)
    as [[evs f'] h2].
  destruct Hin as [<-|[<-|Hin]]; try discriminate Hname.
  destruct (Hk Hin) as (rec & mk & -> & Hmk & Hkeys).
  exists rec, mk. split; [reflexivity|]. split; [exact Hmk|].
  intros k. rewrite Hkeys.
  change (fields (cleaned_request request)) with (cleaned_fields request).
  unfold cleaned_fields. rewrite filter_In, bool_decide_eq_true. tauto.
Qed.

End ResponseKeys.

Lemma result_keys_are_requested_witness :
  exists rec marker,
    data (result_event [("domain", JStr "neustar.biz"); ("_method", JStr "RDAP")])
    = JObj rec
    /\ (marker = "_method" \/ marker = "error_message")
    /\ forall k, dict_has k rec = true <->
                 k = marker \/ k = "domain"
                 \/ (In k (fields Examples.neustar_capitals) /\ k ∈ ALLOWED_FIELDS).
Proof.
  apply (@result_keys_are_requested Examples.runtime Examples.throttled
           Examples.neustar_capitals []).
  - right. right. left. reflexivity.
  - reflexivity.
Defined.

(** ** The shape of a response *)

Section ResponseShape.
Context `{Runtime} `{Network}.

Lemma run_domains_all_results request ds : forall flag h,
  List.filter is_result (fst (fst (run_domains request ds flag h)))
  = fst (fst (run_domains request ds flag h)).
Proof.
  induction ds as [|d ds IH]; intros flag h; simpl; [reflexivity|].
  destruct (process_domain_domain request flag d h) as (rec & f & h1 & -> & _).
  specialize (IH f h1).
  destruct (run_domains request ds f h1) as [[evs f'] h2]. simpl in *.
  rewrite IH. reflexivity.
Qed.

Lemma run_domains_names request ds : forall flag h,
  use_rdap request = false
  \/ Forall (fun d => Py.lower d <> "neustar.biz") ds ->
  Forall2 (fun d ev => exists rec, ev = result_event rec
                                   /\ dict_get "domain" rec = Some (JStr d))
          ds (fst (fst (run_domains request ds flag h))).
Proof.
  induction ds as [|d ds IH]; intros flag h Hok; simpl; [constructor|].
  destruct (process_domain_domain request flag d h) as (rec & f & h1 & -> & Hd).
  assert (use_rdap request = false
          \/ Forall (fun d => Py.lower d <> "neustar.biz") ds) as Hok'.
  { destruct Hok as [Hu|Hf]; [left; exact Hu|right]. inversion Hf. assumption. }
  specialize (IH f h1 Hok').
  destruct (run_domains request ds f h1) as [[evs f'] h2]. simpl in *.
  constructor; [|exact IH].
  exists rec. split; [reflexivity|].
  destruct Hd as [Hd|(Hu & _ & Hn & _)]; [exact Hd|].
  destruct Hok as [Hf|Hf]; [congruence|].
  inversion Hf as [|? ? Hne _]. contradiction.
Qed.

(** X6. Read to its end, the stream of the generator is the [total]
    event with the number of entries that are not blank, the
    ["Lookup started"] message, and then one [result] event per such
    entry, in order, each carrying the trimmed entry as its [domain],
    whether the lookup succeeded, failed or was skipped. This holds when
    RDAP is not used or no entry is [neustar.biz] in any case. *)
Theorem stream_one_result_per_domain :
  forall (request : LookupRequest) (h : list call),
    use_rdap request = false
    \/ Forall (fun d => Py.lower d <> "neustar.biz")
              (stripped_nonempty (domains request)) ->
    exists evs,
      fst (lookup_and_stream_generator request h)
      = total_event (length (stripped_nonempty (domains request)))
          :: message_event "Lookup started" :: evs
      /\ Forall2 (fun d ev => exists rec, ev = result_event rec
                                         /\ dict_get "domain" rec = Some (JStr d))
                 (stripped_nonempty (domains request)) evs.
Proof.
  intros request h Hok. unfold lookup_and_stream_generator.
  pose proof (run_domains_names request (stripped_nonempty (domains request))
                false h Hok) as Hn.
  destruct (run_domains request (stripped_nonempty (domains request)) false h)
    as [[evs f'] h2].
  exists evs. split; [reflexivity|exact Hn].
Qed.

End ResponseShape.

Section ResponseTotal.
Context `{Runtime} `{Network}.

(** X5. A response starts with a [total] event whose number is the
    number of [result] events that follow it: the number of validated
    domains, or zero when no requested field is allowed. *)
Theorem total_counts_results :
  forall (request : LookupRequest) (h : list call),
    exists n rest,
      fst (whois_lookup_endpoint request h) = total_event n :: rest
      /\ length (List.filter is_result rest) = n
      /\ n = match cleaned_fields request with
             | [] => 0%nat
             | _ :: _ => length (cleaned_domains request)
             end.
Proof.
  intros request h. unfold whois_lookup_endpoint.
  destruct (clean_domains (domains request) ∅ []) as [|x l] eqn:Hclean.
  { do 2 eexists. split; [reflexivity|]. split; [reflexivity|].
    apply clean_domains_empty in Hclean. rewrite Hclean.
    destruct (cleaned_fields request); reflexivity. }
  destruct (cleaned_fields request) as [|f fs] eqn:Hfs.
  { do 2 eexists. split; [reflexivity|]. split; reflexivity. }
  unfold lookup_and_stream_generator.
  change (domains (cleaned_request request)) with (cleaned_domains request).
  rewrite cleaned_domains_fixed.
  pose proof (@run_domains_all_results _ (closed_client _) (cleaned_request request)
                (cleaned_domains request) false h) as Hall.
  pose proof (@run_domains_length _ (closed_client _) (cleaned_request request)
                (cleaned_domains request) false h) as Hlen.
  destruct (@run_domains _ (closed_client _) (cleaned_request request)
              (cleaned_domains request) false h)
    as [[evs f'] h2].
  simpl in *. do 2 eexists. split; [reflexivity|]. simpl.
  rewrite Hall. split; [exact Hlen|reflexivity].
Qed.

End ResponseTotal.

Lemma stream_one_result_per_domain_witness :
  exists evs,
    fst (@lookup_and_stream_generator Examples.runtime Examples.no_match
           Examples.limit_then_example [])
    = total_event (length (stripped_nonempty (domains Examples.limit_then_example)))
        :: message_event "Lookup started" :: evs
    /\ Forall2 (fun d ev => exists rec, ev = result_event rec
                                       /\ dict_get "domain" rec = Some (JStr d))
               (stripped_nonempty (domains Examples.limit_then_example)) evs.
Proof.
  apply (@stream_one_result_per_domain Examples.runtime Examples.no_match
           Examples.limit_then_example []).
  left. reflexivity.
Defined.

(** ** The record of a lookup *)

Lemma whois_rate_limit_message d :
  is_rate_limit (Exception ("WHOIS: Rate limit reached for " +:+ d +:+ ".")) = true.
Proof. reflexivity. Qed.

Section LookupRecords.
Context `{Runtime} `{Network}.

Lemma query_whois_raises d h e h' :
  query_whois d h = (Raise e, h') -> exists e1, e = whois_handler d e1.
Proof.
  unfold query_whois, try_except, raise.
  match goal with |- context [?body h] => destruct (body h) as [[rec|e1] h1] end.
  - discriminate.
  - intros [= <- _]. eauto.
Qed.

(** A failure that reaches the batch loop and is not a rate-limit signal
    is a failure of the WHOIS lookup. *)
Lemma lookup_failure_is_whois use d h e h' :
  lookup use d h = (Raise e, h') -> is_rate_limit e = false ->
  exists e1, exn_str e = "WHOIS lookup for " +:+ d +:+ " failed: " +:+ exn_str e1.
Proof.
  intros Hl Hrate.
  assert (exists h0, query_whois d h0 = (Raise e, h')) as [h0 Hw].
  { destruct use.
    - pose proof (lookup_rdap_cases d h) as Hc.
      destruct (query_rdap d h) as [[raw|e0] h1]; [congruence|].
      destruct (is_rate_limit e0) eqn:Hr0; [congruence|].
      exists h1. destruct (query_whois d h1) as [[raw|e'] h2]; congruence.
    - pose proof (lookup_whois_cases d h) as Hc.
      exists h. destruct (query_whois d h) as [[raw|e'] h2]; congruence. }
  apply query_whois_raises in Hw. destruct Hw as [e1 ->].
  unfold whois_handler in *.
  destruct (Py.contains "limit" (Py.lower (exn_str e1))).
  - rewrite whois_rate_limit_message in Hrate. discriminate.
  - eauto.
Qed.

(** X7. A lookup failure that is not a rate-limit signal stays with its
    domain: the flag of the batch is left unset, the record keeps the
    domain, every other requested field reads ["Lookup failed"], and
    [error_message] is ["Failed: "] followed by the failure of the WHOIS
    lookup, also when RDAP was tried first. *)
Theorem failed_lookup_is_isolated :
  forall (request : LookupRequest) (d : string) (h h' : list call) (e : exn),
    lookup (use_rdap request) d h = (Raise e, h') ->
    is_rate_limit e = false ->
    exists rec inner,
      process_domain request false d h = (result_event rec, false, h')
      /\ dict_get "domain" rec = Some (JStr d)
      /\ dict_get "error_message" rec
         = Some (JStr ("Failed: WHOIS lookup for " +:+ d +:+ " failed: " +:+ inner))
      /\ forall f, In f (fields request) -> f <> "domain" -> f <> "error_message" ->
                   dict_get f rec = Some (JStr "Lookup failed").
Proof.
  intros request d h h' e Hl Hrate.
  destruct (lookup_failure_is_whois _ _ _ _ _ Hl Hrate) as [e1 Hmsg].
  unfold process_domain. rewrite Hl. cbv zeta. rewrite Hrate.
  do 2 eexists. split; [reflexivity|]. split; [|split].
  - rewrite dict_get_set_ne by discriminate.
    rewrite mark_fields_domain. apply initial_result_domain.
  - rewrite dict_get_set_eq, Hmsg. reflexivity.
  - intros f Hin Hd He. rewrite dict_get_set_ne by exact He.
    apply mark_fields_marked; assumption.
Qed.

End LookupRecords.

Lemma failed_lookup_is_isolated_witness :
  exists rec inner,
    @process_domain Examples.runtime Examples.no_match
      {| domains := ["example.com"]; fields := ["registrar"]; use_rdap := true |}
      false "example.com" []
    = (result_event rec, false, [HttpGet BOOTSTRAP_URL; WhoisQuery "example.com"])
    /\ dict_get "domain" rec = Some (JStr "example.com")
    /\ dict_get "error_message" rec
       = Some (JStr ("Failed: WHOIS lookup for " +:+ "example.com" +:+ " failed: " +:+ inner))
    /\ forall f, In f ["registrar"] -> f <> "domain" -> f <> "error_message" ->
                 dict_get f rec = Some (JStr "Lookup failed").
Proof.
  apply (@failed_lookup_is_isolated Examples.runtime Examples.no_match
           {| domains := ["example.com"]; fields := ["registrar"]; use_rdap := true |}
           "example.com" [] [HttpGet BOOTSTRAP_URL; WhoisQuery "example.com"]
           (Exception "WHOIS lookup for example.com failed: WHOIS: Domain example.com not found.")).
  - reflexivity.
  - reflexivity.
Defined.

(** ** What a successful lookup returns *)

Section LookupSuccess.
Context `{Runtime} `{Network}.

Lemma rdap_parse_ok d data raw :
  rdap_parse d data = Ok raw ->
  exists m registrar statuses cd nss,
    data = JObj m
    /\ rdap_statuses d m = Ok statuses
    /\ rdap_nameservers data = Ok nss
    /\ raw = [("domain", JStr d); ("registrar", registrar);
              ("statuses", JList (map JStr statuses)); ("creation_date", cd);
              ("registrant_name", JStr "Not available via RDAP");
              ("nexus_categories", JStr "Not available via RDAP");
              ("nameservers", JList nss)].
Proof.
  unfold rdap_parse. destruct data as [| | | | |l|m]; try discriminate.
  destruct (registrar_of (JObj m)) as [registrar|]; simpl; [|discriminate].
  destruct (rdap_statuses d m) as [statuses|] eqn:Hs; simpl; [|discriminate].
  destruct (rdap_creation_date (JObj m)) as [cd|]; simpl; [|discriminate].
  destruct (rdap_nameservers (JObj m)) as [nss|] eqn:Hn; simpl; [|discriminate].
  intros [= <-]. exists m, registrar, statuses, cd, nss. auto.
Qed.

Lemma query_rdap_ok d h raw h' :
  query_rdap d h = (Ok raw, h') ->
  (Py.lower d = "neustar.biz" /\ raw = neustar_record /\ h' = h)
  \/ exists data, rdap_parse d data = Ok raw.
Proof.
  unfold query_rdap. destruct (String.eqb_spec (Py.lower d) "neustar.biz") as [He|He].
  - intros [= <- <-]. left. auto.
  - intros Hq. right. apply try_except_raise_ok in Hq.
    repeat (apply bind_ok in Hq; destruct Hq as (? & ? & _ & Hq)).
    unfold lift in Hq. injection Hq as Hparse _. eauto.
Qed.

Lemma query_whois_ok d h raw h' :
  query_whois d h = (Ok raw, h') ->
  exists o parsed,
    net_whois h d = Ok (Some o)
    /\ whois_no_match o = false
    /\ whois_no_registrar o = false
    /\ ((exists v, parsed = dict_set "nexus_categories" (JStr v) (whois_base d o))
        \/ (exists out, parsed = us_enrich (whois_base d o) out))
    /\ raw = dict_set "nameservers" (JList (map JStr (whois_nameservers o))) parsed.
Proof.
  intros Hq. apply try_except_raise_ok in Hq.
  apply bind_ok in Hq. destruct Hq as (w & h1 & Hw & Hq).
  unfold whois_query in Hw. injection Hw as Hw _.
  destruct w as [o|]; [|discriminate].
  destruct (whois_no_match o) eqn:Hm; [discriminate|].
  destruct (whois_no_registrar o) eqn:Hr; [discriminate|].
  apply bind_ok in Hq. destruct Hq as (parsed & h2 & Hparsed & Hq).
  injection Hq as <- _. exists o, parsed.
  split; [exact Hw|]. split; [exact Hm|]. split; [exact Hr|].
  split; [|reflexivity].
  destruct (Py.endswith ".us" (Py.lower d)).
  - unfold try_except in Hparsed.
    destruct ((whois_command d ≫= _) h1) as [[p|e] h3] eqn:Hcmd.
    + injection Hparsed as <- _.
      apply bind_ok in Hcmd. destruct Hcmd as (out & h4 & _ & Hret).
      injection Hret as <- _. right. eauto.
    + injection Hparsed as <- _. left. eauto.
  - injection Hparsed as <- _. left. eauto.
Qed.

Lemma us_enrich_keys d o out :
  dict_keys (us_enrich (whois_base d o) out)
  = ["domain"; "registrar"; "registrant_name"; "statuses"; "creation_date";
     "nexus_categories"].
Proof.
  unfold us_enrich.
  destruct (last_line_with "Registrant Name:" _);
    destruct (last_line_with "Registrant Application Purpose:" _);
    destruct (last_line_with "Registrant Nexus Category:" _); reflexivity.
Qed.

Lemma us_enrich_statuses d o out :
  dict_get "statuses" (us_enrich (whois_base d o) out)
  = Some (JList (map JStr (whois_statuses o))).
Proof.
  unfold us_enrich.
  destruct (last_line_with "Registrant Name:" _);
    destruct (last_line_with "Registrant Application Purpose:" _);
    destruct (last_line_with "Registrant Nexus Category:" _); reflexivity.
Qed.

Lemma query_whois_keys d h raw h' :
  query_whois d h = (Ok raw, h') -> dict_keys raw = WHOIS_KEYS.
Proof.
  intros Hq. apply query_whois_ok in Hq.
  destruct Hq as (o & parsed & _ & _ & _ & [[v ->]|[out ->]] & ->); [reflexivity|].
  pose proof (us_enrich_keys d o out) as Hk.
  generalize dependent (us_enrich (whois_base d o) out). intros p Hk.
  destruct p as [|[k1 v1] [|[k2 v2] [|[k3 v3] [|[k4 v4] [|[k5 v5] [|[k6 v6] [|? ?]]]]]]];
    try discriminate Hk.
  simpl in Hk. injection Hk as -> -> -> -> -> ->. reflexivity.
Qed.

Lemma query_rdap_keys d h raw h' :
  query_rdap d h = (Ok raw, h') -> dict_keys raw = RDAP_KEYS.
Proof.
  intros Hq. apply query_rdap_ok in Hq.
  destruct Hq as [(_ & -> & _)|[data Hp]]; [reflexivity|].
  apply rdap_parse_ok in Hp.
  destruct Hp as (m & r & s & cd & nss & _ & _ & _ & ->). reflexivity.
Qed.

Lemma lookup_ok use d h raw m h' :
  lookup use d h = (Ok (raw, m), h') ->
  (exists h0, query_rdap d h0 = (Ok raw, h') /\ m = "RDAP")
  \/ (exists h0, query_whois d h0 = (Ok raw, h') /\ m <> "RDAP").
Proof.
  destruct use.
  - pose proof (lookup_rdap_cases d h) as Hc.
    destruct (query_rdap d h) as [[raw1|e] h1] eqn:Hr.
    + rewrite Hc. intros [= <- <- <-]. left. eauto.
    + destruct (is_rate_limit e); [rewrite Hc; discriminate|].
      destruct (query_whois d h1) as [[raw2|e'] h2] eqn:Hw; rewrite Hc; [|discriminate].
      intros [= <- <- <-]. right. exists h1. split; [exact Hw|discriminate].
  - pose proof (lookup_whois_cases d h) as Hc.
    destruct (query_whois d h) as [[raw2|e'] h2] eqn:Hw; rewrite Hc; [|discriminate].
    intros [= <- <- <-]. right. exists h. split; [exact Hw|discriminate].
Qed.

Lemma lookup_keys use d h raw m h' :
  lookup use d h = (Ok (raw, m), h') ->
  dict_keys raw = RDAP_KEYS \/ dict_keys raw = WHOIS_KEYS.
Proof.
  intros Hl. apply lookup_ok in Hl.
  destruct Hl as [(h0 & Hq & _)|(h0 & Hq & _)].
  - left. exact (query_rdap_keys _ _ _ _ Hq).
  - right. exact (query_whois_keys _ _ _ _ Hq).
Qed.

Lemma lookup_has_allowed use d h raw m h' f :
  lookup use d h = (Ok (raw, m), h') ->
  (dict_has f raw = true <-> f ∈ ALLOWED_FIELDS).
Proof.
  intros Hl. rewrite dict_has_keys, allowed_fields_members.
  destruct (lookup_keys _ _ _ _ _ _ Hl) as [-> | ->]; simpl; tauto.
Qed.

(** X8. Whichever protocol answered, the record of a successful lookup
    has exactly the seven allowed fields as its keys, each once, in one
    of two fixed orders. *)
Theorem lookup_record_schema :
  forall (use : bool) (d : string) (h h' : list call) (raw : dict) (m : string),
    lookup use d h = (Ok (raw, m), h') ->
    (dict_keys raw = RDAP_KEYS \/ dict_keys raw = WHOIS_KEYS)
    /\ forall f, dict_has f raw = true <-> f ∈ ALLOWED_FIELDS.
Proof.
  intros use d h h' raw m Hl. split; [exact (lookup_keys _ _ _ _ _ _ Hl)|].
  intros f. exact (lookup_has_allowed _ _ _ _ _ _ f Hl).
Qed.

(** X9. For a validated request, the record emitted after a successful
    lookup carries the method as [_method] and, for each requested
    field, the value the normalised record has for it; the default for
    a missing key is never used. The [domain] is the entry itself when
    it is not a requested field. *)
Theorem success_record_copies_fields :
  forall (request : LookupRequest) (d : string) (h h' : list call)
         (raw : dict) (m : string),
    lookup (use_rdap request) d h = (Ok (raw, m), h') ->
    exists rec,
      process_domain (cleaned_request request) false d h = (result_event rec, false, h')
      /\ dict_get "_method" rec = Some (JStr m)
      /\ (forall f, In f (cleaned_fields request) ->
            exists v, dict_get f raw = Some v /\ dict_get f rec = Some v)
      /\ (~ In "domain" (cleaned_fields request) ->
          dict_get "domain" rec = Some (JStr d)).
Proof.
  intros request d h h' raw m Hl.
  eexists. split; [apply process_domain_success; exact Hl|].
  change (fields (cleaned_request request)) with (cleaned_fields request).
  split; [apply dict_get_set_eq|]. split.
  - intros f Hf.
    pose proof (cleaned_fields_allowed _ _ Hf) as Hallowed.
    destruct (allowed_not_reserved _ Hallowed) as [Hm _].
    apply (lookup_has_allowed _ _ _ _ _ _ f Hl) in Hallowed.
    unfold dict_has in Hallowed.
    destruct (dict_get f raw) as [v|] eqn:Hv; [|discriminate].
    exists v. split; [reflexivity|].
    rewrite dict_get_set_ne by exact Hm.
    rewrite copy_fields_copied by exact Hf. rewrite Hv. reflexivity.
  - intros Hd. rewrite dict_get_set_ne by discriminate.
    rewrite copy_fields_absent by exact Hd. apply initial_result_domain.
Qed.

End LookupSuccess.

Lemma lookup_record_schema_witness :
  (dict_keys neustar_record = RDAP_KEYS \/ dict_keys neustar_record = WHOIS_KEYS)
  /\ forall f, dict_has f neustar_record = true <-> f ∈ ALLOWED_FIELDS.
Proof.
  apply (@lookup_record_schema Examples.runtime Examples.throttled
           true "neustar.biz" [] [] neustar_record "RDAP").
  reflexivity.
Defined.

Lemma success_record_copies_fields_witness :
  exists rec,
    @process_domain Examples.runtime Examples.throttled
      (cleaned_request Examples.neustar_capitals) false "NEUSTAR.BIZ" []
    = (result_event rec, false, [])
    /\ dict_get "_method" rec = Some (JStr "RDAP")
    /\ (forall f, In f (cleaned_fields Examples.neustar_capitals) ->
          exists v, dict_get f neustar_record = Some v /\ dict_get f rec = Some v)
    /\ (~ In "domain" (cleaned_fields Examples.neustar_capitals) ->
        dict_get "domain" rec = Some (JStr "NEUSTAR.BIZ")).
Proof.
  apply (@success_record_copies_fields Examples.runtime Examples.throttled
           Examples.neustar_capitals "NEUSTAR.BIZ" [] [] neustar_record "RDAP").
  reflexivity.
Defined.

(** ** Statuses and name servers of a record *)

Lemma extract_status_code_rstrip s :
  Py.rstrip " ;." (extract_status_code s) = extract_status_code s.
Proof.
  unfold extract_status_code. destruct (Py.is_empty (Py.strip s)); [reflexivity|].
  cbv zeta. unfold Py.rstrip. apply rstrip_by_idem.
Qed.

Lemma add_status_code_shape formatted code :
  Py.rstrip " ;." code = code ->
  ~ In NOT_FOUND formatted /\ Forall (fun s => Py.rstrip " ;." s = s) formatted ->
  ~ In NOT_FOUND (add_status_code formatted code)
  /\ Forall (fun s => Py.rstrip " ;." s = s) (add_status_code formatted code).
Proof.
  intros Hcode [Hnf Hall]. unfold add_status_code.
  destruct (Py.is_empty code); simpl; [tauto|].
  destruct (String.eqb_spec code NOT_FOUND) as [|Hne]; simpl; [tauto|].
  destruct (existsb (String.eqb code) formatted); simpl; [tauto|].
  split.
  - rewrite in_app_iff. intros [Hin|[Heq|[]]]; [contradiction|congruence].
  - apply Forall_app. split; [exact Hall|]. constructor; [exact Hcode|constructor].
Qed.

Section RecordStatuses.
Context `{Runtime} `{Network}.

Lemma format_statuses_shape (statuses : list json) :
  ~ In NOT_FOUND (format_statuses statuses)
  /\ Forall (fun s => Py.rstrip " ;." s = s) (format_statuses statuses).
Proof.
  unfold format_statuses.
  assert (forall l acc,
            ~ In NOT_FOUND acc /\ Forall (fun s => Py.rstrip " ;." s = s) acc ->
            let r := fold_left (fun formatted status =>
                        fold_left (fun acc p => add_status_code acc (extract_status_code p))
                                  (status_parts status) formatted) l acc in
            ~ In NOT_FOUND r /\ Forall (fun s => Py.rstrip " ;." s = s) r) as Hfold.
  { induction l as [|status l IH]; intros acc Hacc; simpl; [exact Hacc|].
    apply IH. generalize (status_parts status). intros parts. revert acc Hacc.
    induction parts as [|p parts IHp]; intros acc Hacc; simpl; [exact Hacc|].
    apply IHp. apply add_status_code_shape; [apply extract_status_code_rstrip|exact Hacc]. }
  apply Hfold. split; [intros []|constructor].
Qed.

Lemma rdap_statuses_shape domain_query data l :
  rdap_statuses domain_query data = Ok l ->
  (In NOT_FOUND l -> l = [NOT_FOUND])
  /\ Forall (fun s => Py.rstrip " ;." s = s) l.
Proof.
  unfold rdap_statuses. destruct (collect_statuses data) as [statuses|e]; simpl;
    [|discriminate].
  destruct statuses as [|s statuses].
  - destruct (String.eqb (Py.lower domain_query) "neustar.biz"); intros [= <-].
    + split; [simpl; intuition discriminate|].
      repeat constructor.
    + split; [reflexivity|repeat constructor].
  - intros [= <-]. destruct (format_statuses_shape (s :: statuses)) as [Hnf Hall].
    split; [intros Hin; contradiction|exact Hall].
Qed.

(** X10. In a record that [query_rdap] returns the statuses are a list
    of strings without duplicates and without empty tokens, none of
    which ends in a space, a semicolon or a period; the sentinel
    ["Not found"] occurs only as the whole list. *)
Theorem rdap_record_statuses :
  forall (d : string) (h h' : list call) (raw : dict),
    query_rdap d h = (Ok raw, h') ->
    exists l,
      dict_get "statuses" raw = Some (JList (map JStr l))
      /\ NoDup l
      /\ ~ In EmptyString l
      /\ (In "Not found" l -> l = ["Not found"])
      /\ Forall (fun s => Py.rstrip " ;." s = s) l.
Proof.
  intros d h h' raw Hq. apply query_rdap_ok in Hq.
  destruct Hq as [(_ & -> & _)|[data Hp]].
  - exists neustar_statuses. split; [reflexivity|].
    destruct (rdap_statuses_distinct "neustar.biz" [] neustar_statuses eq_refl) as [Hnd Hne].
    destruct (rdap_statuses_shape "neustar.biz" [] neustar_statuses eq_refl) as [Hnf Hall].
    auto.
  - apply rdap_parse_ok in Hp.
    destruct Hp as (m & r & s & cd & nss & _ & Hs & _ & ->).
    exists s. split; [reflexivity|].
    destruct (rdap_statuses_distinct _ _ _ Hs) as [Hnd Hne].
    destruct (rdap_statuses_shape _ _ _ Hs) as [Hnf Hall]. auto.
Qed.

End RecordStatuses.

Lemma rdap_record_statuses_witness :
  exists l,
    dict_get "statuses" neustar_record = Some (JList (map JStr l))
    /\ NoDup l
    /\ ~ In EmptyString l
    /\ (In "Not found" l -> l = ["Not found"])
    /\ Forall (fun s => Py.rstrip " ;." s = s) l.
Proof.
  apply (@rdap_record_statuses Examples.runtime Examples.throttled
           "Neustar.Biz" [] [] neustar_record).
  reflexivity.
Defined.

Lemma whois_add_status_shape formatted status :
  ~ In NOT_FOUND formatted /\ Forall (fun s => Py.strip s = s) formatted ->
  ~ In NOT_FOUND (whois_add_status formatted status)
  /\ Forall (fun s => Py.strip s = s) (whois_add_status formatted status).
Proof.
  intros [Hnf Hall]. unfold whois_add_status.
  destruct (existsb (String.eqb status) formatted); [tauto|].
  assert (Py.strip (if Py.contains "https://" status
                    then Py.strip (Py.first_field " https://" status)
                    else Py.strip status)
          = (if Py.contains "https://" status
             then Py.strip (Py.first_field " https://" status)
             else Py.strip status)) as Hcode.
  { destruct (Py.contains "https://" status); apply strip_idem. }
  revert Hcode.
  generalize (if Py.contains "https://" status
              then Py.strip (Py.first_field " https://" status)
              else Py.strip status).
  intros code Hcode.
  destruct (Py.is_empty code); simpl; [tauto|].
  destruct (String.eqb_spec code NOT_FOUND) as [|Hne]; simpl; [tauto|].
  split.
  - rewrite in_app_iff. intros [Hin|[Heq|[]]]; [contradiction|congruence].
  - apply Forall_app. split; [exact Hall|]. constructor; [exact Hcode|constructor].
Qed.

Lemma whois_statuses_shape o :
  whois_statuses o <> []
  /\ (In NOT_FOUND (whois_statuses o) -> whois_statuses o = [NOT_FOUND])
  /\ Forall (fun s => Py.strip s = s) (whois_statuses o).
Proof.
  unfold whois_statuses.
  assert (forall l acc,
            ~ In NOT_FOUND acc /\ Forall (fun s => Py.strip s = s) acc ->
            ~ In NOT_FOUND (fold_left whois_add_status l acc)
            /\ Forall (fun s => Py.strip s = s) (fold_left whois_add_status l acc))
    as Hfold.
  { induction l as [|st l IH]; intros acc Hacc; simpl; [exact Hacc|].
    apply IH. apply whois_add_status_shape. exact Hacc. }
  destruct (Hfold (whois_raw_statuses o) []) as [Hnf Hall];
    [split; [intros []|constructor]|].
  destruct (fold_left whois_add_status (whois_raw_statuses o) []) as [|x l].
  - split; [discriminate|]. split; [reflexivity|repeat constructor].
  - split; [discriminate|]. split; [intros Hin; contradiction|exact Hall].
Qed.

Section WhoisRecord.
Context `{Network}.

Lemma query_whois_statuses d h raw h' :
  query_whois d h = (Ok raw, h') ->
  exists o, net_whois h d = Ok (Some o)
            /\ dict_get "statuses" raw = Some (JList (map JStr (whois_statuses o)))
            /\ dict_get "nameservers" raw
               = Some (JList (map JStr (whois_nameservers o))).
Proof.
  intros Hq. apply query_whois_ok in Hq.
  destruct Hq as (o & parsed & Hw & _ & _ & Hparsed & ->).
  exists o. split; [exact Hw|]. split; [|apply dict_get_set_eq].
  rewrite dict_get_set_ne by discriminate.
  destruct Hparsed as [[v ->]|[out ->]]; [reflexivity|apply us_enrich_statuses].
Qed.

(** X11. In a record that [query_whois] returns the statuses are a list
    of strings that is never empty, holds no empty token and no token
    with white space at either end; the sentinel ["Not found"] occurs
    only as the whole list. *)
Theorem whois_record_statuses :
  forall (d : string) (h h' : list call) (raw : dict),
    query_whois d h = (Ok raw, h') ->
    exists l,
      dict_get "statuses" raw = Some (JList (map JStr l))
      /\ l <> []
      /\ ~ In EmptyString l
      /\ (In "Not found" l -> l = ["Not found"])
      /\ Forall (fun s => Py.strip s = s) l.
Proof.
  intros d h h' raw Hq. apply query_whois_statuses in Hq.
  destruct Hq as (o & _ & Hs & _). exists (whois_statuses o).
  split; [exact Hs|].
  destruct (whois_statuses_shape o) as (Hne & Hnf & Hall).
  split; [exact Hne|]. split; [apply whois_statuses_nonempty|]. auto.
Qed.

(** X12. [query_whois] returns a record exactly when the WHOIS client
    returns an object that holds no no-match marker and has a registrar
    or raw text. A failure of the [whois] command for a [.us] domain
    does not make the lookup fail. *)
Theorem query_whois_succeeds_iff :
  forall (d : string) (h : list call),
    (exists raw h', query_whois d h = (Ok raw, h'))
    <-> exists o, net_whois h d = Ok (Some o)
                  /\ whois_no_match o = false
                  /\ whois_no_registrar o = false.
Proof.
  intros d h. split.
  - intros (raw & h' & Hq). apply query_whois_ok in Hq.
    destruct Hq as (o & parsed & Hw & Hm & Hr & _). eauto.
  - intros (o & Hw & Hm & Hr).
    unfold query_whois, try_except, whois_query, whois_command, raise.
    unfold mbind, M_bind, mret, M_ret. rewrite Hw, Hm, Hr.
    destruct (Py.endswith ".us" (Py.lower d)); [|eauto].
    destruct (net_command (h ++ [WhoisQuery d]) d); eauto.
Qed.

End WhoisRecord.

Lemma whois_record_statuses_witness :
  exists l,
    dict_get "statuses"
      [("domain", JStr "example.com"); ("registrar", JStr "Example Registrar");
       ("registrant_name", JStr "Not found");
       ("statuses", JList [JStr "ok"; JStr "ok"]);
       ("creation_date", JStr "2001-11-07T00:00:00");
       ("nexus_categories", JStr "N/A (not .US domain)");
       ("nameservers", JList [JStr "ns1.example.net"])]
    = Some (JList (map JStr l))
    /\ l <> []
    /\ ~ In EmptyString l
    /\ (In "Not found" l -> l = ["Not found"])
    /\ Forall (fun s => Py.strip s = s) l.
Proof.
  apply (@whois_record_statuses Examples.whois_only "example.com" []
           [WhoisQuery "example.com"]).
  reflexivity.
Defined.

Section NameServers.
Context `{Runtime} `{Network}.

Lemma rdap_nameservers_nonempty data nss :
  rdap_nameservers data = Ok nss -> nss <> [].
Proof.
  unfold rdap_nameservers.
  destruct (py_get data "nameservers" JNull) as [ns|]; simpl; [|discriminate].
  destruct (truthy ns); simpl.
  - destruct (py_iter ns) as [items|]; simpl; [|discriminate].
    destruct (ldh_names items) as [[|x found]|]; simpl; intros [= <-]; discriminate.
  - intros [= <-]. discriminate.
Qed.

(** X13. The [nameservers] of the record of a successful lookup are a
    list that is never empty: with no name server to report the list is
    the one sentinel. *)
Theorem lookup_nameservers_nonempty :
  forall (use : bool) (d : string) (h h' : list call) (raw : dict) (m : string),
    lookup use d h = (Ok (raw, m), h') ->
    exists x l, dict_get "nameservers" raw = Some (JList (x :: l)).
Proof.
  intros use d h h' raw m Hl. apply lookup_ok in Hl.
  destruct Hl as [(h0 & Hq & _)|(h0 & Hq & _)].
  - apply query_rdap_ok in Hq. destruct Hq as [(_ & -> & _)|[data Hp]].
    + do 2 eexists. reflexivity.
    + apply rdap_parse_ok in Hp.
      destruct Hp as (mm & r & s & cd & nss & _ & _ & Hn & ->).
      apply rdap_nameservers_nonempty in Hn.
      destruct nss as [|x l]; [congruence|]. exists x, l. reflexivity.
  - apply query_whois_statuses in Hq. destruct Hq as (o & _ & _ & Hn).
    rewrite Hn. unfold whois_nameservers.
    destruct (w_name_servers o) as [|x l]; do 2 eexists; reflexivity.
Qed.

End NameServers.

Lemma lookup_nameservers_nonempty_witness :
  exists x l, dict_get "nameservers" neustar_record = Some (JList (x :: l)).
Proof.
  apply (@lookup_nameservers_nonempty Examples.runtime Examples.throttled
           true "neustar.biz" [] [] neustar_record "RDAP").
  reflexivity.
Defined.

(** ** The calls a batch makes *)

Section Calls.
Context `{Runtime} `{Network}.

Lemma query_rdap_calls d h :
  exists calls,
    snd (query_rdap d h) = h ++ calls
    /\ (if String.eqb (Py.lower d) "neustar.biz" then calls = []
        else calls = [HttpGet BOOTSTRAP_URL]
             \/ exists url, calls = [HttpGet BOOTSTRAP_URL; HttpGet url]).
Proof.
  unfold query_rdap. destruct (String.eqb (Py.lower d) "neustar.biz").
  - exists []. split; [simpl; rewrite app_nil_r|]; reflexivity.
  - unfold try_except, http_get_json, lift, raise. unfold mbind, M_bind.
    destruct (net_get_json h BOOTSTRAP_URL) as [bootstrap|e];
      [|exists [HttpGet BOOTSTRAP_URL]; split; [reflexivity|left; reflexivity]].
    destruct (py_get bootstrap "services" (JList [])) as [services|e];
      [|exists [HttpGet BOOTSTRAP_URL]; split; [reflexivity|left; reflexivity]].
    destruct (py_iter services) as [entries|e];
      [|exists [HttpGet BOOTSTRAP_URL]; split; [reflexivity|left; reflexivity]].
    destruct (find_rdap_server _ entries) as [server|e];
      [|exists [HttpGet BOOTSTRAP_URL]; split; [reflexivity|left; reflexivity]].
    destruct (rdap_query_url server d) as [url|e];
      [|exists [HttpGet BOOTSTRAP_URL]; split; [reflexivity|left; reflexivity]].
    exists [HttpGet BOOTSTRAP_URL; HttpGet url].
    split; [|right; eauto].
    destruct (net_get_json (h ++ [HttpGet BOOTSTRAP_URL]) url) as [data|e]; simpl.
    + destruct (rdap_parse d data); simpl; rewrite <- app_assoc; reflexivity.
    + rewrite <- app_assoc. reflexivity.
Qed.

Lemma query_whois_calls d h :
  exists calls,
    snd (query_whois d h) = h ++ WhoisQuery d :: calls
    /\ (calls = []
        \/ (calls = [WhoisCommand d] /\ Py.endswith ".us" (Py.lower d) = true)).
Proof.
  unfold query_whois, try_except, whois_query, whois_command, raise.
  unfold mbind, M_bind, mret, M_ret.
  destruct (net_whois h d) as [[o|]|e]; simpl;
    try (exists []; split; [reflexivity|left; reflexivity]).
  destruct (whois_no_match o); simpl;
    [exists []; split; [reflexivity|left; reflexivity]|].
  destruct (whois_no_registrar o); simpl;
    [exists []; split; [reflexivity|left; reflexivity]|].
  destruct (Py.endswith ".us" (Py.lower d)) eqn:Hus; simpl;
    [|exists []; split; [reflexivity|left; reflexivity]].
  exists [WhoisCommand d]. split; [|right; split; reflexivity].
  rewrite <- app_assoc.
  destruct (net_command (h ++ [WhoisQuery d]) d); reflexivity.
Qed.

(** X14. An RDAP lookup makes no call at all for [neustar.biz] in any
    case; for any other domain it requests the IANA bootstrap document
    first and then at most one more URL, and it never calls the WHOIS
    client or the [whois] command. *)
Theorem query_rdap_requests :
  forall (d : string) (h : list call),
    exists calls,
      snd (query_rdap d h) = h ++ calls
      /\ (if String.eqb (Py.lower d) "neustar.biz" then calls = []
          else calls = [HttpGet BOOTSTRAP_URL]
               \/ exists url, calls = [HttpGet BOOTSTRAP_URL; HttpGet url]).
Proof. exact query_rdap_calls. Qed.

(** X15. A WHOIS lookup queries the WHOIS client once; the [whois]
    command is run at most once, after that query, and only for a domain
    that ends in [.us] in any case. *)
Theorem query_whois_requests :
  forall (d : string) (h : list call),
    exists calls,
      snd (query_whois d h) = h ++ WhoisQuery d :: calls
      /\ (calls = []
          \/ (calls = [WhoisCommand d] /\ Py.endswith ".us" (Py.lower d) = true)).
Proof. exact query_whois_calls. Qed.

Lemma lookup_calls use d h :
  exists calls,
    snd (lookup use d h) = h ++ calls
    /\ (length calls <= 4)%nat
    /\ (use = false -> (length calls <= 2)%nat /\ Forall not_http calls).
Proof.
  destruct use.
  - pose proof (lookup_rdap_cases d h) as Hc.
    destruct (query_rdap_calls d h) as (c1 & Hc1 & Hshape).
    assert (length c1 <= 2)%nat as Hlen1.
    { destruct (String.eqb (Py.lower d) "neustar.biz");
        [subst; simpl; lia|destruct Hshape as [->|[url ->]]; simpl; lia]. }
    destruct (query_rdap d h) as [[raw|e] h1]; simpl in Hc1; subst h1.
    + rewrite Hc. exists c1. split; [reflexivity|]. split; [lia|discriminate].
    + destruct (is_rate_limit e).
      * rewrite Hc. exists c1. split; [reflexivity|]. split; [lia|discriminate].
      * destruct (query_whois_calls d (h ++ c1)) as (c2 & Hc2 & Hshape2).
        assert (length c2 <= 1)%nat as Hlen2.
        { destruct Hshape2 as [->|[-> _]]; simpl; lia. }
        exists (c1 ++ WhoisQuery d :: c2).
        split; [|split; [rewrite length_app; simpl; lia|discriminate]].
        rewrite app_assoc, <- Hc2.
        destruct (query_whois d (h ++ c1)) as [[raw|e'] h2]; rewrite Hc; reflexivity.
  - pose proof (lookup_whois_cases d h) as Hc.
    destruct (query_whois_calls d h) as (c2 & Hc2 & Hshape2).
    exists (WhoisQuery d :: c2). split; [|split].
    + rewrite <- Hc2.
      destruct (query_whois d h) as [[raw|e'] h2]; rewrite Hc; reflexivity.
    + destruct Hshape2 as [->|[-> _]]; simpl; lia.
    + intros _. destruct Hshape2 as [->|[-> _]]; simpl;
        (split; [lia|repeat constructor]).
Qed.

Lemma process_domain_calls request flag d h :
  exists calls,
    snd (process_domain request flag d h) = h ++ calls
    /\ (length calls <= 4)%nat
    /\ (use_rdap request = false -> (length calls <= 2)%nat /\ Forall not_http calls).
Proof.
  unfold process_domain. destruct flag.
  - exists []. simpl. rewrite app_nil_r. split; [reflexivity|].
    split; [lia|]. intros _. split; [lia|constructor].
  - destruct (lookup_calls (use_rdap request) d h) as (calls & Hc & Hb).
    exists calls. split; [|exact Hb]. rewrite <- Hc.
    destruct (lookup (use_rdap request) d h) as [[[raw m]|e] h1]; [reflexivity|].
    cbv zeta. destruct (is_rate_limit e); reflexivity.
Qed.

Lemma run_domains_calls request ds : forall flag h,
  exists calls,
    snd (run_domains request ds flag h) = h ++ calls
    /\ (length calls <= 4 * length ds)%nat
    /\ (use_rdap request = false ->
        (length calls <= 2 * length ds)%nat /\ Forall not_http calls).
Proof.
  induction ds as [|d ds IH]; intros flag h.
  - exists []. simpl. rewrite app_nil_r. split; [reflexivity|].
    split; [lia|]. intros _. split; [lia|constructor].
  - rewrite run_domains_cons.
    destruct (process_domain_calls request flag d h) as (c1 & Hc1 & Hl1 & Hw1).
    destruct (process_domain request flag d h) as [[ev f] h1]. simpl in Hc1. subst h1.
    destruct (IH f (h ++ c1)) as (c2 & Hc2 & Hl2 & Hw2).
    destruct (run_domains request ds f (h ++ c1)) as [[evs f'] h2].
    simpl in Hc2. subst h2. exists (c1 ++ c2).
    split; [simpl; rewrite app_assoc; reflexivity|].
    split; [rewrite length_app; simpl; lia|].
    intros Hu. destruct (Hw1 Hu) as [Hb1 Hf1]. destruct (Hw2 Hu) as [Hb2 Hf2].
    split; [rewrite length_app; simpl; lia|apply Forall_app; split; assumption].
Qed.

End Calls.

Section CallBudget.
Context `{Runtime} `{Network}.

(** X16. No retries: answering a request adds at most four calls per
    validated domain to the history, hence at most 2000 in all; when
    RDAP is not requested it adds at most two per domain and none of
    them is an HTTP request. *)
Theorem endpoint_call_budget :
  forall (request : LookupRequest) (h : list call),
    exists calls,
      snd (whois_lookup_endpoint request h) = h ++ calls
      /\ (length calls <= 4 * length (cleaned_domains request))%nat
      /\ (length calls <= 2000)%nat
      /\ (use_rdap request = false ->
          (length calls <= 2 * length (cleaned_domains request))%nat
          /\ Forall not_http calls).
Proof.
  intros request h.
  assert (exists calls,
            snd (whois_lookup_endpoint request h) = h ++ calls
            /\ (length calls <= 4 * length (cleaned_domains request))%nat
            /\ (use_rdap request = false ->
                (length calls <= 2 * length (cleaned_domains request))%nat
                /\ Forall not_http calls)) as (calls & Hc & Hl & Hw).
  { unfold whois_lookup_endpoint.
    destruct (clean_domains (domains request) ∅ []) as [|x l].
    { exists []. simpl. rewrite app_nil_r. split; [reflexivity|].
      split; [lia|]. intros _. split; [lia|constructor]. }
    destruct (cleaned_fields request) as [|f fs].
    { exists []. simpl. rewrite app_nil_r. split; [reflexivity|].
      split; [lia|]. intros _. split; [lia|constructor]. }
    unfold lookup_and_stream_generator.
    change (domains (cleaned_request request)) with (cleaned_domains request).
    rewrite cleaned_domains_fixed.
    destruct (@run_domains_calls _ (closed_client _) (cleaned_request request)
                (cleaned_domains request) false h) as (calls & Hc & Hb).
    exists calls. split; [|exact Hb].
    destruct (@run_domains _ (closed_client _) (cleaned_request request)
                (cleaned_domains request) false h)
      as [[evs f'] h2]. exact Hc. }
  exists calls. split; [exact Hc|]. split; [exact Hl|]. split; [|exact Hw].
  pose proof (cleaned_domains_length request). lia.
Qed.

End CallBudget.

Lemma endpoint_call_budget_witness :
  exists calls,
    snd (@whois_lookup_endpoint Examples.runtime Examples.no_match
           Examples.limit_then_example []) = [] ++ calls
    /\ (length calls <= 2 * length (cleaned_domains Examples.limit_then_example))%nat
    /\ Forall not_http calls.
Proof.
  destruct (@endpoint_call_budget Examples.runtime Examples.no_match
              Examples.limit_then_example []) as (calls & Hc & _ & _ & Hw).
  exists calls. destruct (Hw eq_refl) as [Hb Hf]. auto.
Defined.

(** ** When a WHOIS failure halts the batch *)

Lemma startswith_app p s :
  Py.startswith p s = true -> exists r, s = p +:+ r.
Proof.
  revert s. induction p as [|a p IH]; intros s; simpl.
  - intros _. exists s. reflexivity.
  - destruct s as [|b s]; [discriminate|].
    intros Hab. apply andb_true_iff in Hab. destruct Hab as [Hab Hp].
    apply Ascii.eqb_eq in Hab. subst b.
    destruct (IH s Hp) as [r ->]. exists r. reflexivity.
Qed.

(** A text that holds the rate-limit signal holds "limit" in lower
    case. *)
Lemma signal_has_limit s :
  Py.contains RATE_LIMIT_SIGNAL s = true -> Py.contains "limit" (Py.lower s) = true.
Proof.
  induction s as [|c s IH].
  - discriminate.
  - change (Py.contains RATE_LIMIT_SIGNAL (String c s))
      with (Py.startswith RATE_LIMIT_SIGNAL (String c s)
            || Py.contains RATE_LIMIT_SIGNAL s).
    intros Hc. apply orb_true_iff in Hc. destruct Hc as [Hs|Hc].
    + apply startswith_app in Hs. destruct Hs as [r ->].
      rewrite lower_app. reflexivity.
    + change (Py.lower (String c s)) with (String (Py.lower_char c) (Py.lower s)).
      change (Py.contains "limit" (String (Py.lower_char c) (Py.lower s)))
        with (Py.startswith "limit" (String (Py.lower_char c) (Py.lower s))
              || Py.contains "limit" (Py.lower s)).
      rewrite (IH Hc). apply orb_true_r.
Qed.

(** The wrapped failure message holds "limit" exactly when the name of
    the domain or the wrapped message does. *)
Lemma failed_message_limit d msg :
  Py.contains "limit" (Py.lower ("WHOIS lookup for " +:+ d +:+ " failed: " +:+ msg))
  = Py.contains "limit" (Py.lower d) || Py.contains "limit" (Py.lower msg).
Proof.
  rewrite lower_app.
  change (Py.lower "WHOIS lookup for " +:+ Py.lower (d +:+ " failed: " +:+ msg))
    with ("whois lookup for" +:+ String " " (Py.lower (d +:+ " failed: " +:+ msg))).
  rewrite contains_limit_space. rewrite lower_app.
  change (Py.lower (" failed: " +:+ msg))
    with (String " " ("failed:" +:+ String " " (Py.lower msg))).
  rewrite contains_limit_space, contains_limit_space. reflexivity.
Qed.

(** X17. How the closing handler of [query_whois] classifies a failure
    for the batch loop. When the failure message holds "limit" in any
    case the handler raises the rate-limit message, which the batch loop
    takes as the signal. Otherwise it raises the wrapped message, which
    is not the signal as long as the name of the domain does not hold
    "limit" either. *)
Theorem whois_failure_classification :
  forall (d : string) (e : exn),
    (Py.contains "limit" (Py.lower (exn_str e)) = true ->
     whois_handler d e = Exception ("WHOIS: Rate limit reached for " +:+ d +:+ ".")
     /\ is_rate_limit (whois_handler d e) = true)
    /\ (Py.contains "limit" (Py.lower (exn_str e)) = false ->
        whois_handler d e
        = Exception ("WHOIS lookup for " +:+ d +:+ " failed: " +:+ exn_str e)
        /\ (Py.contains "limit" (Py.lower d) = false ->
            is_rate_limit (whois_handler d e) = false)).
Proof.
  intros d e. unfold whois_handler. split; intros Hlim; rewrite Hlim.
  - split; [reflexivity|apply whois_rate_limit_message].
  - split; [reflexivity|]. intros Hd.
    apply Bool.not_true_iff_false. intros Hsig.
    unfold is_rate_limit in Hsig. apply signal_has_limit in Hsig.
    change (exn_str (Exception ?m)) with m in Hsig.
    rewrite failed_message_limit, Hd, Hlim in Hsig. discriminate.
Qed.

Lemma whois_failure_classification_witness :
  (whois_handler "example.com" (Exception "WHOIS query limit exceeded")
   = Exception ("WHOIS: Rate limit reached for " +:+ "example.com" +:+ ".")
   /\ is_rate_limit (whois_handler "example.com" (Exception "WHOIS query limit exceeded"))
      = true)
  /\ (whois_handler "example.com" (Exception "connection timed out")
      = Exception ("WHOIS lookup for " +:+ "example.com" +:+ " failed: "
                   +:+ exn_str (Exception "connection timed out"))
      /\ is_rate_limit (whois_handler "example.com" (Exception "connection timed out"))
         = false).
Proof.
  split.
  - apply (whois_failure_classification "example.com"
             (Exception "WHOIS query limit exceeded")). reflexivity.
  - destruct (proj2 (whois_failure_classification "example.com"
                       (Exception "connection timed out")) eq_refl) as [Hm Hs].
    split; [exact Hm|apply Hs; reflexivity].
Defined.

Section UnknownDomain.
Context `{Network}.

(** X18. For a domain the WHOIS client does not know, [query_whois]
    makes the one query and raises; the failure is the wrapped not-found
    message, and not a rate-limit signal, when the name of the domain
    does not hold "limit" in any case, and the rate-limit message when
    it does. *)
Theorem whois_unknown_domain :
  forall (d : string) (h : list call),
    net_whois h d = Ok None ->
    exists e,
      query_whois d h = (Raise e, h ++ [WhoisQuery d])
      /\ (Py.contains "limit" (Py.lower d) = false ->
          e = Exception ("WHOIS lookup for " +:+ d +:+ " failed: "
                         +:+ "WHOIS: Domain " +:+ d +:+ " not found.")
          /\ is_rate_limit e = false)
      /\ (Py.contains "limit" (Py.lower d) = true ->
          e = Exception ("WHOIS: Rate limit reached for " +:+ d +:+ ".")
          /\ is_rate_limit e = true).
Proof.
  intros d h Hw. rewrite (whois_unknown_domain_outcome d h Hw).
  eexists. split; [reflexivity|].
  destruct (Py.contains "limit" (Py.lower d)) eqn:Hd; split; try discriminate; intros _.
  - split; [reflexivity|apply whois_rate_limit_message].
  - split; [reflexivity|].
    apply Bool.not_true_iff_false. intros Hsig.
    unfold is_rate_limit in Hsig. apply signal_has_limit in Hsig.
    change (exn_str (Exception ?m)) with m in Hsig.
    rewrite failed_message_limit, not_found_message_limit, Hd in Hsig.
    discriminate.
Qed.

End UnknownDomain.

Lemma whois_unknown_domain_witness :
  exists e,
    @query_whois Examples.no_match "example.com" [] = (Raise e, [] ++ [WhoisQuery "example.com"])
    /\ (Py.contains "limit" (Py.lower "example.com") = false ->
        e = Exception ("WHOIS lookup for " +:+ "example.com" +:+ " failed: "
                       +:+ "WHOIS: Domain " +:+ "example.com" +:+ " not found.")
        /\ is_rate_limit e = false)
    /\ (Py.contains "limit" (Py.lower "example.com") = true ->
        e = Exception ("WHOIS: Rate limit reached for " +:+ "example.com" +:+ ".")
        /\ is_rate_limit e = true).
Proof.
  apply (@whois_unknown_domain Examples.no_match "example.com" []).
  reflexivity.
Defined.

(** ** The URL an RDAP lookup queries *)

Section QueryTarget.
Context `{Runtime} `{Network}.

Lemma any_tld_strings tld tlds :
  any_tld tld (map JStr tlds)
  = Ok (existsb (fun t => String.eqb tld (Py.lower t)) tlds).
Proof.
  induction tlds as [|t tlds IH]; simpl; [reflexivity|].
  destruct (String.eqb tld (Py.lower t)); [reflexivity|exact IH].
Qed.

Lemma find_rdap_server_listed tld services :
  find_rdap_server tld (map bootstrap_entry services)
  = Ok (match listed_server tld services with
        | Some u => JStr u
        | None => JNull
        end).
Proof.
  unfold listed_server.
  induction services as [|[tlds urls] services IH]; [reflexivity|].
  change (find_rdap_server tld (map bootstrap_entry ((tlds, urls) :: services)))
    with (hit ← any_tld tld (map JStr tlds);
          if hit : bool then
            (if (0 <? length (map JStr urls))%nat
             then py_index (JList (map JStr urls)) 0
             else find_rdap_server tld (map bootstrap_entry services))
          else find_rdap_server tld (map bootstrap_entry services)).
  rewrite any_tld_strings. simpl. unfold lists_tld. simpl.
  destruct (existsb _ tlds); simpl; [|exact IH].
  destruct urls as [|u urls]; simpl; [exact IH|reflexivity].
Qed.

(** X19. With a bootstrap document of the published form, an RDAP
    lookup of a domain other than [neustar.biz] makes exactly two
    requests: the bootstrap document, and then the first base URL of
    the first service that lists the lower-cased text after the last dot
    of the domain (TLDs compared in lower case) followed by
    [domain/<name>]; when no service lists it, or the listed base is
    empty, the second request goes to [https://rdap.org/domain/<name>]. *)
Theorem query_rdap_target :
  forall (d : string) (h : list call) (members : dict)
         (services : list (list string * list string)),
    Py.lower d <> "neustar.biz" ->
    net_get_json h BOOTSTRAP_URL = Ok (JObj members) ->
    dict_get "services" members = Some (JList (map bootstrap_entry services)) ->
    snd (query_rdap d h)
    = h ++ [HttpGet BOOTSTRAP_URL; HttpGet (rdap_target d services)].
Proof.
  intros d h members services Hd Hnet Hserv.
  unfold query_rdap. apply String.eqb_neq in Hd. rewrite Hd.
  unfold try_except, http_get_json, lift, raise. unfold mbind, M_bind.
  rewrite Hnet. unfold py_get. rewrite Hserv. unfold py_iter.
  rewrite find_rdap_server_listed. unfold rdap_target.
  destruct (listed_server (Py.lower (Py.last_field "." d)) services) as [[|c base]|].
  - change (rdap_query_url (JStr "") d) with (Ok ("https://rdap.org/domain/" +:+ d)).
    cbv beta iota.
    destruct (net_get_json (h ++ [HttpGet BOOTSTRAP_URL]) _) as [data|e];
      [destruct (rdap_parse d data)|]; simpl; rewrite <- app_assoc; reflexivity.
  - assert (rdap_query_url (JStr (String c base)) d
            = Ok (String c base +:+ "domain/" +:+ d)) as ->.
    { unfold rdap_query_url.
      change (truthy (JStr (String c base))) with true. cbv beta iota delta [negb].
      destruct (Py.endswith "/" (String c base)); reflexivity. }
    cbv beta iota.
    destruct (net_get_json (h ++ [HttpGet BOOTSTRAP_URL]) _) as [data|e];
      [destruct (rdap_parse d data)|]; simpl; rewrite <- app_assoc; reflexivity.
  - change (rdap_query_url JNull d) with (Ok ("https://rdap.org/domain/" +:+ d)).
    cbv beta iota.
    destruct (net_get_json (h ++ [HttpGet BOOTSTRAP_URL]) _) as [data|e];
      [destruct (rdap_parse d data)|]; simpl; rewrite <- app_assoc; reflexivity.
Qed.

End QueryTarget.

Lemma query_rdap_target_witness :
  snd (@query_rdap Examples.runtime with_registry "Example.Org" [])
  = [] ++ [HttpGet BOOTSTRAP_URL; HttpGet "https://rdap.pir.exampledomain/Example.Org"].
Proof.
  apply (@query_rdap_target Examples.runtime with_registry "Example.Org" []
           [("version", JStr "1.0"); ("services", JList (map bootstrap_entry registry))]
           registry).
  - discriminate.
  - reflexivity.
  - reflexivity.
Defined.

(** ** A throttled bootstrap *)

Section Throttled.
Context `{Runtime} `{Network}.



End Throttled.


(** ** Normalising an RDAP answer of the usual form *)

Section UsualAnswer.
Context `{Runtime}.

Lemma first_where_entities ents :
  first_where (fun e => roles ← py_get e "roles" (JList []); py_in "registrar" roles)
              (map rdap_entity ents)
  = Ok (match List.find (fun e => existsb (fun r => String.eqb r "registrar") (fst e))
                        ents with
        | Some e => rdap_entity e
        | None => JNull
        end).
Proof.
  induction ents as [|[roles props] ents IH]; [reflexivity|].
  simpl first_where. simpl List.find.
  assert (existsb (fun x => eq_str x "registrar") (map JStr roles)
          = existsb (fun r => String.eqb r "registrar") roles) as Hroles.
  { clear. induction roles as [|r roles IHr]; simpl; [reflexivity|].
    rewrite IHr. reflexivity. }
  change (py_get (rdap_entity (roles, props)) "roles" (JList []))
    with (Ok (JList (map JStr roles))).
  change (Ok (JList (map JStr roles)) ≫= py_in "registrar")
    with (Ok (existsb (fun x => eq_str x "registrar") (map JStr roles))).
  rewrite Hroles.
  destruct (existsb (fun r => String.eqb r "registrar") roles); [reflexivity|exact IH].
Qed.

Lemma first_where_fn props :
  first_where (fun item => i0 ← py_index item 0; Ok (eq_str i0 "fn"))
              (map vcard_property props)
  = Ok (match List.find (fun p => String.eqb (fst p) "fn") props with
        | Some p => vcard_property p
        | None => JNull
        end).
Proof.
  induction props as [|[name value] props IH]; [reflexivity|].
  simpl. destruct (String.eqb name "fn"); [reflexivity|exact IH].
Qed.

Lemma registrar_of_document doc :
  registrar_of (JObj (rdap_document doc)) = Ok (JStr (doc_registrar doc)).
Proof.
  unfold registrar_of, doc_registrar.
  change (py_get (JObj (rdap_document doc)) "entities" (JList []))
    with (Ok (JList (map rdap_entity (doc_entities doc)))).
  change (Ok (JList (map rdap_entity (doc_entities doc))) ≫= ?k)
    with (k (JList (map rdap_entity (doc_entities doc)))).
  cbv beta. change (py_iter (JList ?l)) with (Ok l).
  change (Ok (map rdap_entity (doc_entities doc)) ≫= ?k)
    with (k (map rdap_entity (doc_entities doc))).
  cbv beta. rewrite first_where_entities.
  destruct (List.find _ (doc_entities doc)) as [[roles props]|]; [|reflexivity].
  change (Ok (rdap_entity (roles, props)) ≫= ?k) with (k (rdap_entity (roles, props))).
  cbv beta. change (truthy (rdap_entity (roles, props))) with true. cbv iota.
  change (py_get (rdap_entity (roles, props)) "vcardArray" (JList [JNull; JList []]))
    with (Ok (JList [JStr "vcard"; JList (map vcard_property props)])).
  destruct props as [|p props]; [reflexivity|].
  change (snd (roles, p :: props)) with (p :: props).
  pose proof (first_where_fn (p :: props)) as Hfn.
  simpl. simpl in Hfn. rewrite Hfn.
  destruct (String.eqb (fst p) "fn"); [reflexivity|].
  destruct (List.find _ props) as [q|]; reflexivity.
Qed.

Lemma collect_statuses_document doc :
  collect_statuses (rdap_document doc) = Ok (map JStr (doc_status doc)).
Proof.
  unfold collect_statuses. cbv zeta.
  change (dict_get "status" (rdap_document doc))
    with (Some (JList (map JStr (doc_status doc)))).
  change (dict_get "domainStatus" (rdap_document doc)) with (@None json).
  change (dict_get "handle" (rdap_document doc)) with (@None json).
  assert (forallb is_str (map JStr (doc_status doc)) = true) as Hall.
  { induction (doc_status doc) as [|s l IH]; simpl; [reflexivity|exact IH]. }
  cbv iota. destruct (doc_status doc) as [|s l]; [reflexivity|].
  change (truthy (JList (map JStr (s :: l)))) with true. cbv iota.
  rewrite Hall. simpl. rewrite app_nil_r. reflexivity.
Qed.

Lemma creation_date_document doc :
  rdap_creation_date (JObj (rdap_document doc)) = Ok (JStr (doc_creation_date doc)).
Proof.
  unfold rdap_creation_date, doc_creation_date.
  change (py_get (JObj (rdap_document doc)) "events" (JList []))
    with (Ok (JList (map rdap_event (doc_events doc)))).
  change (Ok (JList (map rdap_event (doc_events doc))) ≫= ?k)
    with (k (JList (map rdap_event (doc_events doc)))).
  cbv beta. change (py_iter (JList ?l)) with (Ok l).
  change (Ok (map rdap_event (doc_events doc)) ≫= ?k)
    with (k (map rdap_event (doc_events doc))).
  cbv beta.
  induction (doc_events doc) as [|[action date] evs IH]; [reflexivity|].
  simpl. destruct (String.eqb action "registration"); [reflexivity|exact IH].
Qed.

Lemma ldh_names_document names :
  ldh_names (map rdap_nameserver names)
  = Ok (map JStr (List.filter (fun n => negb (Py.is_empty n)) names)).
Proof.
  induction names as [|n names IH]; [reflexivity|].
  simpl. rewrite IH. simpl. destruct (Py.is_empty n); reflexivity.
Qed.

Lemma nameservers_document doc :
  rdap_nameservers (JObj (rdap_document doc))
  = Ok (map JStr (doc_nameserver_names doc)).
Proof.
  unfold rdap_nameservers, doc_nameserver_names.
  change (py_get (JObj (rdap_document doc)) "nameservers" JNull)
    with (Ok (JList (map rdap_nameserver (doc_nameservers doc)))).
  destruct (doc_nameservers doc) as [|n names] eqn:Hn; [reflexivity|].
  change (Ok (JList (map rdap_nameserver (n :: names))) ≫= ?k)
    with (k (JList (map rdap_nameserver (n :: names)))).
  cbv beta. change (truthy (JList (map rdap_nameserver (n :: names)))) with true.
  cbv iota. change (py_iter (JList ?l)) with (Ok l).
  change (Ok (map rdap_nameserver (n :: names)) ≫= ?k)
    with (k (map rdap_nameserver (n :: names))).
  cbv beta. rewrite ldh_names_document.
  destruct (List.filter _ (n :: names)); reflexivity.
Qed.

(** X21. An RDAP answer of the usual form is normalised as it reads: the
    registrar is the [fn] text of the first entity with the role
    [registrar], the statuses are the formatted status strings, the
    creation date is the date of the first [registration] event, the
    name servers are the host names that are not empty; what is missing
    is the sentinel ["Not found"], and the two fields RDAP does not give
    say so. *)
Theorem rdap_parse_usual_answer :
  forall (d : string) (doc : rdap_doc),
    Py.lower d <> "neustar.biz" ->
    rdap_parse d (JObj (rdap_document doc))
    = Ok [("domain", JStr d);
          ("registrar", JStr (doc_registrar doc));
          ("statuses",
           JList (map JStr
                    (match doc_status doc with
                     | [] => [NOT_FOUND]
                     | _ :: _ => format_statuses (map JStr (doc_status doc))
                     end)));
          ("creation_date", JStr (doc_creation_date doc));
          ("registrant_name", JStr "Not available via RDAP");
          ("nexus_categories", JStr "Not available via RDAP");
          ("nameservers", JList (map JStr (doc_nameserver_names doc)))].
Proof.
  intros d doc Hd. unfold rdap_parse.
  rewrite registrar_of_document.
  unfold rdap_statuses. rewrite collect_statuses_document.
  rewrite creation_date_document, nameservers_document.
  apply String.eqb_neq in Hd.
  destruct (doc_status doc) as [|s l]; simpl; [rewrite Hd|]; reflexivity.
Qed.

End UsualAnswer.

Lemma rdap_parse_usual_answer_witness :
  @rdap_parse Examples.runtime "example.com" (JObj (rdap_document example_doc))
  = Ok [("domain", JStr "example.com");
        ("registrar", JStr "Example Registrar, Inc.");
        ("statuses",
         JList [JStr "client transfer prohibited"; JStr "active";
                JStr "clientTransferProhibited"]);
        ("creation_date", JStr "1997-09-15T04:00:00Z");
        ("registrant_name", JStr "Not available via RDAP");
        ("nexus_categories", JStr "Not available via RDAP");
        ("nameservers", JList [JStr "ns1.example.net"; JStr "ns2.example.net"])].
Proof.
  exact (@rdap_parse_usual_answer Examples.runtime "example.com" example_doc
           ltac:(discriminate)).
Defined.

(** ** The HTTP client of the endpoint *)

Section ClosedClient.
Context `{Runtime} `{Network}.







End ClosedClient.


(** In a world where the RDAP servers answer, the generator with an open
    client returns the RDAP record, and the endpoint returns the record
    of the WHOIS fallback. *)
Example endpoint_falls_back_where_rdap_answers :
  @lookup_and_stream_generator Examples.runtime rdap_answers
    (cleaned_request one_domain) []
  = ([total_event 1; message_event "Lookup started";
      result_event [("registrar", JStr "Example Registrar, Inc.");
                    ("domain", JStr "example.com"); ("_method", JStr "RDAP")]],
     [HttpGet BOOTSTRAP_URL;
      HttpGet "https://rdap.verisign.example/v1/domain/example.com"])
  /\ @whois_lookup_endpoint Examples.runtime rdap_answers one_domain []
     = ([total_event 1; message_event "Lookup started";
         result_event [("registrar", JStr "Example Registrar");
                       ("domain", JStr "example.com");
                       ("_method", JStr "WHOIS (RDAP fallback)")]],
        [HttpGet BOOTSTRAP_URL; WhoisQuery "example.com"]).
Proof. split; vm_compute; reflexivity. Qed.
